(** * The LocalLibrary catalog controllers: validation and delete/update guards

    A shallow embedding of the Express route handlers of the catalog
    (genre, author, book and book-instance controllers), of the part of
    express-validator and validator.js they call, and of the Mongoose
    collections they query, followed by the properties of the validation
    pipeline and of the guards.

    Conventions of the model.
    - A JavaScript string is a Rocq [string]: a sequence of code units in the
      range 0..255.
    - An ObjectId is represented by its text.  A route parameter or a body
      field handed to a query as an id is taken to be the text of a
      well-formed ObjectId, so the CastError paths of the queries are outside
      the model.  In [new Model({...})] an ObjectId path given the empty
      string stays unset, as Mongoose leaves a path it cannot cast.
    - The database is reachable: a query or a write returns its result.  The
      errors in the model are the ones the handlers raise themselves
      ([throw], or reading a property of [null]) and the one [save] raises
      for a document its schema does not accept.
    - The Mongoose schemas are not part of the sources: their paths and
      validators are the ones of the data model of the spec (required
      fields, the fixed set and the default of the status of a BookInstance,
      both parameters).  What the spec does not state, a length limit or a
      default for a date, is taken not to exist.
    - A handler is run on a store and yields the new store, the calls it made
      on [res] and [next] in order, and whether its promise was rejected.  A
      call made on [res] after the response was sent is recorded like any
      other; what Express does with it is outside the model. *)

From Stdlib Require Import String Ascii NArith List Permutation Sorted.
From stdpp Require Import base option list sorting strings gmap.

Import ListNotations.
Local Open Scope string_scope.
Local Open Scope list_scope.

(** ** JavaScript values held by [req.body] *)

Inductive Atom : Type :=
| AUndefined
| ANull
| AStr (s : string)
| ADate (iso : string).

(** A body field is a single value, or an array when the field was submitted
    more than once. *)
Inductive JsValue : Type :=
| JAtom (a : Atom)
| JArr (xs : list Atom).

Coercion JAtom : Atom >-> JsValue.

Definition JStr (s : string) : JsValue := JAtom (AStr s).

(** [!value] for the values above: the empty string, [null] and [undefined]
    are falsy, every array and every Date is truthy. *)
Definition falsy (v : JsValue) : bool :=
  match v with
  | JAtom AUndefined | JAtom ANull => true
  | JAtom (AStr s) => bool_decide (s = EmptyString)
  | JAtom (ADate _) => false
  | JArr _ => false
  end.

(** ** The date functions of the platform

    A Date is identified by its [toISOString()] text.  [isISO8601_str] is
    validator.js's regular expression and [dateParse] is [Date.parse]
    ([None] for NaN); the controllers only pass values through them, so they
    are kept abstract. *)
Class DateLib : Type := {
  isISO8601_str : string -> bool;
  dateParse : string -> option string
}.

(** Modelled from the spec: the status of a BookInstance is one of a fixed
    set of availability states, and a default is applied when it is absent
    (models/bookinstance.js is not part of the sources).  The spec names
    neither the states nor the default, so both are parameters. *)
Class StatusEnum : Type := {
  status_values : list string;
  status_default : string
}.

(** ** validator.js: the string functions used by the chains *)

Module Validator.

(** The code units matched by [\s] below 256. *)
Definition is_space (c : ascii) : bool :=
  let n := nat_of_ascii c in
  (Nat.leb 9 n && Nat.leb n 13) || Nat.eqb n 32 || Nat.eqb n 160.

Fixpoint ltrim (s : string) : string :=
  match s with
  | EmptyString => EmptyString
  | String c s' => if is_space c then ltrim s' else s
  end.

(** [rtrim] walks back from the last code unit while it is a space. *)
Fixpoint rtrim (s : string) : string :=
  match s with
  | EmptyString => EmptyString
  | String c s' =>
      match rtrim s' with
      | EmptyString => if is_space c then EmptyString else String c EmptyString
      | r => String c r
      end
  end.

Definition trim (s : string) : string := rtrim (ltrim s).

(** [str.replace(/c/g, by)] for a single code unit [c]. *)
Fixpoint replace_all (c : ascii) (by_ : string) (s : string) : string :=
  match s with
  | EmptyString => EmptyString
  | String d s' =>
      if Ascii.eqb c d then by_ ++ replace_all c by_ s'
      else String d (replace_all c by_ s')
  end.

Definition quot : ascii := ascii_of_nat 34.

(** [escape]: eight global replacements, in the library's order. *)
Definition escape (s : string) : string :=
  replace_all "`" "&#96;"
    (replace_all "\" "&#x5C;"
      (replace_all "/" "&#x2F;"
        (replace_all ">" "&gt;"
          (replace_all "<" "&lt;"
            (replace_all "'" "&#x27;"
              (replace_all quot "&quot;"
                (replace_all "&" "&amp;" s))))))).

(** [isLength(str, { min })] without a maximum. *)
Definition isLength (min : nat) (s : string) : bool :=
  Nat.leb min (String.length s).

Definition is_alnum (c : ascii) : bool :=
  let n := nat_of_ascii c in
  (Nat.leb 48 n && Nat.leb n 57) || (Nat.leb 65 n && Nat.leb n 90)
  || (Nat.leb 97 n && Nat.leb n 122).

Fixpoint all_alnum (s : string) : bool :=
  match s with
  | EmptyString => true
  | String c s' => is_alnum c && all_alnum s'
  end.

(** [isAlphanumeric(str)] for the default locale: [/^[0-9A-Z]+$/i]. *)
Definition isAlphanumeric (s : string) : bool :=
  match s with
  | EmptyString => false
  | _ => all_alnum s
  end.

(** [toDate]: a Date when [Date.parse] succeeds, [null] otherwise. *)
Definition toDate `{DateLib} (s : string) : Atom :=
  match dateParse s with
  | Some d => ADate d
  | None => ANull
  end.

End Validator.

(** ** express-validator: validation chains over [req.body] *)

Record ValidationError : Type := mkValidationError {
  ve_value : Atom;
  ve_msg : string;
  ve_param : string
}.

Module ExpressValidator.

(** A chain is a stack of standard sanitizers and standard validators;
    both are given the value turned into a string. *)
Inductive ChainItem : Type :=
| Sanitizer (f : string -> Atom)
| StdValidator (p : string -> bool) (message : option string).

(** [each] is set for a path ending in [.*]: the chain then runs on the
    elements of the array held by [field]. *)
Record ValidationChain : Type := mkChain {
  field : string;
  each : bool;
  chain_message : option string;
  optional_checkFalsy : bool;
  stack : list ChainItem
}.

Definition body (f : string) (msg : option string) : ValidationChain :=
  mkChain f false msg false [].

(** [body(f + ".*")] *)
Definition body_each (f : string) : ValidationChain :=
  mkChain f true None false [].

Definition addItem (i : ChainItem) (c : ValidationChain) : ValidationChain :=
  mkChain (field c) (each c) (chain_message c) (optional_checkFalsy c)
    (stack c ++ [i]).

Definition trim := addItem (Sanitizer (fun s => AStr (Validator.trim s))).
Definition escape := addItem (Sanitizer (fun s => AStr (Validator.escape s))).
Definition toDate `{DateLib} := addItem (Sanitizer Validator.toDate).
Definition isLength (min : nat) :=
  addItem (StdValidator (Validator.isLength min) None).
Definition isAlphanumeric :=
  addItem (StdValidator Validator.isAlphanumeric None).
Definition isISO8601 `{DateLib} := addItem (StdValidator isISO8601_str None).

(** [.optional({ checkFalsy: true })] is a property of the whole chain. *)
Definition optional (c : ValidationChain) : ValidationChain :=
  mkChain (field c) (each c) (chain_message c) true (stack c).

Fixpoint set_first_message (m : string) (l : list ChainItem) : list ChainItem :=
  match l with
  | [] => []
  | StdValidator p _ :: t => StdValidator p (Some m) :: t
  | i :: t => i :: set_first_message m t
  end.

(** [.withMessage(m)] sets the message of the last validator added, also
    when sanitizers were added after it. *)
Definition withMessage (m : string) (c : ValidationChain) : ValidationChain :=
  mkChain (field c) (each c) (chain_message c) (optional_checkFalsy c)
    (rev (set_first_message m (rev (stack c)))).

(** The library's [toString] on one value. *)
Definition toString (a : Atom) : string :=
  match a with
  | AUndefined | ANull => EmptyString
  | AStr s => s
  | ADate iso => iso
  end.

Definition get (f : string) (b : gmap string JsValue) : JsValue :=
  default (JAtom AUndefined) (b !! f).

(** A sanitizer maps over an array and replaces a single value. *)
Definition sanitize (f : string -> Atom) (v : JsValue) : JsValue :=
  match v with
  | JAtom a => JAtom (f (toString a))
  | JArr xs => JArr (map (fun a => f (toString a)) xs)
  end.

Definition values_of (v : JsValue) : list Atom :=
  match v with
  | JAtom a => [a]
  | JArr xs => xs
  end.

(** A validator reports one error for each value it rejects; the message
    is its own, else the chain's, else the default one. *)
Definition validate (c : ValidationChain) (p : string -> bool)
    (message : option string) (v : JsValue) : list ValidationError :=
  let msg := default (default "Invalid value" (chain_message c)) message in
  map (fun a => mkValidationError a msg (field c))
      (List.filter (fun a => negb (p (toString a))) (values_of v)).

(** The values a chain item runs on: the field itself, or for a [.*] path
    the array it holds (nothing when it holds no array). *)
Definition instance (c : ValidationChain) (b : gmap string JsValue) : option JsValue :=
  if each c then
    match get (field c) b with
    | JArr xs => Some (JArr xs)
    | JAtom _ => None
    end
  else Some (get (field c) b).

(** One item of the stack: skipped when the chain is optional and the
    current value is falsy; a sanitizer writes its result back to the body. *)
Definition run_item (c : ValidationChain)
    (st : gmap string JsValue * list ValidationError) (i : ChainItem)
    : gmap string JsValue * list ValidationError :=
  let '(b, errors) := st in
  match instance c b with
  | None => (b, errors)
  | Some v =>
      if optional_checkFalsy c && falsy v then (b, errors)
      else match i with
           | Sanitizer f => (<[field c := sanitize f v]> b, errors)
           | StdValidator p m => (b, errors ++ validate c p m v)
           end
  end.

Definition run (c : ValidationChain)
    (st : gmap string JsValue * list ValidationError)
    : gmap string JsValue * list ValidationError :=
  fold_left (run_item c) (stack c) st.

(** The chains of a route run one after the other; [validationResult(req)]
    then holds the errors of all of them in order. *)
Definition run_all (cs : list ValidationChain)
    (b : gmap string JsValue) : gmap string JsValue * list ValidationError :=
  fold_left (fun st c => run c st) cs (b, []).

End ExpressValidator.

Notation "c '|>' f" := (f c) (at level 45, left associativity, only parsing).

(** ** The documents and the store *)

(** An ObjectId by its text, a Date by its ISO text. *)
Abbreviation ObjectId := string (only parsing).
Abbreviation Date := string (only parsing).

(** Modelled from the spec: the Mongoose schemas (models/genre.js,
    models/author.js, models/book.js and models/bookinstance.js are not part
    of the sources).  The fields are the ones of the data model; a String
    path that is unset is the empty string, a Date path that is unset or
    [null] is [None]. *)
Record GenreDoc : Type := mkGenre {
  g_id : ObjectId;
  g_name : string
}.

Record AuthorDoc : Type := mkAuthor {
  a_id : ObjectId;
  a_first_name : string;
  a_family_name : string;
  a_date_of_birth : option Date;
  a_date_of_death : option Date
}.

Record BookDoc : Type := mkBook {
  b_id : ObjectId;
  b_title : string;
  b_author : ObjectId;
  b_summary : string;
  b_isbn : string;
  b_genre : list ObjectId
}.

Record BookInstanceDoc : Type := mkBookInstance {
  bi_id : ObjectId;
  bi_book : ObjectId;
  bi_imprint : string;
  bi_status : string;
  bi_due_back : option Date
}.

(** Modelled from the spec: the [url] virtual of each schema, the detail
    location [/catalog/{kind}/{id}] of the record. *)
Definition genre_url (g : GenreDoc) : string := "/catalog/genre/" ++ g_id g.
Definition author_url (a : AuthorDoc) : string := "/catalog/author/" ++ a_id a.
Definition book_url (b : BookDoc) : string := "/catalog/book/" ++ b_id b.
Definition bookinstance_url (c : BookInstanceDoc) : string :=
  "/catalog/bookinstance/" ++ bi_id c.

(** A collection keeps its documents in insertion order. *)
Record Store : Type := mkStore {
  genres : list GenreDoc;
  authors : list AuthorDoc;
  books : list BookDoc;
  bookinstances : list BookInstanceDoc
}.

(** Documents after [populate]: a reference is replaced by the document it
    names, or by [null] when there is none. *)
Record PopBook : Type := mkPopBook {
  pb_doc : BookDoc;
  pb_author : option AuthorDoc;
  pb_genre : option (list GenreDoc)
}.

Record PopBookInstance : Type := mkPopBookInstance {
  pbi_doc : BookInstanceDoc;
  pbi_book : option BookDoc
}.

(** ** Requests, responses and errors *)

Record Request : Type := mkRequest {
  params_id : string;
  req_body : gmap string JsValue
}.

Inductive Err : Type :=
| HttpError (message : string) (status : nat)
| Error (message : string)
| TypeError (message : string)
| ValidationFailed (model : string) (paths : list string).

(** The values handed to a view. *)
Inductive Local : Type :=
| LStr (s : string)
| LId (i : ObjectId)
| LGenre (g : option GenreDoc)
| LGenres (gs : list GenreDoc)
| LGenreChoices (gs : list (GenreDoc * bool))
| LAuthor (a : option AuthorDoc)
| LAuthors (l : list AuthorDoc)
| LBook (b : BookDoc)
| LBooks (l : list BookDoc)
| LPopBook (b : option PopBook)
| LPopBooks (l : list PopBook)
| LBookInstance (c : BookInstanceDoc)
| LBookInstances (l : list BookInstanceDoc)
| LPopBookInstance (c : option PopBookInstance)
| LPopBookInstances (l : list PopBookInstance)
| LBody (b : gmap string JsValue)
| LErrors (es : list ValidationError).

(** The calls a handler makes on [res] and on [next]. *)
Inductive Call : Type :=
| Render (view : string) (locals : list (string * Local))
| Redirect (url : string)
| Next (e : Err).

(** ** The handler monad: store, calls made so far, thrown error *)

Record Result (A : Type) : Type := mkResult {
  res_store : Store;
  res_calls : list Call;
  res_value : Err + A
}.
Arguments mkResult {A} _ _ _.
Arguments res_store {A} _.
Arguments res_calls {A} _.
Arguments res_value {A} _.

Definition M (A : Type) : Type := Store -> Result A.

Definition ret {A} (a : A) : M A := fun s => mkResult s [] (inr a).

Definition bind {A B} (m : M A) (f : A -> M B) : M B := fun s =>
  match m s with
  | mkResult s1 calls1 (inl e) => mkResult s1 calls1 (inl e)
  | mkResult s1 calls1 (inr a) =>
      match f a s1 with
      | mkResult s2 calls2 v => mkResult s2 (calls1 ++ calls2) v
      end
  end.

Definition throw {A} (e : Err) : M A := fun s => mkResult s [] (inl e).

(** [try { m } catch (err) { h(err) }] *)
Definition try_catch {A} (m : M A) (h : Err -> M A) : M A := fun s =>
  match m s with
  | mkResult s1 calls1 (inl e) =>
      match h e s1 with
      | mkResult s2 calls2 v => mkResult s2 (calls1 ++ calls2) v
      end
  | r => r
  end.

Definition call (c : Call) : M unit := fun s => mkResult s [c] (inr tt).
Definition render (view : string) (locals : list (string * Local)) : M unit :=
  call (Render view locals).
Definition redirect (url : string) : M unit := call (Redirect url).
Definition next (e : Err) : M unit := call (Next e).

Definition query {A} (f : Store -> A) : M A := fun s => mkResult s [] (inr (f s)).
Definition write (f : Store -> Store) : M unit := fun s => mkResult (f s) [] (inr tt).

Global Instance M_ret : MRet M := @ret.
Global Instance M_bind : MBind M := fun A B f m => bind m f.

(** Reading a property of a value that may be [null]. *)
Definition deref {A} (o : option A) (what : string) : M A :=
  match o with
  | Some a => mret a
  | None => throw (TypeError ("Cannot read properties of null (reading '" ++ what ++ "')"))
  end.

(** ** Mongoose: the model functions the controllers call *)

(** A model: its collection in the store, the id of a document, and
    [assign paths d old], the record [old] after a [$set] of the listed
    paths to the values the document [d] holds (the id is the one of the
    record). *)
Record Model (A : Type) : Type := mkModel {
  docs : Store -> list A;
  set_docs : list A -> Store -> Store;
  oid : A -> ObjectId;
  assign : list string -> A -> A -> A
}.
Arguments docs {A} _ _.
Arguments set_docs {A} _ _ _.
Arguments oid {A} _ _.
Arguments assign {A} _ _ _ _.

(** The value of a path after a [$set] of [paths]. *)
Definition pick {B} (paths : list string) (path : string) (new old : B) : B :=
  if existsb (String.eqb path) paths then new else old.

Definition Genre : Model GenreDoc :=
  mkModel GenreDoc genres
    (fun l s => mkStore l (authors s) (books s) (bookinstances s)) g_id
    (fun paths d old =>
       mkGenre (g_id old) (pick paths "name" (g_name d) (g_name old))).
Definition Author : Model AuthorDoc :=
  mkModel AuthorDoc authors
    (fun l s => mkStore (genres s) l (books s) (bookinstances s)) a_id
    (fun paths d old =>
       mkAuthor (a_id old)
         (pick paths "first_name" (a_first_name d) (a_first_name old))
         (pick paths "family_name" (a_family_name d) (a_family_name old))
         (pick paths "date_of_birth" (a_date_of_birth d) (a_date_of_birth old))
         (pick paths "date_of_death" (a_date_of_death d) (a_date_of_death old))).
Definition Book : Model BookDoc :=
  mkModel BookDoc books
    (fun l s => mkStore (genres s) (authors s) l (bookinstances s)) b_id
    (fun paths d old =>
       mkBook (b_id old)
         (pick paths "title" (b_title d) (b_title old))
         (pick paths "author" (b_author d) (b_author old))
         (pick paths "summary" (b_summary d) (b_summary old))
         (pick paths "isbn" (b_isbn d) (b_isbn old))
         (pick paths "genre" (b_genre d) (b_genre old))).
Definition BookInstance : Model BookInstanceDoc :=
  mkModel BookInstanceDoc bookinstances
    (fun l s => mkStore (genres s) (authors s) (books s) l) bi_id
    (fun paths d old =>
       mkBookInstance (bi_id old)
         (pick paths "book" (bi_book d) (bi_book old))
         (pick paths "imprint" (bi_imprint d) (bi_imprint old))
         (pick paths "status" (bi_status d) (bi_status old))
         (pick paths "due_back" (bi_due_back d) (bi_due_back old))).

(** Modelled from the spec: the validators of the schemas (the model files
    are not part of the sources).  Genre: the name is a non-empty string.
    Author: first name and family name are required.  Book: all scalar
    fields are required.  BookInstance: the imprint is required and the
    status is one of the fixed set.  [invalid_paths] lists the paths a
    document fails on, in the order of the schema. *)
Record Schema (A : Type) : Type := mkSchema {
  schema_name : string;
  invalid_paths : A -> list string
}.
Arguments schema_name {A} _.
Arguments invalid_paths {A} _ _.

(** A required String or ObjectId path: empty or unset is invalid. *)
Definition required (path : string) (v : string) : list string :=
  if bool_decide (v = EmptyString) then [path] else [].

(** An enum path: a value outside the set is invalid, the empty string
    included. *)
Definition one_of (path : string) (values : list string) (v : string) : list string :=
  if existsb (String.eqb v) values then [] else [path].

Definition GenreSchema : Schema GenreDoc :=
  mkSchema GenreDoc "Genre" (fun g => required "name" (g_name g)).
Definition AuthorSchema : Schema AuthorDoc :=
  mkSchema AuthorDoc "Author"
    (fun a => required "first_name" (a_first_name a)
              ++ required "family_name" (a_family_name a)).
Definition BookSchema : Schema BookDoc :=
  mkSchema BookDoc "Book"
    (fun b => required "title" (b_title b) ++ required "author" (b_author b)
              ++ required "summary" (b_summary b) ++ required "isbn" (b_isbn b)).
Definition BookInstanceSchema `{StatusEnum} : Schema BookInstanceDoc :=
  mkSchema BookInstanceDoc "BookInstance"
    (fun c => required "imprint" (bi_imprint c)
              ++ one_of "status" status_values (bi_status c)).

Section Collection.
Context {A : Type} (key : A -> ObjectId).

Definition has_id (id : ObjectId) (d : A) : bool := String.eqb (key d) id.

Definition lookup_id (id : option ObjectId) (l : list A) : option A :=
  match id with
  | Some i => List.find (has_id i) l
  | None => None
  end.

(** Remove the first document with the id. *)
Fixpoint remove_id (id : ObjectId) (l : list A) : list A :=
  match l with
  | [] => []
  | d :: t => if has_id id d then t else d :: remove_id id t
  end.

(** Update the first document with the id. *)
Fixpoint update_id (id : ObjectId) (f : A -> A) (l : list A) : list A :=
  match l with
  | [] => []
  | d :: t => if has_id id d then f d :: t else d :: update_id id f t
  end.
End Collection.

(** [Model.find()] and [Model.find(filter)]: the matching documents in
    collection order. *)
Definition find {A} (m : Model A) (filter : A -> bool) : M (list A) :=
  query (fun s => List.filter filter (docs m s)).

Definition findOne {A} (m : Model A) (filter : A -> bool) : M (option A) :=
  query (fun s => List.find filter (docs m s)).

(** [Model.findById(id)]; an id that is [undefined] or [null] names no
    document. *)
Definition findById {A} (m : Model A) (id : option ObjectId) : M (option A) :=
  query (fun s => lookup_id (oid m) id (docs m s)).

(** [doc.save()] of a new document: the validators of the schema run first,
    and a document with an invalid path is not stored: the promise is
    rejected with the ValidationError of the model. *)
Definition save {A} (m : Model A) (sch : Schema A) (d : A) : M A :=
  match invalid_paths sch d with
  | [] => write (fun s => set_docs m (docs m s ++ [d]) s);; mret d
  | paths => throw (ValidationFailed (schema_name sch) paths)
  end.

(** [Model.findByIdAndRemove(id)] *)
Definition findByIdAndRemove {A} (m : Model A) (id : option ObjectId) : M unit :=
  match id with
  | Some i => write (fun s => set_docs m (remove_id (oid m) i (docs m s)) s)
  | None => mret tt
  end.

(** [Model.findByIdAndUpdate(id, doc, {})]: Mongoose sends a [$set] of the
    paths the document [doc] holds, here [paths]: those paths of the record
    take the values of [doc], the others keep theirs.  No validator runs.
    The result is the record as it was before the update, or [null] when
    there is none (nothing is inserted). *)
Definition findByIdAndUpdate {A} (m : Model A) (id : ObjectId) (d : A)
    (paths : list string) : M (option A) :=
  old ← findById m (Some id);
  write (fun s => set_docs m (update_id (oid m) id (assign m paths d) (docs m s)) s);;
  mret old.

(** [.sort([[key, "ascending"]])] and [.sort({ key: 1 })] on a String path:
    ascending in the order of the code units. *)
Definition key_le {A} (key : A -> string) : relation A :=
  fun x y => String.leb (key x) (key y) = true.

Global Instance key_le_dec {A} (key : A -> string) (x y : A) :
  Decision (key_le key x y).
Proof. unfold key_le. apply _. Defined.

Definition sort_by {A} (key : A -> string) (l : list A) : list A :=
  merge_sort (key_le key) l.

(** The casts [new Model({...})] applies to the fields it is given. *)
Definition str_of (v : JsValue) : string :=
  match v with
  | JAtom (AStr s) => s
  | _ => EmptyString
  end.

Definition id_of (v : JsValue) : option ObjectId :=
  match v with
  | JAtom (AStr s) => Some s
  | _ => None
  end.

(** An ObjectId path of a new document: unset for the empty string. *)
Definition ref_of (v : JsValue) : option ObjectId :=
  match v with
  | JAtom (AStr s) => if bool_decide (s = EmptyString) then None else Some s
  | _ => None
  end.

(** A filter [{ path: id }] on an ObjectId path or an array of them. *)
Definition refers (id : option ObjectId) (x : ObjectId) : bool :=
  match id with
  | Some i => String.eqb x i
  | None => false
  end.

Definition date_of (v : JsValue) : option Date :=
  match v with
  | JAtom (ADate d) => Some d
  | _ => None
  end.

Definition ids_of (v : JsValue) : list ObjectId :=
  match v with
  | JArr xs => map ExpressValidator.toString xs
  | JAtom (AStr s) => [s]
  | JAtom _ => []
  end.

(** Whether [new Model({ path: v })] leaves the path holding a value (a
    Date path: [null] for the empty string).  [undefined] sets nothing, and
    neither does a value the path cannot cast. *)
Definition holds_str (v : JsValue) : bool :=
  match v with
  | JAtom AUndefined | JArr _ => false
  | JAtom _ => true
  end.

Definition holds_ref (v : JsValue) : bool :=
  match ref_of v with
  | Some _ => true
  | None => false
  end.

Definition holds_date (v : JsValue) : bool :=
  match v with
  | JAtom AUndefined | JArr _ => false
  | JAtom (AStr s) => bool_decide (s = EmptyString)
  | JAtom _ => true
  end.

(** The paths among [l] that hold a value. *)
Definition held (l : list (string * bool)) : list string :=
  map fst (List.filter snd l).

(** ** The Genre controller (src/unnamed/part_000) *)

Import ExpressValidator.

(** Display list of all Genre. *)
Definition genre_list (req : Request) : M unit :=
  try_catch (
    list_genres ← (l ← find Genre (fun _ => true); mret (sort_by g_name l));
    render "genre_list"
      [("title", LStr "Genre List"); ("genre_list", LGenres list_genres)])
  (fun err => next err).

(** Display detail page for a specific Genre. *)
Definition genre_detail (req : Request) : M unit :=
  try_catch (
    let id := params_id req in
    genre ← findById Genre (Some id);
    genre_books ← find Book (fun b => existsb (refers (Some id)) (b_genre b));
    match genre with
    | None => throw (HttpError "Genre not found" 404)
    | Some _ =>
        render "genre_detail"
          [("title", LStr "Genre Detail"); ("genre", LGenre genre);
           ("genre_books", LBooks genre_books)]
    end)
  (fun err => next err).

(** The chain of both Genre forms. *)
Definition genre_chains : list ValidationChain :=
  [ body "name" (Some "Genre name required") |> trim |> isLength 1 |> escape ].

(** The paths [new Genre({ name })] holds. *)
Definition genre_paths (body : gmap string JsValue) : list string :=
  held [("name", holds_str (get "name" body))].

(** Handle Genre create on POST.  [new_id] is the id that [new Genre(...)]
    gives the document. *)
Definition genre_create_post (new_id : ObjectId) (req : Request) : M unit :=
  let '(body, errors) := run_all genre_chains (req_body req) in
  let genre := mkGenre new_id (str_of (get "name" body)) in
  if negb (bool_decide (errors = [])) then
    render "genre_form"
      [("title", LStr "Create Genre"); ("genre", LGenre (Some genre));
       ("errors", LErrors errors)]
  else
    try_catch (
      found_genre ← findOne Genre (fun g => String.eqb (g_name g) (str_of (get "name" body)));
      match found_genre with
      | Some g => redirect (genre_url g)
      | None =>
          saved_genre ← save Genre GenreSchema genre;
          redirect (genre_url saved_genre)
      end)
    (fun err => next err).

(** Display Genre delete form on GET.  The redirect for a missing record is
    not followed by a [return]: the handler goes on to [res.render]. *)
Definition genre_delete_get (req : Request) : M unit :=
  try_catch (
    genre ← findById Genre (Some (params_id req));
    genre_books ← find Book (fun b => existsb (refers (Some (params_id req))) (b_genre b));
    (match genre with
     | None => redirect "/catalog/genres"
     | Some _ => mret tt
     end);;
    render "genre_delete"
      [("title", LStr "Delete Genre"); ("genre", LGenre genre);
       ("genre_books", LBooks genre_books)])
  (fun err => next err).

(** Handle Genre delete on POST. *)
Definition genre_delete_post (req : Request) : M unit :=
  try_catch (
    let genreid := id_of (get "genreid" (req_body req)) in
    genre ← findById Genre genreid;
    genre_books ← find Book (fun b => existsb (refers genreid) (b_genre b));
    if negb (bool_decide (genre_books = [])) then
      render "genre_delete"
        [("title", LStr "Delete genre"); ("genre", LGenre genre);
         ("genre_books", LBooks genre_books)]
    else
      findByIdAndRemove Genre genreid;;
      redirect "/catalog/genres")
  (fun err => next err).

(** Display Genre update form on GET. *)
Definition genre_update_get (req : Request) : M unit :=
  try_catch (
    genre ← findById Genre (Some (params_id req));
    match genre with
    | None => throw (HttpError "Genre not found" 404)
    | Some _ =>
        render "genre_form" [("title", LStr "Update Genre"); ("genre", LGenre genre)]
    end)
  (fun err => next err).

(** Handle Genre update on POST.  In the branch of the validation errors the
    inner [const [genre]] shadows the document built from the request. *)
Definition genre_update_post (req : Request) : M unit :=
  let '(body, errors) := run_all genre_chains (req_body req) in
  let genre := mkGenre (params_id req) (str_of (get "name" body)) in
  if negb (bool_decide (errors = [])) then
    genre ← findById Genre (Some (params_id req));
    render "genre_form"
      [("title", LStr "Update Genre"); ("genre", LGenre genre);
       ("errors", LErrors errors)]
  else
    try_catch (
      found_genre ← findOne Genre (fun g => String.eqb (g_name g) (str_of (get "name" body)));
      match found_genre with
      | Some _ => throw (Error "Genre already exists")
      | None =>
          thegenre ← findByIdAndUpdate Genre (params_id req) genre (genre_paths body);
          thegenre ← deref thegenre "url";
          redirect (genre_url thegenre)
      end)
    (fun err => next err).

(** ** Projections and [populate] *)

(** [Book.find({}, "title")] and [Book.find({}, "title author")]: the paths
    left out of the projection are unset. *)
Definition select_title (b : BookDoc) : BookDoc :=
  mkBook (b_id b) (b_title b) EmptyString EmptyString EmptyString [].

Definition select_title_author (b : BookDoc) : BookDoc :=
  mkBook (b_id b) (b_title b) (b_author b) EmptyString EmptyString [].

Definition select_title_summary (b : BookDoc) : BookDoc :=
  mkBook (b_id b) (b_title b) EmptyString (b_summary b) EmptyString [].

Definition populate_author (b : BookDoc) : M PopBook :=
  query (fun s => mkPopBook b (lookup_id a_id (Some (b_author b)) (authors s)) None).

(** [populate("genre")] keeps the genres that exist, in the order of the ids. *)
Definition populate_genre (b : PopBook) : M PopBook :=
  query (fun s =>
    mkPopBook (pb_doc b) (pb_author b)
      (Some (omap (fun i => lookup_id g_id (Some i) (genres s)) (b_genre (pb_doc b))))).

Definition populate_book (c : BookInstanceDoc) : M PopBookInstance :=
  query (fun s => mkPopBookInstance c (lookup_id b_id (Some (bi_book c)) (books s))).

(** [populate] on the result of [find]. *)
Fixpoint populate_all {A B} (f : A -> M B) (l : list A) : M (list B) :=
  match l with
  | [] => mret []
  | d :: t => d' ← f d; t' ← populate_all f t; mret (d' :: t')
  end.

(** [populate] on the result of [findById], which may be [null]. *)
Definition populate_opt {A B} (f : A -> M B) (o : option A) : M (option B) :=
  match o with
  | None => mret None
  | Some d => d' ← f d; mret (Some d')
  end.

(** ** The BookInstance controller (src/unnamed/part_001) *)

(** Display list of all BookInstances. *)
Definition bookinstance_list (req : Request) : M unit :=
  try_catch (
    list_bookinstances ← (l ← find BookInstance (fun _ => true);
                          populate_all populate_book l);
    render "bookinstance_list"
      [("title", LStr "Book Instance List");
       ("bookinstance_list", LPopBookInstances list_bookinstances)])
  (fun err => next err).

(** Display detail page for a specific BookInstance. *)
Definition bookinstance_detail (req : Request) : M unit :=
  try_catch (
    bookinstance ← (c ← findById BookInstance (Some (params_id req));
                    populate_opt populate_book c);
    match bookinstance with
    | None => throw (HttpError "Book copy not found" 404)
    | Some c =>
        book ← deref (pbi_book c) "title";
        render "bookinstance_detail"
          [("title", LStr ("Copy: " ++ b_title book));
           ("bookinstance", LPopBookInstance bookinstance)]
    end)
  (fun err => next err).

Section BookInstanceForms.
Context `{DateLib} `{StatusEnum}.

Definition bookinstance_chains : list ValidationChain :=
  [ body "book" (Some "Book must be specified") |> trim |> isLength 1 |> escape;
    body "imprint" (Some "Imprint must be specified") |> trim |> isLength 1 |> escape;
    body "status" None |> escape;
    body "due_back" (Some "Invalid date") |> optional |> isISO8601 |> toDate ].

(** The status of a new document: the default of the schema when the field
    is [undefined]. *)
Definition status_of (v : JsValue) : string :=
  match v with
  | JAtom AUndefined => status_default
  | _ => str_of v
  end.

(** [new BookInstance({ book, imprint, status, due_back, _id })] *)
Definition new_BookInstance (id : ObjectId) (body : gmap string JsValue) : BookInstanceDoc :=
  mkBookInstance id (default EmptyString (ref_of (get "book" body)))
    (str_of (get "imprint" body)) (status_of (get "status" body))
    (date_of (get "due_back" body)).

(** The paths the new document holds; the default fills the status. *)
Definition bookinstance_paths (body : gmap string JsValue) : list string :=
  held [("book", holds_ref (get "book" body));
        ("imprint", holds_str (get "imprint" body));
        ("status", match get "status" body with JArr _ => false | _ => true end);
        ("due_back", holds_date (get "due_back" body))].

(** The branch of the validation errors, the same in both forms but for
    the title.  [bookinstance.book._id] reads a property of the [book]
    path, which is unset when the field was empty. *)
Definition bookinstance_form_errors (title : string) (body : gmap string JsValue)
    (bookinstance : BookInstanceDoc) (errors : list ValidationError) : M unit :=
  try_catch (
    books ← (l ← find Book (fun _ => true); mret (map select_title l));
    selected_book ←
      match ref_of (get "book" body) with
      | Some i => mret i
      | None =>
          throw (TypeError "Cannot read properties of undefined (reading '_id')")
      end;
    render "bookinstance_form"
      [("title", LStr title); ("book_list", LBooks books);
       ("selected_book", LId selected_book); ("errors", LErrors errors);
       ("bookinstance", LBookInstance bookinstance)])
  (fun err => next err).

(** Handle BookInstance create on POST. *)
Definition bookinstance_create_post (new_id : ObjectId) (req : Request) : M unit :=
  let '(body, errors) := run_all bookinstance_chains (req_body req) in
  let bookinstance := new_BookInstance new_id body in
  if negb (bool_decide (errors = [])) then
    bookinstance_form_errors "Create BookInstance" body bookinstance errors
  else
    try_catch (
      saved_bookinstance ← save BookInstance BookInstanceSchema bookinstance;
      redirect (bookinstance_url saved_bookinstance))
    (fun err => next err).

(** Handle bookinstance update on POST. *)
Definition bookinstance_update_post (req : Request) : M unit :=
  let '(body, errors) := run_all bookinstance_chains (req_body req) in
  let bookinstance := new_BookInstance (params_id req) body in
  if negb (bool_decide (errors = [])) then
    bookinstance_form_errors "Update BookInstance" body bookinstance errors
  else
    try_catch (
      thebookinstance ← findByIdAndUpdate BookInstance (params_id req) bookinstance
                          (bookinstance_paths body);
      thebookinstance ← deref thebookinstance "url";
      redirect (bookinstance_url thebookinstance))
    (fun err => next err).
End BookInstanceForms.

(** Display BookInstance delete form on GET. *)
Definition bookinstance_delete_get (req : Request) : M unit :=
  try_catch (
    bookinstance ← (c ← findById BookInstance (Some (params_id req));
                    populate_opt populate_book c);
    match bookinstance with
    | None => throw (HttpError "Book copy not found" 404)
    | Some _ =>
        render "bookinstance_delete"
          [("title", LStr "Delete Book-Instance");
           ("bookinstance", LPopBookInstance bookinstance)]
    end)
  (fun err => next err).

(** Handle BookInstance delete on POST. *)
Definition bookinstance_delete_post (req : Request) : M unit :=
  try_catch (
    findByIdAndRemove BookInstance (id_of (get "bookinstanceid" (req_body req)));;
    redirect "/catalog/bookinstances")
  (fun err => next err).

(** Display BookInstance update form on GET.  There is no test for a
    missing record: [results.book_instance.book] is read at once. *)
Definition bookinstance_update_get (req : Request) : M unit :=
  try_catch (
    book_instance ← (c ← findById BookInstance (Some (params_id req));
                     populate_opt populate_book c);
    books ← (l ← find Book (fun _ => true); mret (map select_title l));
    c ← deref book_instance "book";
    book ← deref (pbi_book c) "_id";
    render "bookinstance_form"
      [("title", LStr "Update BookInstance");
       ("selected_book", LId (b_id book));
       ("selected_status", LStr (bi_status (pbi_doc c)));
       ("bookinstance", LPopBookInstance book_instance);
       ("book_list", LBooks books)])
  (fun err => next err).

(** ** The Book controller (src/controllers/bookController.js) *)

(** Display list of all books. *)
Definition book_list (req : Request) : M unit :=
  try_catch (
    list_books ← (l ← find Book (fun _ => true);
                  populate_all populate_author
                    (sort_by b_title (map select_title_author l)));
    render "book_list"
      [("title", LStr "Book List"); ("book_list", LPopBooks list_books)])
  (fun err => next err).

(** Display detail page for a specific book. *)
Definition book_detail (req : Request) : M unit :=
  try_catch (
    book ← (b ← findById Book (Some (params_id req));
            b ← populate_opt populate_author b;
            populate_opt populate_genre b);
    book_instance ← find BookInstance (fun c => refers (Some (params_id req)) (bi_book c));
    match book with
    | None => throw (HttpError "Book not found" 404)
    | Some b =>
        render "book_detail"
          [("title", LStr (b_title (pb_doc b))); ("book", LPopBook book);
           ("book_instances", LBookInstances book_instance)]
    end)
  (fun err => next err).

(** The first middleware of both Book forms: convert the genre to an array. *)
Definition genre_to_array (body : gmap string JsValue) : gmap string JsValue :=
  match get "genre" body with
  | JArr _ => body
  | JAtom AUndefined => <["genre" := JArr []]> body
  | JAtom a => <["genre" := JArr [a]]> body
  end.

Definition book_chains : list ValidationChain :=
  [ body "title" (Some "Title must not be empty.") |> trim |> isLength 1 |> escape;
    body "author" (Some "Author must not be empty.") |> trim |> isLength 1 |> escape;
    body "summary" (Some "Summary must not be empty.") |> trim |> isLength 1 |> escape;
    body "isbn" (Some "ISBN must not be empty") |> trim |> isLength 1 |> escape;
    body_each "genre" |> escape ].

(** [new Book({ title, author, summary, isbn, genre, _id })] *)
Definition new_Book (id : ObjectId) (body : gmap string JsValue) : BookDoc :=
  mkBook id (str_of (get "title" body))
    (default EmptyString (ref_of (get "author" body)))
    (str_of (get "summary" body)) (str_of (get "isbn" body))
    (ids_of (get "genre" body)).

(** The paths the new document holds; an array path always holds a value. *)
Definition book_paths (body : gmap string JsValue) : list string :=
  held [("title", holds_str (get "title" body));
        ("author", holds_ref (get "author" body));
        ("summary", holds_str (get "summary" body));
        ("isbn", holds_str (get "isbn" body));
        ("genre", true)].

(** [genre.checked = "true"] on the genres the book holds. *)
Definition mark_checked (selected : list ObjectId) (gs : list GenreDoc)
    : list (GenreDoc * bool) :=
  map (fun g => (g, existsb (String.eqb (g_id g)) selected)) gs.

(** The branch of the validation errors of both Book forms. *)
Definition book_form_errors (title : string) (book : BookDoc)
    (errors : list ValidationError) : M unit :=
  try_catch (
    authors ← find Author (fun _ => true);
    genres ← find Genre (fun _ => true);
    render "book_form"
      [("title", LStr title); ("authors", LAuthors authors);
       ("genres", LGenreChoices (mark_checked (b_genre book) genres));
       ("book", LBook book); ("errors", LErrors errors)])
  (fun err => next err).

(** Handle book create on POST. *)
Definition book_create_post (new_id : ObjectId) (req : Request) : M unit :=
  let '(body, errors) := run_all book_chains (genre_to_array (req_body req)) in
  let book := new_Book new_id body in
  if negb (bool_decide (errors = [])) then
    book_form_errors "Create Book" book errors
  else
    try_catch (
      saved_book ← save Book BookSchema book;
      redirect (book_url saved_book))
    (fun err => next err).

(** Display book delete form on GET. *)
Definition book_delete_get (req : Request) : M unit :=
  try_catch (
    book ← (b ← findById Book (Some (params_id req));
            populate_opt populate_author b);
    book_bookinstances ←
      (l ← find BookInstance (fun c => refers (Some (params_id req)) (bi_book c));
       populate_all populate_book l);
    (match book with
     | None => redirect "/catalog/books"
     | Some _ => mret tt
     end);;
    render "book_delete"
      [("title", LStr "Delete Book"); ("book", LPopBook book);
       ("book_bookinstances", LPopBookInstances book_bookinstances)])
  (fun err => next err).

(** Handle book delete on POST.  The queries take the id of the route, the
    removal takes the [bookid] field of the body. *)
Definition book_delete_post (req : Request) : M unit :=
  try_catch (
    book ← (b ← findById Book (Some (params_id req));
            populate_opt populate_author b);
    book_bookinstances ←
      (l ← find BookInstance (fun c => refers (Some (params_id req)) (bi_book c));
       populate_all populate_book l);
    if negb (bool_decide (book_bookinstances = [])) then
      render "book_delete"
        [("title", LStr "Delete Book"); ("book", LPopBook book);
         ("book_bookinstances", LPopBookInstances book_bookinstances)]
    else
      findByIdAndRemove Book (id_of (get "bookid" (req_body req)));;
      redirect "/catalog/books")
  (fun err => next err).

(** Display book update form on GET. *)
Definition book_update_get (req : Request) : M unit :=
  try_catch (
    book ← (b ← findById Book (Some (params_id req));
            b ← populate_opt populate_author b;
            populate_opt populate_genre b);
    authors ← find Author (fun _ => true);
    genres ← find Genre (fun _ => true);
    match book with
    | None => throw (HttpError "Book not found" 404)
    | Some b =>
        render "book_form"
          [("title", LStr "Update Book"); ("authors", LAuthors authors);
           ("genres", LGenreChoices
              (mark_checked (map g_id (default [] (pb_genre b))) genres));
           ("book", LPopBook book)]
    end)
  (fun err => next err).

(** Handle book update on POST.  The update itself is outside any [try]. *)
Definition book_update_post (req : Request) : M unit :=
  let '(body, errors) := run_all book_chains (genre_to_array (req_body req)) in
  let book := new_Book (params_id req) body in
  if negb (bool_decide (errors = [])) then
    book_form_errors "Update Book" book errors
  else
    thebook ← findByIdAndUpdate Book (params_id req) book (book_paths body);
    thebook ← deref thebook "url";
    redirect (book_url thebook).

(** ** The Author controller (second part of src/controllers/bookController.js) *)

(** Display list of all Authors. *)
Definition author_list (req : Request) : M unit :=
  try_catch (
    list_authors ← (l ← find Author (fun _ => true); mret (sort_by a_family_name l));
    render "author_list"
      [("title", LStr "Author List"); ("author_list", LAuthors list_authors)])
  (fun err => next err).

(** Display detail page for a specific Author. *)
Definition author_detail (req : Request) : M unit :=
  try_catch (
    author ← findById Author (Some (params_id req));
    author_books ← (l ← find Book (fun b => refers (Some (params_id req)) (b_author b));
                    mret (map select_title_summary l));
    match author with
    | None => throw (HttpError "Author not found" 404)
    | Some _ =>
        render "author_detail"
          [("title", LStr "Author Detail"); ("author", LAuthor author);
           ("author_books", LBooks author_books)]
    end)
  (fun err => next err).

Section AuthorForms.
Context `{DateLib}.

Definition author_chains : list ValidationChain :=
  [ body "first_name" None |> trim |> isLength 1 |> escape
      |> withMessage "First name must be specified."
      |> isAlphanumeric
      |> withMessage "First name has non-alphanumeric characters.";
    body "family_name" None |> trim |> isLength 1 |> escape
      |> withMessage "Family name must be specified."
      |> isAlphanumeric
      |> withMessage "Family name has non-alphanumeric characters.";
    body "date_of_birth" (Some "Invalid date of birth") |> optional |> isISO8601 |> toDate;
    body "date_of_death" (Some "Invalid date of death") |> optional |> isISO8601 |> toDate ].

(** [new Author({ first_name, family_name, date_of_birth, date_of_death, _id })] *)
Definition new_Author (id : ObjectId) (body : gmap string JsValue) : AuthorDoc :=
  mkAuthor id (str_of (get "first_name" body)) (str_of (get "family_name" body))
    (date_of (get "date_of_birth" body)) (date_of (get "date_of_death" body)).

(** The paths the new document holds. *)
Definition author_paths (body : gmap string JsValue) : list string :=
  held [("first_name", holds_str (get "first_name" body));
        ("family_name", holds_str (get "family_name" body));
        ("date_of_birth", holds_date (get "date_of_birth" body));
        ("date_of_death", holds_date (get "date_of_death" body))].

(** Handle Author create on POST.  The handler has no [try]. *)
Definition author_create_post (new_id : ObjectId) (req : Request) : M unit :=
  let '(body, errors) := run_all author_chains (req_body req) in
  if negb (bool_decide (errors = [])) then
    render "author_form"
      [("title", LStr "Create Author"); ("author", LBody body);
       ("errors", LErrors errors)]
  else
    let author := new_Author new_id body in
    saved_author ← save Author AuthorSchema author;
    redirect (author_url saved_author).

(** Handle Author update on POST.  The handler has no [try]. *)
Definition author_update_post (req : Request) : M unit :=
  let '(body, errors) := run_all author_chains (req_body req) in
  if negb (bool_decide (errors = [])) then
    render "author_form"
      [("title", LStr "Update Author"); ("author", LBody body);
       ("errors", LErrors errors)]
  else
    let author := new_Author (params_id req) body in
    theauthor ← findByIdAndUpdate Author (params_id req) author (author_paths body);
    theauthor ← deref theauthor "url";
    redirect (author_url theauthor).
End AuthorForms.

(** Display Author delete form on GET. *)
Definition author_delete_get (req : Request) : M unit :=
  try_catch (
    author ← findById Author (Some (params_id req));
    author_books ← find Book (fun b => refers (Some (params_id req)) (b_author b));
    (match author with
     | None => redirect "/catalog/authors"
     | Some _ => mret tt
     end);;
    render "author_delete"
      [("title", LStr "Delete Author"); ("author", LAuthor author);
       ("author_books", LBooks author_books)])
  (fun err => next err).

(** Handle Author delete on POST. *)
Definition author_delete_post (req : Request) : M unit :=
  try_catch (
    let authorid := id_of (get "authorid" (req_body req)) in
    author ← findById Author authorid;
    author_books ← find Book (fun b => refers authorid (b_author b));
    if negb (bool_decide (author_books = [])) then
      render "author_delete"
        [("title", LStr "Delete Author"); ("author", LAuthor author);
         ("author_books", LBooks author_books)]
    else
      findByIdAndRemove Author authorid;;
      redirect "/catalog/authors")
  (fun err => next err).

(** Display Author update form on GET. *)
Definition author_update_get (req : Request) : M unit :=
  try_catch (
    author ← findById Author (Some (params_id req));
    match author with
    | None => throw (HttpError "Author not found" 404)
    | Some _ =>
        render "author_form" [("title", LStr "Update Author"); ("author", LAuthor author)]
    end)
  (fun err => next err).

(** ** The routes, by entity kind *)

Inductive EntityKind : Type := KGenre | KAuthor | KBook | KBookInstance.

(** Modelled from the spec: the routing table (routes/catalog.js is not part
    of the sources).  GET [/catalog/{kind}s] is the list view,
    GET [/catalog/{kind}/{id}] the detail view and
    GET or POST [/catalog/{kind}/{id}/delete], [/update] and
    [/catalog/{kind}/create] the forms. *)
Definition list_get (k : EntityKind) : Request -> M unit :=
  match k with
  | KGenre => genre_list
  | KAuthor => author_list
  | KBook => book_list
  | KBookInstance => bookinstance_list
  end.

Definition detail_get (k : EntityKind) : Request -> M unit :=
  match k with
  | KGenre => genre_detail
  | KAuthor => author_detail
  | KBook => book_detail
  | KBookInstance => bookinstance_detail
  end.

Definition delete_get (k : EntityKind) : Request -> M unit :=
  match k with
  | KGenre => genre_delete_get
  | KAuthor => author_delete_get
  | KBook => book_delete_get
  | KBookInstance => bookinstance_delete_get
  end.

Definition delete_post (k : EntityKind) : Request -> M unit :=
  match k with
  | KGenre => genre_delete_post
  | KAuthor => author_delete_post
  | KBook => book_delete_post
  | KBookInstance => bookinstance_delete_post
  end.

Definition update_get (k : EntityKind) : Request -> M unit :=
  match k with
  | KGenre => genre_update_get
  | KAuthor => author_update_get
  | KBook => book_update_get
  | KBookInstance => bookinstance_update_get
  end.

Definition create_post `{DateLib} `{StatusEnum} (k : EntityKind)
    : ObjectId -> Request -> M unit :=
  match k with
  | KGenre => genre_create_post
  | KAuthor => author_create_post
  | KBook => book_create_post
  | KBookInstance => bookinstance_create_post
  end.

Definition update_post `{DateLib} `{StatusEnum} (k : EntityKind)
    : Request -> M unit :=
  match k with
  | KGenre => genre_update_post
  | KAuthor => author_update_post
  | KBook => book_update_post
  | KBookInstance => bookinstance_update_post
  end.

Definition list_url (k : EntityKind) : string :=
  match k with
  | KGenre => "/catalog/genres"
  | KAuthor => "/catalog/authors"
  | KBook => "/catalog/books"
  | KBookInstance => "/catalog/bookinstances"
  end.

Definition not_found (k : EntityKind) : Err :=
  match k with
  | KGenre => HttpError "Genre not found" 404
  | KAuthor => HttpError "Author not found" 404
  | KBook => HttpError "Book not found" 404
  | KBookInstance => HttpError "Book copy not found" 404
  end.

Definition has_record (k : EntityKind) (id : ObjectId) (s : Store) : bool :=
  match k with
  | KGenre => existsb (has_id g_id id) (genres s)
  | KAuthor => existsb (has_id a_id id) (authors s)
  | KBook => existsb (has_id b_id id) (books s)
  | KBookInstance => existsb (has_id bi_id id) (bookinstances s)
  end.

(** ** Vocabulary of the properties *)

Definition is_next (c : Call) : bool :=
  match c with Next _ => true | _ => false end.

Definition is_render (c : Call) : bool :=
  match c with Render _ _ => true | _ => false end.

(** The dependents that block a delete: the books of an author, the books
    of a genre, the copies of a book. *)
Definition books_of_author (id : ObjectId) (s : Store) : list BookDoc :=
  List.filter (fun b => refers (Some id) (b_author b)) (books s).

Definition books_of_genre (id : ObjectId) (s : Store) : list BookDoc :=
  List.filter (fun b => existsb (refers (Some id)) (b_genre b)) (books s).

Definition copies_of_book (id : ObjectId) (s : Store) : list BookInstanceDoc :=
  List.filter (fun c => refers (Some id) (bi_book c)) (bookinstances s).

(** The key a list view is expected to be ordered by. *)
Definition pb_title (b : PopBook) : string := b_title (pb_doc b).

Definition pbi_title (c : PopBookInstance) : string :=
  match pbi_book c with
  | Some b => b_title b
  | None => EmptyString
  end.

(** A date library that knows no date; it closes the examples whose date
    fields are empty or missing, where no date function is called. *)
Definition no_dates : DateLib :=
  Build_DateLib (fun _ => false) (fun _ => None).

(** The states of the examples; the default is the second. *)
Definition four_states : StatusEnum :=
  Build_StatusEnum ["Available"; "Maintenance"; "Loaned"; "Reserved"] "Maintenance".

(** The chains of the two forms of a kind, run on a body. *)
Definition validation `{DateLib} (k : EntityKind) (b : gmap string JsValue)
    : gmap string JsValue * list ValidationError :=
  match k with
  | KGenre => run_all genre_chains b
  | KAuthor => run_all author_chains b
  | KBook => run_all book_chains (genre_to_array b)
  | KBookInstance => run_all bookinstance_chains b
  end.

(** The fields whose chain asks for a length of at least one after [trim]. *)
Definition required_fields (k : EntityKind) : list string :=
  match k with
  | KGenre => ["name"]
  | KAuthor => ["first_name"; "family_name"]
  | KBook => ["title"; "author"; "summary"; "isbn"]
  | KBookInstance => ["book"; "imprint"]
  end.

(** A submitted value is blank when it is empty after trimming. *)
Definition blank (a : Atom) : bool :=
  bool_decide (Validator.trim (toString a) = EmptyString).

Definition sanitized (a : Atom) : string :=
  Validator.escape (Validator.trim (toString a)).

Definition count_param (f : string) (es : list ValidationError) : nat :=
  length (List.filter (fun e => String.eqb (ve_param e) f) es).

(** The form of a kind, the local that holds its draft, and what the draft
    shows for a field. *)
Definition form_view (k : EntityKind) : string :=
  match k with
  | KGenre => "genre_form"
  | KAuthor => "author_form"
  | KBook => "book_form"
  | KBookInstance => "bookinstance_form"
  end.

Definition draft_key (k : EntityKind) : string :=
  match k with
  | KGenre => "genre"
  | KAuthor => "author"
  | KBook => "book"
  | KBookInstance => "bookinstance"
  end.

Definition draft_field (d : Local) (f : string) : option string :=
  match d with
  | LGenre (Some g) => if String.eqb f "name" then Some (g_name g) else None
  | LBook b =>
      if String.eqb f "title" then Some (b_title b)
      else if String.eqb f "author" then Some (b_author b)
      else if String.eqb f "summary" then Some (b_summary b)
      else if String.eqb f "isbn" then Some (b_isbn b)
      else None
  | LBookInstance c =>
      if String.eqb f "book" then Some (bi_book c)
      else if String.eqb f "imprint" then Some (bi_imprint c)
      else if String.eqb f "status" then Some (bi_status c)
      else None
  | LBody b =>
      match b !! f with
      | Some (JAtom (AStr v)) => Some v
      | _ => None
      end
  | _ => None
  end.

(** The required fields of a body are single values (or missing), as a form
    submits them. *)
Definition single_valued (k : EntityKind) (b : gmap string JsValue) : Prop :=
  forall f, In f (required_fields k) -> exists a, get f b = JAtom a.

(** The draft shows every required field of the body trimmed and escaped. *)
Definition shows_sanitized (k : EntityKind) (b : gmap string JsValue) (d : Local)
    : Prop :=
  forall f a, In f (required_fields k) -> get f b = JAtom a ->
              draft_field d f = Some (sanitized a).

(** The book of a BookInstance form is not blank. *)
Definition book_given (k : EntityKind) (b : gmap string JsValue) : Prop :=
  k = KBookInstance -> forall a, get "book" b = JAtom a -> blank a = false.

Fixpoint local (key : string) (locals : list (string * Local)) : option Local :=
  match locals with
  | [] => None
  | (k, v) :: t => if String.eqb k key then Some v else local key t
  end.

(** The draft and the errors of a response that is the form of the kind,
    rendered once, and nothing else. *)
Definition rejected_form (k : EntityKind) (r : Result unit)
    : option (Local * list ValidationError) :=
  match res_calls r, res_value r with
  | [Render view locals], inr _ =>
      if String.eqb view (form_view k) then
        match local (draft_key k) locals, local "errors" locals with
        | Some d, Some (LErrors es) => Some (d, es)
        | _, _ => None
        end
      else None
  | _, _ => None
  end.

(** ** The handlers the forms are first shown by, and the home page *)

(** Display Genre create form on GET. *)
Definition genre_create_get (req : Request) : M unit :=
  render "genre_form" [("title", LStr "Create Genre")].

(** Display Author create form on GET. *)
Definition author_create_get (req : Request) : M unit :=
  render "author_form" [("title", LStr "Create Author")].

(** Display book create form on GET: all authors and genres. *)
Definition book_create_get (req : Request) : M unit :=
  try_catch (
    authors ← find Author (fun _ => true);
    genres ← find Genre (fun _ => true);
    render "book_form"
      [("title", LStr "Create Book"); ("authors", LAuthors authors);
       ("genres", LGenres genres)])
  (fun err => next err).

(** Display BookInstance create form on GET. *)
Definition bookinstance_create_get (req : Request) : M unit :=
  try_catch (
    books ← (l ← find Book (fun _ => true); mret (map select_title l));
    render "bookinstance_form"
      [("title", LStr "Create BookInstance"); ("book_list", LBooks books)])
  (fun err => next err).

Definition create_get (k : EntityKind) : Request -> M unit :=
  match k with
  | KGenre => genre_create_get
  | KAuthor => author_create_get
  | KBook => book_create_get
  | KBookInstance => bookinstance_create_get
  end.

(** The ids of the records of a kind, in collection order. *)
Definition collection_ids (k : EntityKind) (s : Store) : list ObjectId :=
  match k with
  | KGenre => map g_id (genres s)
  | KAuthor => map a_id (authors s)
  | KBook => map b_id (books s)
  | KBookInstance => map bi_id (bookinstances s)
  end.

(** The body field a delete-POST takes the id from. *)
Definition id_field (k : EntityKind) : string :=
  match k with
  | KGenre => "genreid"
  | KAuthor => "authorid"
  | KBook => "bookid"
  | KBookInstance => "bookinstanceid"
  end.

(** ** What the chains of a kind report *)

(** The optional date fields of a kind. *)
Definition date_fields (k : EntityKind) : list string :=
  match k with
  | KAuthor => ["date_of_birth"; "date_of_death"]
  | KBookInstance => ["due_back"]
  | _ => []
  end.

(** The error of the length test on a single value. *)
Definition required_error (msg f : string) (a : Atom) : list ValidationError :=
  if blank a then [mkValidationError (AStr EmptyString) msg f] else [].

(** The error of the alphanumeric test, run on the escaped value. *)
Definition alnum_error (msg f : string) (a : Atom) : list ValidationError :=
  if Validator.isAlphanumeric (sanitized a) then []
  else [mkValidationError (AStr (sanitized a)) msg f].

(** An optional date passes when it is falsy or has the ISO form. *)
Definition date_ok `{DateLib} (a : Atom) : bool :=
  falsy a || isISO8601_str (toString a).

Definition date_error `{DateLib} (msg f : string) (a : Atom) : list ValidationError :=
  if date_ok a then [] else [mkValidationError a msg f].

(** What an optional date field holds after its chain. *)
Definition date_value `{DateLib} (a : Atom) : Atom :=
  if falsy a then a else Validator.toDate (toString a).

(** The single value a field holds. *)
Definition atom (f : string) (b : gmap string JsValue) : Atom :=
  match get f b with
  | JAtom a => a
  | JArr _ => AUndefined
  end.

Definition dates_single_valued (k : EntityKind) (b : gmap string JsValue) : Prop :=
  forall f, In f (date_fields k) -> exists a, get f b = JAtom a.

(** The errors of a kind, in the order of its chains. *)
Definition expected_errors `{DateLib} (k : EntityKind) (b : gmap string JsValue)
    : list ValidationError :=
  match k with
  | KGenre => required_error "Genre name required" "name" (atom "name" b)
  | KAuthor =>
      required_error "First name must be specified." "first_name"
        (atom "first_name" b)
      ++ alnum_error "First name has non-alphanumeric characters." "first_name"
           (atom "first_name" b)
      ++ required_error "Family name must be specified." "family_name"
           (atom "family_name" b)
      ++ alnum_error "Family name has non-alphanumeric characters." "family_name"
           (atom "family_name" b)
      ++ date_error "Invalid date of birth" "date_of_birth" (atom "date_of_birth" b)
      ++ date_error "Invalid date of death" "date_of_death" (atom "date_of_death" b)
  | KBook =>
      required_error "Title must not be empty." "title" (atom "title" b)
      ++ required_error "Author must not be empty." "author" (atom "author" b)
      ++ required_error "Summary must not be empty." "summary" (atom "summary" b)
      ++ required_error "ISBN must not be empty" "isbn" (atom "isbn" b)
  | KBookInstance =>
      required_error "Book must be specified" "book" (atom "book" b)
      ++ required_error "Imprint must be specified" "imprint" (atom "imprint" b)
      ++ date_error "Invalid date" "due_back" (atom "due_back" b)
  end.

(** ** What an accepted request stores *)

(** The date stored for an optional date field: none for a falsy value,
    otherwise what [Date.parse] makes of the text. *)
Definition stored_date `{DateLib} (a : Atom) : option Date :=
  if falsy a then None else dateParse (toString a).

(** The values of the [genre] field: none when it is missing, one for a
    single value, the elements of an array. *)
Definition submitted_genres (b : gmap string JsValue) : list Atom :=
  match get "genre" b with
  | JArr xs => xs
  | JAtom AUndefined => []
  | JAtom a => [a]
  end.

Definition accepted_author `{DateLib} (id : ObjectId) (b : gmap string JsValue)
    : AuthorDoc :=
  mkAuthor id
    (Validator.trim (toString (atom "first_name" b)))
    (Validator.trim (toString (atom "family_name" b)))
    (stored_date (atom "date_of_birth" b))
    (stored_date (atom "date_of_death" b)).

Definition accepted_book (id : ObjectId) (b : gmap string JsValue) : BookDoc :=
  mkBook id (sanitized (atom "title" b)) (sanitized (atom "author" b))
    (sanitized (atom "summary" b)) (sanitized (atom "isbn" b))
    (map (fun a => Validator.escape (toString a)) (submitted_genres b)).

Definition accepted_bookinstance `{DateLib} (id : ObjectId)
    (b : gmap string JsValue) : BookInstanceDoc :=
  mkBookInstance id (sanitized (atom "book" b)) (sanitized (atom "imprint" b))
    (Validator.escape (toString (atom "status" b)))
    (stored_date (atom "due_back" b)).

(** The detail location of a record. *)
Definition detail_url (k : EntityKind) (id : ObjectId) : string :=
  match k with
  | KGenre => "/catalog/genre/" ++ id
  | KAuthor => "/catalog/author/" ++ id
  | KBook => "/catalog/book/" ++ id
  | KBookInstance => "/catalog/bookinstance/" ++ id
  end.

(** The store with the document an accepted create-POST adds. *)
Definition with_created `{DateLib} (k : EntityKind) (id : ObjectId)
    (b : gmap string JsValue) (s : Store) : Store :=
  match k with
  | KGenre =>
      mkStore (genres s ++ [mkGenre id (sanitized (atom "name" b))]) (authors s)
        (books s) (bookinstances s)
  | KAuthor =>
      mkStore (genres s) (authors s ++ [accepted_author id b]) (books s)
        (bookinstances s)
  | KBook =>
      mkStore (genres s) (authors s) (books s ++ [accepted_book id b])
        (bookinstances s)
  | KBookInstance =>
      mkStore (genres s) (authors s) (books s)
        (bookinstances s ++ [accepted_bookinstance id b])
  end.

(** The date an update leaves in a record: the stored one when the body
    does not hold the field, otherwise the one of the body. *)
Definition updated_date `{DateLib} (a : Atom) (old : option Date) : option Date :=
  match a with
  | AUndefined => old
  | _ => stored_date a
  end.

(** The record an accepted update-POST leaves in the place of [old]: the
    document of the body, but for the dates the body does not hold. *)
Definition updated_author `{DateLib} (id : ObjectId) (b : gmap string JsValue)
    (old : AuthorDoc) : AuthorDoc :=
  mkAuthor id
    (Validator.trim (toString (atom "first_name" b)))
    (Validator.trim (toString (atom "family_name" b)))
    (updated_date (atom "date_of_birth" b) (a_date_of_birth old))
    (updated_date (atom "date_of_death" b) (a_date_of_death old)).

Definition updated_bookinstance `{DateLib} (id : ObjectId)
    (b : gmap string JsValue) (old : BookInstanceDoc) : BookInstanceDoc :=
  mkBookInstance id (sanitized (atom "book" b)) (sanitized (atom "imprint" b))
    (Validator.escape (toString (atom "status" b)))
    (updated_date (atom "due_back" b) (bi_due_back old)).

(** The store after an accepted update-POST: the first record with the id
    is updated in its place. *)
Definition with_updated `{DateLib} (k : EntityKind) (id : ObjectId)
    (b : gmap string JsValue) (s : Store) : Store :=
  match k with
  | KGenre =>
      mkStore
        (update_id g_id id (fun _ => mkGenre id (sanitized (atom "name" b))) (genres s))
        (authors s) (books s) (bookinstances s)
  | KAuthor =>
      mkStore (genres s) (update_id a_id id (updated_author id b) (authors s))
        (books s) (bookinstances s)
  | KBook =>
      mkStore (genres s) (authors s)
        (update_id b_id id (fun _ => accepted_book id b) (books s)) (bookinstances s)
  | KBookInstance =>
      mkStore (genres s) (authors s) (books s)
        (update_id bi_id id (updated_bookinstance id b) (bookinstances s))
  end.

(** Whether the schema of the kind accepts the status of the body, as the
    chain leaves it.  Only a BookInstance has one. *)
Definition status_allowed `{StatusEnum} (k : EntityKind) (b : gmap string JsValue)
    : bool :=
  match k with
  | KBookInstance =>
      existsb (String.eqb (Validator.escape (toString (atom "status" b))))
        status_values
  | _ => true
  end.

(** The status of a BookInstance form is a single value or missing. *)
Definition status_single_valued (k : EntityKind) (b : gmap string JsValue) : Prop :=
  k = KBookInstance -> exists a, get "status" b = JAtom a.

(** No Genre of the store has the name the body submits. *)
Definition name_free (k : EntityKind) (b : gmap string JsValue) (s : Store) : Prop :=
  k = KGenre -> forall g, In g (genres s) -> g_name g <> sanitized (atom "name" b).

(** ** What the store holds *)

(** The characters the escape replaces, the ampersand (which its entities
    start with) apart. *)
Definition special (c : ascii) : bool :=
  Ascii.eqb c Validator.quot || Ascii.eqb c "'" || Ascii.eqb c "<"
  || Ascii.eqb c ">" || Ascii.eqb c "/" || Ascii.eqb c "\" || Ascii.eqb c "`".

Fixpoint html_safe (s : string) : bool :=
  match s with
  | EmptyString => true
  | String c s' => negb (special c) && html_safe s'
  end.

(** Not empty, and free of the characters above. *)
Definition clean (s : string) : bool :=
  negb (String.eqb s EmptyString) && html_safe s.

Definition genre_ok (g : GenreDoc) : bool := clean (g_name g).

Definition author_ok (a : AuthorDoc) : bool :=
  Validator.isAlphanumeric (a_first_name a)
  && Validator.isAlphanumeric (a_family_name a).

Definition book_ok (b : BookDoc) : bool :=
  clean (b_title b) && clean (b_author b) && clean (b_summary b)
  && clean (b_isbn b) && forallb html_safe (b_genre b).

Definition bookinstance_ok (c : BookInstanceDoc) : bool :=
  clean (bi_book c) && clean (bi_imprint c) && html_safe (bi_status c).

Definition stored_clean (s : Store) : Prop :=
  Forall (fun g => genre_ok g = true) (genres s) /\
  Forall (fun a => author_ok a = true) (authors s) /\
  Forall (fun b => book_ok b = true) (books s) /\
  Forall (fun c => bookinstance_ok c = true) (bookinstances s).

(** Free of the special characters, those that [allowed] admits apart. *)
Fixpoint safe_but (allowed : ascii -> bool) (s : string) : bool :=
  match s with
  | EmptyString => true
  | String c s' => (negb (special c) || allowed c) && safe_but allowed s'
  end.

(** ** Blocked deletions *)

(** Whether a record still has what its delete-POST looks for: Books of a
    Genre or of an Author, copies of a Book. *)
Definition has_dependents (k : EntityKind) (id : ObjectId) (s : Store) : bool :=
  match k with
  | KGenre => negb (bool_decide (books_of_genre id s = []))
  | KAuthor => negb (bool_decide (books_of_author id s = []))
  | KBook => negb (bool_decide (copies_of_book id s = []))
  | KBookInstance => false
  end.

(** A call without the [title] local of a rendered view. *)
Definition untitled (c : Call) : Call :=
  match c with
  | Render view locals =>
      Render view (List.filter (fun p => negb (String.eqb (fst p) "title")) locals)
  | c => c
  end.

(** ** What a detail page shows *)

(** A document of one of the four collections. *)
Inductive Doc : Type :=
| DGenre (g : GenreDoc)
| DAuthor (a : AuthorDoc)
| DBook (b : BookDoc)
| DBookInstance (c : BookInstanceDoc).

(** The stored document behind the record a view is given, populated or not. *)
Definition record_of (l : Local) : option Doc :=
  match l with
  | LGenre (Some g) => Some (DGenre g)
  | LAuthor (Some a) => Some (DAuthor a)
  | LPopBook (Some b) => Some (DBook (pb_doc b))
  | LPopBookInstance (Some c) => Some (DBookInstance (pbi_doc c))
  | _ => None
  end.

(** The document an accepted body gives. *)
Definition accepted_doc `{DateLib} (k : EntityKind) (id : ObjectId)
    (b : gmap string JsValue) : Doc :=
  match k with
  | KGenre => DGenre (mkGenre id (sanitized (atom "name" b)))
  | KAuthor => DAuthor (accepted_author id b)
  | KBook => DBook (accepted_book id b)
  | KBookInstance => DBookInstance (accepted_bookinstance id b)
  end.

Definition detail_view (k : EntityKind) : string :=
  match k with
  | KGenre => "genre_detail"
  | KAuthor => "author_detail"
  | KBook => "book_detail"
  | KBookInstance => "bookinstance_detail"
  end.

(** The record a response shows on the detail view of a kind. *)
Definition shown_record (k : EntityKind) (r : Result unit) : option Doc :=
  match res_calls r with
  | [Render view locals] =>
      if String.eqb view (detail_view k) then
        match local (draft_key k) locals with
        | Some l => record_of l
        | None => None
        end
      else None
  | _ => None
  end.

(** The first record of a kind with an id. *)
Definition stored_record (k : EntityKind) (id : ObjectId) (s : Store) : option Doc :=
  match k with
  | KGenre => option_map DGenre (lookup_id g_id (Some id) (genres s))
  | KAuthor => option_map DAuthor (lookup_id a_id (Some id) (authors s))
  | KBook => option_map DBook (lookup_id b_id (Some id) (books s))
  | KBookInstance =>
      option_map DBookInstance (lookup_id bi_id (Some id) (bookinstances s))
  end.

(** What an accepted update-POST makes of the record [old]. *)
Definition updated_doc `{DateLib} (k : EntityKind) (id : ObjectId)
    (b : gmap string JsValue) (old : Doc) : Doc :=
  match k with
  | KGenre => DGenre (mkGenre id (sanitized (atom "name" b)))
  | KAuthor =>
      match old with
      | DAuthor o => DAuthor (updated_author id b o)
      | _ => old
      end
  | KBook => DBook (accepted_book id b)
  | KBookInstance =>
      match old with
      | DBookInstance o => DBookInstance (updated_bookinstance id b o)
      | _ => old
      end
  end.

(** The id whose dependents a delete-POST looks for, when the body names
    [id]: the id of the body, but for a Book the id of the route. *)
Definition guarded_id (k : EntityKind) (req : Request) (id : ObjectId) : ObjectId :=
  match k with
  | KBook => params_id req
  | _ => id
  end.

(** The genre choices a response shows on the Book form. *)
Definition genre_choices (r : Result unit) : option (list (GenreDoc * bool)) :=
  match res_calls r with
  | [Render view locals] =>
      if String.eqb view "book_form" then
        match local "genres" locals with
        | Some (LGenreChoices choices) => Some choices
        | _ => None
        end
      else None
  | _ => None
  end.

(** The draft of a rejected form echoes the body as the chains leave it:
    every field of the form holds the submitted value, sanitized.  For a
    Genre, a Book and a BookInstance the draft is the document built from
    the sanitized body, for an Author it is the sanitized body itself. *)
Definition echoes `{DateLib} (k : EntityKind) (id : ObjectId)
    (b : gmap string JsValue) (d : Local) : Prop :=
  match k with
  | KGenre => d = LGenre (Some (mkGenre id (sanitized (atom "name" b))))
  | KAuthor =>
      exists b',
        d = LBody b' /\
        get "first_name" b' = JStr (sanitized (atom "first_name" b)) /\
        get "family_name" b' = JStr (sanitized (atom "family_name" b)) /\
        get "date_of_birth" b' = JAtom (date_value (atom "date_of_birth" b)) /\
        get "date_of_death" b' = JAtom (date_value (atom "date_of_death" b))
  | KBook => d = LBook (accepted_book id b)
  | KBookInstance => d = LBookInstance (accepted_bookinstance id b)
  end.

(** * Properties *)

(** ** Running a handler *)

Arguments count_param : simpl never.
Arguments blank : simpl never.
Arguments sanitized : simpl never.
Arguments Validator.trim : simpl never.
Arguments Validator.escape : simpl never.
Arguments Validator.isLength : simpl never.
Arguments Validator.isAlphanumeric : simpl never.

Ltac unfold_monad :=
  unfold try_catch, findByIdAndUpdate, findByIdAndRemove, findById, findOne,
    find, populate_opt, populate_author, populate_genre, populate_book,
    render, redirect, next, call, query, write, throw, deref,
    mbind, M_bind, bind, mret, M_ret, ret;
  cbn [res_store res_calls res_value docs set_docs oid assign
       Genre Author Book BookInstance app].

(** ** Saving a document *)

Lemma save_valid {A} (m : Model A) (sch : Schema A) (d : A) (s : Store) :
  invalid_paths sch d = [] ->
  save m sch d s = mkResult (set_docs m (docs m s ++ [d]) s) [] (inr d).
Proof. intros Hok. unfold save. by rewrite Hok. Qed.

Lemma save_invalid {A} (m : Model A) (sch : Schema A) (d : A) (s : Store) :
  invalid_paths sch d <> [] ->
  save m sch d s
  = mkResult s [] (inl (ValidationFailed (schema_name sch) (invalid_paths sch d))).
Proof. intros Hbad. unfold save. by destruct (invalid_paths sch d). Qed.

Lemma save_cases {A} (m : Model A) (sch : Schema A) (d : A) (s : Store) :
  save m sch d s = mkResult (set_docs m (docs m s ++ [d]) s) [] (inr d) \/
  exists e, save m sch d s = mkResult s [] (inl e).
Proof. unfold save. destruct (invalid_paths sch d); [by left|right]. by eexists. Qed.

Ltac save_cases :=
  match goal with
  | |- context [save ?m ?sch ?d ?s] =>
      let e := fresh "e" in
      destruct (save_cases m sch d s) as [-> | [e ->]]
  end.

Lemma required_filled (path v : string) : v <> EmptyString -> required path v = [].
Proof. intros Hv. unfold required. by rewrite bool_decide_eq_false_2. Qed.

Lemma remove_id_absent {A} (key : A -> ObjectId) (id : ObjectId) (l : list A) :
  existsb (has_id key id) l = false -> remove_id key id l = l.
Proof.
  induction l as [|d t IH]; cbn; [reflexivity|].
  destruct (has_id key id d); cbn; [discriminate|].
  intros Ht. f_equal. exact (IH Ht).
Qed.

Lemma lookup_id_absent {A} (key : A -> ObjectId) (id : ObjectId) (l : list A) :
  existsb (has_id key id) l = false -> lookup_id key (Some id) l = None.
Proof.
  induction l as [|d t IH]; cbn; [reflexivity|].
  destruct (has_id key id d); cbn; [discriminate|exact IH].
Qed.

(** ** Delete-POST and its guard *)

Lemma populate_all_query {A B} (f : A -> M B) (g : Store -> A -> B) :
  (forall d s, f d s = mkResult s [] (inr (g s d))) ->
  forall l s, populate_all f l s = mkResult s [] (inr (map (g s) l)).
Proof.
  intros Hf l s. induction l as [|d t IH]; cbn; [reflexivity|].
  unfold mbind, M_bind, bind. rewrite Hf. cbn. rewrite IH. reflexivity.
Qed.

Lemma populate_all_book (l : list BookInstanceDoc) (s : Store) :
  populate_all populate_book l s =
  mkResult s [] (inr (map (fun c => mkPopBookInstance c
                             (lookup_id b_id (Some (bi_book c)) (books s))) l)).
Proof.
  exact (populate_all_query populate_book
    (fun s c => mkPopBookInstance c (lookup_id b_id (Some (bi_book c)) (books s)))
    (fun _ _ => eq_refl) l s).
Qed.

Lemma populate_all_author (l : list BookDoc) (s : Store) :
  populate_all populate_author l s =
  mkResult s [] (inr (map (fun b => mkPopBook b
                             (lookup_id a_id (Some (b_author b)) (authors s)) None) l)).
Proof.
  exact (populate_all_query populate_author
    (fun s b => mkPopBook b (lookup_id a_id (Some (b_author b)) (authors s)) None)
    (fun _ _ => eq_refl) l s).
Qed.

Lemma store_eta (s : Store) :
  mkStore (genres s) (authors s) (books s) (bookinstances s) = s.
Proof. by destruct s. Qed.

(** An update only looks at the function on the records with the id. *)
Lemma update_id_ext {A} (key : A -> ObjectId) (id : ObjectId) (f g : A -> A)
    (l : list A) :
  (forall d, key d = id -> f d = g d) ->
  update_id key id f l = update_id key id g l.
Proof.
  intros Hfg. induction l as [|d t IH]; cbn; [reflexivity|].
  destruct (has_id key id d) eqn:E; [|by rewrite IH].
  apply String.eqb_eq in E. by rewrite (Hfg d E).
Qed.

(** Book delete-POST, in full: blocked by the copies of the book of the
    route, otherwise the book of the body is removed. *)
Lemma book_delete_post_run (req : Request) (s : Store) :
  book_delete_post req s =
  match copies_of_book (params_id req) s with
  | [] =>
      mkResult
        (match id_of (get "bookid" (req_body req)) with
         | Some bid => mkStore (genres s) (authors s)
                         (remove_id b_id bid (books s)) (bookinstances s)
         | None => s
         end)
        [Redirect "/catalog/books"] (inr tt)
  | l =>
      mkResult s
        [Render "book_delete"
           [("title", LStr "Delete Book");
            ("book", LPopBook
               (option_map (fun b => mkPopBook b
                    (lookup_id a_id (Some (b_author b)) (authors s)) None)
                  (lookup_id b_id (Some (params_id req)) (books s))));
            ("book_bookinstances", LPopBookInstances
               (map (fun c => mkPopBookInstance c
                       (lookup_id b_id (Some (bi_book c)) (books s))) l))]]
        (inr tt)
  end.
Proof.
  unfold book_delete_post, copies_of_book. unfold_monad.
  destruct (lookup_id b_id (Some (params_id req)) (books s)) as [b|] eqn:Eb; cbn;
    rewrite populate_all_book; cbn;
    destruct (List.filter _ (bookinstances s)) as [|c l] eqn:El; cbn;
    try reflexivity;
    destruct (id_of (get "bookid" (req_body req))); cbn; reflexivity.
Qed.

(** Author delete-POST, in full: guard and removal take the same id. *)
Lemma author_delete_post_run (req : Request) (s : Store) (id : ObjectId) :
  id_of (get "authorid" (req_body req)) = Some id ->
  author_delete_post req s =
  match books_of_author id s with
  | [] =>
      mkResult (mkStore (genres s) (remove_id a_id id (authors s)) (books s)
                  (bookinstances s))
        [Redirect "/catalog/authors"] (inr tt)
  | l =>
      mkResult s
        [Render "author_delete"
           [("title", LStr "Delete Author");
            ("author", LAuthor (lookup_id a_id (Some id) (authors s)));
            ("author_books", LBooks l)]]
        (inr tt)
  end.
Proof.
  intros Hid. unfold author_delete_post, books_of_author. rewrite Hid. unfold_monad.
  destruct (List.filter _ (books s)) as [|b l] eqn:El; cbn; reflexivity.
Qed.

(** Genre delete-POST, in full: guard and removal take the same id. *)
Lemma genre_delete_post_run (req : Request) (s : Store) (id : ObjectId) :
  id_of (get "genreid" (req_body req)) = Some id ->
  genre_delete_post req s =
  match books_of_genre id s with
  | [] =>
      mkResult (mkStore (remove_id g_id id (genres s)) (authors s) (books s)
                  (bookinstances s))
        [Redirect "/catalog/genres"] (inr tt)
  | l =>
      mkResult s
        [Render "genre_delete"
           [("title", LStr "Delete genre");
            ("genre", LGenre (lookup_id g_id (Some id) (genres s)));
            ("genre_books", LBooks l)]]
        (inr tt)
  end.
Proof.
  intros Hid. unfold genre_delete_post, books_of_genre. rewrite Hid. unfold_monad.
  destruct (List.filter _ (books s)) as [|b l] eqn:El; cbn; reflexivity.
Qed.

Lemma remove_id_lookup {A} (key : A -> ObjectId) (id : ObjectId) (l : list A) :
  NoDup (map key l) -> lookup_id key (Some id) (remove_id key id l) = None.
Proof.
  induction l as [|d t IH]; cbn; [reflexivity|].
  intros Hnd. apply NoDup_cons in Hnd as [Hd Ht].
  destruct (has_id key id d) eqn:E; cbn.
  - apply lookup_id_absent. apply String.eqb_eq in E.
    apply not_true_is_false. intros Hex. apply existsb_exists in Hex as (x & Hx & Hk).
    apply String.eqb_eq in Hk. apply Hd. rewrite E, <- Hk.
    apply list_elem_of_In, in_map, Hx.
  - rewrite E. apply IH, Ht.
Qed.

(** What a removal takes out: the first record with the id, and with
    distinct ids the only one. *)
Lemma remove_id_first {A} (key : A -> ObjectId) (id : ObjectId) (d : A)
    (l1 l2 : list A) :
  key d = id -> (forall x, In x l1 -> key x <> id) ->
  remove_id key id (l1 ++ d :: l2) = l1 ++ l2.
Proof.
  intros Hd Hl1. induction l1 as [|x t IH]; cbn.
  - unfold has_id. by rewrite Hd, String.eqb_refl.
  - assert (has_id key id x = false) as ->.
    { apply String.eqb_neq, Hl1. by left. }
    rewrite IH; [reflexivity|]. intros y Hy. apply Hl1. by right.
Qed.

Lemma lookup_id_none {A} (key : A -> ObjectId) (id : ObjectId) (l : list A) :
  lookup_id key (Some id) l = None -> existsb (has_id key id) l = false.
Proof.
  induction l as [|d t IH]; cbn; [reflexivity|].
  destruct (has_id key id d); [discriminate|exact IH].
Qed.

Lemma remove_id_gone {A} (key : A -> ObjectId) (id : ObjectId) (l : list A) :
  NoDup (map key l) -> existsb (has_id key id) (remove_id key id l) = false.
Proof. intros Hnd. by apply lookup_id_none, remove_id_lookup. Qed.

(** C9.  In Book delete-POST the guard looks at the copies of the book named
    by the route while the removal takes the [bookid] of the body.
    - When the book of the route has a copy, the request is blocked whatever
      the body names: nothing is written and the delete view is rendered
      with the book of the route and its copies, each populated.
    - When the book of the route has no copy, the book of the body is
      removed (the first record with the id is taken out of the collection,
      and with distinct ids no record has the id afterwards) and the
      response is the redirect to the book list, whatever copies the
      removed book has; all copies are kept, so the ones of the removed book
      still refer to it.
    - When the two ids are the same, a book with a copy is not removed. *)
Theorem book_delete_post_guard_ids (req : Request) (s : Store) (bid : ObjectId) :
  id_of (get "bookid" (req_body req)) = Some bid ->
  let r := book_delete_post req s in
  (copies_of_book (params_id req) s <> [] ->
     r = mkResult s
           [Render "book_delete"
              [("title", LStr "Delete Book");
               ("book", LPopBook
                  (option_map (fun b => mkPopBook b
                       (lookup_id a_id (Some (b_author b)) (authors s)) None)
                     (lookup_id b_id (Some (params_id req)) (books s))));
               ("book_bookinstances", LPopBookInstances
                  (map (fun c => mkPopBookInstance c
                          (lookup_id b_id (Some (bi_book c)) (books s)))
                     (copies_of_book (params_id req) s)))]]
           (inr tt)) /\
  (copies_of_book (params_id req) s = [] ->
     res_calls r = [Redirect "/catalog/books"] /\
     res_value r = inr tt /\
     genres (res_store r) = genres s /\
     authors (res_store r) = authors s /\
     bookinstances (res_store r) = bookinstances s /\
     copies_of_book bid (res_store r) = copies_of_book bid s /\
     (forall b l1 l2,
        books s = l1 ++ b :: l2 -> b_id b = bid ->
        (forall x, In x l1 -> b_id x <> bid) ->
        books (res_store r) = l1 ++ l2) /\
     (NoDup (map b_id (books s)) -> has_record KBook bid (res_store r) = false) /\
     (has_record KBook bid s = false -> res_store r = s)) /\
  (params_id req = bid -> copies_of_book bid s <> [] -> res_store r = s).
Proof.
  intros Hbid. cbn zeta. rewrite book_delete_post_run, Hbid.
  split; [|split].
  - intros Hblocked. by destruct (copies_of_book (params_id req) s).
  - intros ->. cbn. repeat split.
    + intros b l1 l2 -> Hb Hl1. by apply remove_id_first.
    + intros Hnd. by apply remove_id_gone.
    + intros Habs. cbn in Habs. rewrite (remove_id_absent _ _ _ Habs).
      apply store_eta.
  - intros <- Hcopies. by destruct (copies_of_book (params_id req) s).
Qed.

(** The two ids differ, the book of the route has no copy and the book of
    the body has one: the book of the body is removed and its copy stays. *)
Lemma book_delete_post_guard_ids_witness :
  let s := mkStore [] []
             [mkBook "b1" "Emma" "a1" "s1" "i1" []; mkBook "b2" "Ulysses" "a2" "s2" "i2" []]
             [mkBookInstance "c1" "b2" "Penguin" "Available" None] in
  let req := mkRequest "b1" {["bookid" := JStr "b2"]} in
  copies_of_book "b1" s = [] /\
  copies_of_book "b2" s <> [] /\
  res_calls (book_delete_post req s) = [Redirect "/catalog/books"] /\
  books (res_store (book_delete_post req s)) = [mkBook "b1" "Emma" "a1" "s1" "i1" []] /\
  has_record KBook "b2" (res_store (book_delete_post req s)) = false /\
  bookinstances (res_store (book_delete_post req s)) =
    [mkBookInstance "c1" "b2" "Penguin" "Available" None].
Proof.
  cbn zeta.
  assert (id_of (get "bookid" (req_body (mkRequest "b1" {["bookid" := JStr "b2"]})))
          = Some "b2") as Hbid by (vm_compute; reflexivity).
  destruct (book_delete_post_guard_ids
    (mkRequest "b1" {["bookid" := JStr "b2"]})
    (mkStore [] []
       [mkBook "b1" "Emma" "a1" "s1" "i1" []; mkBook "b2" "Ulysses" "a2" "s2" "i2" []]
       [mkBookInstance "c1" "b2" "Penguin" "Available" None])
    "b2" Hbid) as (_ & Hremoved & _).
  destruct (Hremoved eq_refl) as (Hcalls & _ & _ & _ & Hc & _ & Hfirst & Hgone & _).
  split; [reflexivity|]. split; [discriminate|]. split; [exact Hcalls|].
  split; [|split; [|exact Hc]].
  - exact (Hfirst (mkBook "b2" "Ulysses" "a2" "s2" "i2" [])
             [mkBook "b1" "Emma" "a1" "s1" "i1" []] [] eq_refl eq_refl
             ltac:(intros x [<-|[]]; discriminate)).
  - apply Hgone. cbn. apply (bool_decide_unpack _). vm_compute. exact I.
Defined.


(** An Author or a Genre with a book is kept and the books shown are the
    blocking ones; one without any book is gone after the delete. *)
Lemma author_genre_delete_post_guard (req : Request) (s : Store) (id : ObjectId) :
  (id_of (get "authorid" (req_body req)) = Some id ->
   let r := author_delete_post req s in
   (books_of_author id s <> [] ->
      res_store r = s /\
      res_calls r = [Render "author_delete"
                       [("title", LStr "Delete Author");
                        ("author", LAuthor (lookup_id a_id (Some id) (authors s)));
                        ("author_books", LBooks (books_of_author id s))]]) /\
   (books_of_author id s = [] -> NoDup (map a_id (authors s)) ->
      lookup_id a_id (Some id) (authors (res_store r)) = None /\
      res_calls r = [Redirect "/catalog/authors"])) /\
  (id_of (get "genreid" (req_body req)) = Some id ->
   let r := genre_delete_post req s in
   (books_of_genre id s <> [] ->
      res_store r = s /\
      res_calls r = [Render "genre_delete"
                       [("title", LStr "Delete genre");
                        ("genre", LGenre (lookup_id g_id (Some id) (genres s)));
                        ("genre_books", LBooks (books_of_genre id s))]]) /\
   (books_of_genre id s = [] -> NoDup (map g_id (genres s)) ->
      lookup_id g_id (Some id) (genres (res_store r)) = None /\
      res_calls r = [Redirect "/catalog/genres"])).
Proof.
  split; intros Hid; cbn zeta.
  - rewrite (author_delete_post_run _ _ _ Hid).
    destruct (books_of_author id s) eqn:E; cbn; split; try done.
    intros _ Hnd. split; [|reflexivity]. by apply remove_id_lookup.
  - rewrite (genre_delete_post_run _ _ _ Hid).
    destruct (books_of_genre id s) eqn:E; cbn; split; try done.
    intros _ Hnd. split; [|reflexivity]. by apply remove_id_lookup.
Qed.

(** Book delete-POST when the body names the book of the route: a Book with
    a copy is kept and its copies are shown; one without any is gone. *)
Lemma book_delete_post_same_id (req : Request) (s : Store) :
  id_of (get "bookid" (req_body req)) = Some (params_id req) ->
  let r := book_delete_post req s in
  (copies_of_book (params_id req) s <> [] ->
     res_store r = s /\ existsb is_render (res_calls r) = true) /\
  (copies_of_book (params_id req) s = [] -> NoDup (map b_id (books s)) ->
     lookup_id b_id (Some (params_id req)) (books (res_store r)) = None /\
     res_calls r = [Redirect "/catalog/books"]).
Proof.
  intros Hid. cbn zeta. rewrite book_delete_post_run, Hid.
  destruct (copies_of_book (params_id req) s) eqn:E; cbn; split; try done.
  intros _ Hnd. split; [|reflexivity]. by apply remove_id_lookup.
Qed.

(** C1, at the request that breaks it.  Book b1 has no copy, book b2 has the
    copy c1.  A delete-POST on the route of b1 whose body names b2 passes
    the guard (it looks at the copies of b1) and removes b2: the response is
    the redirect to the book list, b2 is gone and c1 still refers to it. *)
Theorem book_delete_post_removes_referenced_book :
  let s := mkStore [] []
             [mkBook "b1" "Emma" "a1" "s1" "i1" []; mkBook "b2" "Ulysses" "a2" "s2" "i2" []]
             [mkBookInstance "c1" "b2" "Penguin" "Available" None] in
  let r := delete_post KBook (mkRequest "b1" {["bookid" := JStr "b2"]}) s in
  copies_of_book "b2" s = [mkBookInstance "c1" "b2" "Penguin" "Available" None] /\
  has_record KBook "b2" s = true /\
  has_record KBook "b2" (res_store r) = false /\
  copies_of_book "b2" (res_store r) =
    [mkBookInstance "c1" "b2" "Penguin" "Available" None] /\
  res_calls r = [Redirect "/catalog/books"].
Proof. vm_compute. repeat split. Qed.

(** ** The order of the list views *)

Lemma ascii_compare_lt_trans (a b c : ascii) :
  Ascii.compare a b = Lt -> Ascii.compare b c = Lt -> Ascii.compare a c = Lt.
Proof.
  unfold Ascii.compare. rewrite !N.compare_lt_iff. apply N.lt_trans.
Qed.

Lemma string_compare_lt_trans (s1 s2 s3 : string) :
  String.compare s1 s2 = Lt -> String.compare s2 s3 = Lt -> String.compare s1 s3 = Lt.
Proof.
  revert s2 s3. induction s1 as [|a s1 IH]; intros [|b s2] [|c s3]; cbn;
    try discriminate; try reflexivity.
  destruct (Ascii.compare a b) eqn:Eab; try discriminate;
    destruct (Ascii.compare b c) eqn:Ebc; try discriminate; intros H1 H2.
  - apply Ascii.compare_eq_iff in Eab, Ebc. subst.
    assert (Ascii.compare c c = Eq) as ->; [|eauto].
    unfold Ascii.compare. apply N.compare_refl.
  - apply Ascii.compare_eq_iff in Eab. subst. rewrite Ebc. reflexivity.
  - apply Ascii.compare_eq_iff in Ebc. subst. rewrite Eab. reflexivity.
  - rewrite (ascii_compare_lt_trans _ _ _ Eab Ebc). reflexivity.
Qed.

Lemma string_compare_refl (s : string) : String.compare s s = Eq.
Proof.
  induction s as [|a s IH]; cbn; [reflexivity|].
  assert (Ascii.compare a a = Eq) as ->; [|exact IH].
  unfold Ascii.compare. apply N.compare_refl.
Qed.

Lemma string_leb_trans (s1 s2 s3 : string) :
  String.leb s1 s2 = true -> String.leb s2 s3 = true -> String.leb s1 s3 = true.
Proof.
  unfold String.leb.
  destruct (String.compare s1 s2) eqn:E12; try discriminate;
    destruct (String.compare s2 s3) eqn:E23; try discriminate; intros _ _.
  - apply String.compare_eq_iff in E12, E23. subst.
    by rewrite string_compare_refl.
  - apply String.compare_eq_iff in E12. subst. rewrite E23. reflexivity.
  - apply String.compare_eq_iff in E23. subst. rewrite E12. reflexivity.
  - rewrite (string_compare_lt_trans _ _ _ E12 E23). reflexivity.
Qed.

Lemma key_le_total {A} (key : A -> string) : Total (key_le key).
Proof. intros x y. apply String.leb_total. Qed.

Lemma key_le_trans {A} (key : A -> string) : Transitive (key_le key).
Proof. intros x y z. apply string_leb_trans. Qed.

Lemma sort_by_sorted {A} (key : A -> string) (l : list A) :
  StronglySorted (key_le key) (sort_by key l).
Proof.
  exact (@StronglySorted_merge_sort _ (key_le key) _
           (key_le_trans key) (key_le_total key) l).
Qed.

Lemma sort_by_perm {A} (key : A -> string) (l : list A) : sort_by key l ≡ₚ l.
Proof. apply merge_sort_Permutation. Qed.

Lemma filter_all {A} (l : list A) : List.filter (fun _ => true) l = l.
Proof. induction l as [|x l IH]; cbn; [reflexivity|by rewrite IH]. Qed.

(** C7, as the code has it.  The Genre, Author and Book list views show all
    the records of the store in ascending order of name, family name and
    title, each Book with its author populated; the BookInstance list view
    shows the copies in the order of the collection, each populated with the
    Book its [book] path names ([null] when there is none). *)
Theorem list_views_order (req : Request) (s : Store) :
  (exists l,
     list_get KGenre req s =
       mkResult s [Render "genre_list"
                     [("title", LStr "Genre List"); ("genre_list", LGenres l)]] (inr tt) /\
     StronglySorted (key_le g_name) l /\ l ≡ₚ genres s) /\
  (exists l,
     list_get KAuthor req s =
       mkResult s [Render "author_list"
                     [("title", LStr "Author List"); ("author_list", LAuthors l)]] (inr tt) /\
     StronglySorted (key_le a_family_name) l /\ l ≡ₚ authors s) /\
  (exists l,
     list_get KBook req s =
       mkResult s [Render "book_list"
                     [("title", LStr "Book List"); ("book_list", LPopBooks l)]] (inr tt) /\
     StronglySorted (key_le pb_title) l /\
     map pb_doc l ≡ₚ map select_title_author (books s) /\
     Forall (fun p => pb_author p
                      = lookup_id a_id (Some (b_author (pb_doc p))) (authors s)) l) /\
  list_get KBookInstance req s =
    mkResult s
      [Render "bookinstance_list"
         [("title", LStr "Book Instance List");
          ("bookinstance_list",
           LPopBookInstances
             (map (fun c => mkPopBookInstance c
                              (lookup_id b_id (Some (bi_book c)) (books s)))
                (bookinstances s)))]]
      (inr tt).
Proof.
  repeat split.
  - exists (sort_by g_name (genres s)). cbn. unfold genre_list. unfold_monad.
    rewrite filter_all. auto using sort_by_sorted, sort_by_perm.
  - exists (sort_by a_family_name (authors s)). cbn. unfold author_list. unfold_monad.
    rewrite filter_all. auto using sort_by_sorted, sort_by_perm.
  - eexists. cbn. unfold book_list. unfold_monad. rewrite filter_all.
    rewrite populate_all_author. cbn. split; [reflexivity|]. split; [|split].
    + apply (StronglySorted_fmap _ (key_le b_title)); [|apply sort_by_sorted].
      intros x y Hxy. exact Hxy.
    + rewrite map_map. cbn. rewrite map_id. apply sort_by_perm.
    + apply List.Forall_forall. intros p Hin.
      apply in_map_iff in Hin as (b & <- & _). reflexivity.
  - cbn. unfold bookinstance_list. unfold_monad. rewrite filter_all.
    by rewrite populate_all_book.
Qed.

(** C7 as stated fails for the BookInstance list view: two copies whose
    books are titled Ulysses and Emma are shown in that order. *)
Lemma bookinstance_list_not_sorted :
  let s := mkStore [] []
             [mkBook "b1" "Emma" "a1" "s1" "i1" []; mkBook "b2" "Ulysses" "a2" "s2" "i2" []]
             [mkBookInstance "c1" "b2" "Penguin" "Available" None;
              mkBookInstance "c2" "b1" "Vintage" "Loaned" None] in
  exists l,
    res_calls (list_get KBookInstance (mkRequest EmptyString ∅) s) =
      [Render "bookinstance_list"
         [("title", LStr "Book Instance List");
          ("bookinstance_list", LPopBookInstances l)]] /\
    map pbi_title l = ["Ulysses"; "Emma"] /\
    ~ Sorted (key_le pbi_title) l.
Proof.
  eexists. split; [vm_compute; reflexivity|]. split; [reflexivity|].
  intros Hs. inversion Hs as [|x l Hl Hhd]; subst.
  inversion Hhd as [|y l' Hxy]; subst. vm_compute in Hxy. discriminate.
Qed.

(** ** A GET for an id that has no record *)

(** C5, as the code has it.  For an id that has no record: the detail view
    of every kind hands a 404 error to [next]; for Genre, Author and Book
    the delete form answers with the redirect to the list view of the kind,
    hands no 404 error to [next], fulfils its promise and leaves the store
    alone, and the update form hands the 404 error to [next]; for
    BookInstance the delete form hands the 404 error to [next] as well. *)
Theorem missing_id_get (k : EntityKind) (req : Request) (s : Store) :
  has_record k (params_id req) s = false ->
  detail_get k req s = mkResult s [Next (not_found k)] (inr tt) /\
  (k <> KBookInstance ->
     hd_error (res_calls (delete_get k req s)) = Some (Redirect (list_url k)) /\
     ~ In (Next (not_found k)) (res_calls (delete_get k req s)) /\
     res_value (delete_get k req s) = inr tt /\
     res_store (delete_get k req s) = s /\
     update_get k req s = mkResult s [Next (not_found k)] (inr tt)) /\
  (k = KBookInstance ->
     delete_get k req s = mkResult s [Next (not_found k)] (inr tt)).
Proof.
  intros Habs. destruct k; cbn in Habs; apply lookup_id_absent in Habs.
  - split; [|split; [intros _|discriminate]]; cbn.
    + unfold genre_detail. unfold_monad. by rewrite Habs.
    + unfold genre_delete_get, genre_update_get. unfold_monad. rewrite Habs. cbn.
      repeat split. by intros [|[|[]]].
  - split; [|split; [intros _|discriminate]]; cbn.
    + unfold author_detail. unfold_monad. by rewrite Habs.
    + unfold author_delete_get, author_update_get. unfold_monad. rewrite Habs. cbn.
      repeat split. by intros [|[|[]]].
  - split; [|split; [intros _|discriminate]]; cbn.
    + unfold book_detail. unfold_monad. by rewrite Habs.
    + unfold book_delete_get, book_update_get. unfold_monad. rewrite Habs. cbn.
      rewrite populate_all_book. cbn. repeat split. by intros [|[|[]]].
  - split; [|split; [done|intros _]]; cbn.
    + unfold bookinstance_detail. unfold_monad. by rewrite Habs.
    + unfold bookinstance_delete_get. unfold_monad. by rewrite Habs.
Qed.

Lemma missing_id_get_witness :
  let s := mkStore [mkGenre "g1" "Fantasy"] [] [] [] in
  let req := mkRequest "g2" ∅ in
  has_record KGenre "g2" s = false /\
  hd_error (res_calls (delete_get KGenre req s)) = Some (Redirect "/catalog/genres") /\
  update_get KGenre req s = mkResult s [Next (HttpError "Genre not found" 404)] (inr tt) /\
  detail_get KGenre req s = mkResult s [Next (HttpError "Genre not found" 404)] (inr tt).
Proof.
  cbn zeta.
  pose proof (missing_id_get KGenre (mkRequest "g2" ∅)
                (mkStore [mkGenre "g1" "Fantasy"] [] [] []) eq_refl)
    as (Hdetail & Hdelete & _).
  destruct (Hdelete ltac:(discriminate)) as (Hhd & _ & _ & _ & Hupdate).
  split; [reflexivity|]. split; [exact Hhd|].
  split; [exact Hupdate|exact Hdetail].
Defined.

(** C5 as stated fails for BookInstance: the delete form for an id that has
    no record hands a 404 error to [next] and redirects nowhere (and the
    update form for that id fails on reading a property of [null], which is
    no 404). *)
Lemma bookinstance_delete_get_missing :
  let s := mkStore [] [] [] [] in
  let req := mkRequest "c9" ∅ in
  has_record KBookInstance "c9" s = false /\
  res_calls (delete_get KBookInstance req s) =
    [Next (HttpError "Book copy not found" 404)] /\
  existsb (fun c => match c with Redirect _ => true | _ => false end)
    (res_calls (delete_get KBookInstance req s)) = false /\
  res_calls (update_get KBookInstance req s) =
    [Next (TypeError "Cannot read properties of null (reading 'book')")].
Proof. vm_compute. repeat split. Qed.

(** ** The validation chains *)

Lemma get_insert_eq (f : string) (v : JsValue) (b : gmap string JsValue) :
  get f (<[f := v]> b) = v.
Proof. unfold get. by rewrite lookup_insert_eq. Qed.

Lemma get_insert_ne (f g : string) (v : JsValue) (b : gmap string JsValue) :
  f <> g -> get g (<[f := v]> b) = get g b.
Proof. intros Hne. unfold get. by rewrite lookup_insert_ne. Qed.

Lemma count_param_app (f : string) (es es' : list ValidationError) :
  count_param f (es ++ es') = count_param f es + count_param f es'.
Proof. unfold count_param. by rewrite List.filter_app, length_app. Qed.

Lemma validate_count_other (c : ValidationChain) p m v (f : string) :
  field c <> f -> count_param f (validate c p m v) = 0.
Proof.
  intros Hne. unfold validate, count_param.
  induction (List.filter _ (values_of v)) as [|a l IH]; cbn; [reflexivity|].
  destruct (String.eqb_spec (field c) f); [contradiction|exact IH].
Qed.

Lemma run_item_skip (c : ValidationChain) st (i : ChainItem) (f : string) :
  field c <> f ->
  count_param f (run_item c st i).2 = count_param f st.2 /\
  get f (run_item c st i).1 = get f st.1.
Proof.
  intros Hne. unfold run_item. destruct st as [b es]. cbn [fst snd].
  destruct (instance c b) as [v|]; [|done].
  destruct (optional_checkFalsy c && falsy v); [done|].
  destruct i; cbn.
  - split; [reflexivity|]. by apply get_insert_ne.
  - split; [|reflexivity].
    rewrite count_param_app, validate_count_other by done. lia.
Qed.

Lemma run_skip (c : ValidationChain) st (f : string) :
  field c <> f ->
  count_param f (run c st).2 = count_param f st.2 /\
  get f (run c st).1 = get f st.1.
Proof.
  intros Hne. unfold run. revert st.
  induction (stack c) as [|i l IH]; intros st; cbn; [done|].
  destruct (IH (run_item c st i)) as [-> ->]. by apply run_item_skip.
Qed.

Lemma run_skip_count (c : ValidationChain) st (f : string) :
  field c <> f -> count_param f (run c st).2 = count_param f st.2.
Proof. intros Hne. by destruct (run_skip c st f Hne). Qed.

Lemma run_skip_get (c : ValidationChain) st (f : string) :
  field c <> f -> get f (run c st).1 = get f st.1.
Proof. intros Hne. by destruct (run_skip c st f Hne). Qed.

Lemma isLength_blank (a : Atom) :
  Validator.isLength 1 (Validator.trim (toString a)) = negb (blank a).
Proof.
  unfold blank, Validator.isLength.
  destruct (Validator.trim (toString a)); cbn; [reflexivity|].
  by rewrite bool_decide_eq_false_2.
Qed.

(** A chain [body(f, msg).trim().isLength({ min: 1 }).escape()] on a single
    value: one error when the value is blank, and the field holds the value
    trimmed and escaped. *)
Lemma run_required (f msg : string) st (a : Atom) :
  get f st.1 = JAtom a ->
  count_param f (run (body f (Some msg) |> trim |> isLength 1 |> escape) st).2 =
    count_param f st.2 + (if blank a then 1 else 0) /\
  get f (run (body f (Some msg) |> trim |> isLength 1 |> escape) st).1 =
    JStr (sanitized a).
Proof.
  intros Hget. destruct st as [b es]. cbn [fst snd] in *.
  unfold run, run_item. cbn.
  rewrite Hget. cbn. rewrite !get_insert_eq. cbn.
  split; [|reflexivity].
  rewrite count_param_app. f_equal.
  unfold validate. cbn. rewrite isLength_blank.
  destruct (blank a); cbn; [|reflexivity].
  unfold count_param. cbn [map List.filter ve_param]. by rewrite String.eqb_refl.
Qed.

Lemma run_required_count (f msg : string) st (a : Atom) :
  get f st.1 = JAtom a ->
  count_param f (run (body f (Some msg) |> trim |> isLength 1 |> escape) st).2 =
    count_param f st.2 + (if blank a then 1 else 0).
Proof. intros Hget. by destruct (run_required f msg st a Hget). Qed.

Lemma run_required_get (f msg : string) st (a : Atom) :
  get f st.1 = JAtom a ->
  get f (run (body f (Some msg) |> trim |> isLength 1 |> escape) st).1 =
    JStr (sanitized a).
Proof. intros Hget. by destruct (run_required f msg st a Hget). Qed.

(** The chain of an Author name on a single value: the length test and the
    alphanumeric test both report, the second on the escaped value. *)
Lemma run_author_name (f m1 m2 : string) st (a : Atom) :
  get f st.1 = JAtom a ->
  count_param f
    (run (body f None |> trim |> isLength 1 |> escape |> withMessage m1
            |> isAlphanumeric |> withMessage m2) st).2 =
    count_param f st.2 + (if blank a then 1 else 0)
      + (if Validator.isAlphanumeric (sanitized a) then 0 else 1) /\
  get f
    (run (body f None |> trim |> isLength 1 |> escape |> withMessage m1
            |> isAlphanumeric |> withMessage m2) st).1 =
    JStr (sanitized a).
Proof.
  intros Hget. destruct st as [b es]. cbn [fst snd] in *.
  unfold run, run_item. cbn.
  rewrite Hget. cbn. rewrite !get_insert_eq. cbn.
  split; [|reflexivity].
  rewrite !count_param_app. f_equal; [f_equal|].
  - unfold validate. cbn. rewrite isLength_blank.
    destruct (blank a); cbn; [|reflexivity].
    unfold count_param. cbn [map List.filter ve_param]. by rewrite String.eqb_refl.
  - unfold validate. cbn. fold (sanitized a).
    destruct (Validator.isAlphanumeric (sanitized a)); cbn; [reflexivity|].
    unfold count_param. cbn [map List.filter ve_param]. by rewrite String.eqb_refl.
Qed.

Lemma run_author_name_count (f m1 m2 : string) st (a : Atom) :
  get f st.1 = JAtom a ->
  count_param f
    (run (body f None |> trim |> isLength 1 |> escape |> withMessage m1
            |> isAlphanumeric |> withMessage m2) st).2 =
    count_param f st.2 + (if blank a then 1 else 0)
      + (if Validator.isAlphanumeric (sanitized a) then 0 else 1).
Proof. intros Hget. by destruct (run_author_name f m1 m2 st a Hget). Qed.

Lemma run_author_name_get (f m1 m2 : string) st (a : Atom) :
  get f st.1 = JAtom a ->
  get f
    (run (body f None |> trim |> isLength 1 |> escape |> withMessage m1
            |> isAlphanumeric |> withMessage m2) st).1 =
    JStr (sanitized a).
Proof. intros Hget. by destruct (run_author_name f m1 m2 st a Hget). Qed.

Lemma blank_not_alphanumeric (a : Atom) :
  blank a = true -> Validator.isAlphanumeric (sanitized a) = false.
Proof.
  unfold blank, sanitized. intros Hb. apply bool_decide_eq_true in Hb.
  by rewrite Hb.
Qed.

Lemma genre_to_array_get (f : string) (b : gmap string JsValue) :
  f <> "genre" -> get f (genre_to_array b) = get f b.
Proof.
  intros Hne. unfold genre_to_array.
  destruct (get "genre" b) as [[]|]; try reflexivity; by apply get_insert_ne.
Qed.

Lemma count_param_nil (f : string) : count_param f [] = 0.
Proof. reflexivity. Qed.

Lemma count_param_pos (f : string) (es : list ValidationError) :
  count_param f es <> 0 -> es <> [].
Proof. intros Hc ->. by apply Hc. Qed.

(** The errors about a required field and the value the field holds after
    the chains of the kind. *)
Lemma validation_required `{DateLib} (k : EntityKind) (b : gmap string JsValue)
    (f : string) (a : Atom) :
  In f (required_fields k) -> get f b = JAtom a ->
  count_param f (validation k b).2 =
    (if blank a then match k with KAuthor => 2 | _ => 1 end
     else match k with
          | KAuthor => if Validator.isAlphanumeric (sanitized a) then 0 else 1
          | _ => 0
          end) /\
  get f (validation k b).1 = JStr (sanitized a).
Proof.
  intros Hin Hget.
  destruct k; cbn in Hin; repeat (destruct Hin as [<-|Hin]); try destruct Hin;
    unfold validation, run_all, genre_chains, author_chains, book_chains,
      bookinstance_chains; cbn [fold_left];
    (split;
     [ rewrite ?run_skip_count by (cbn; discriminate);
       first [ rewrite (run_required_count _ _ _ a)
             | rewrite (run_author_name_count _ _ _ _ a) ];
       [ rewrite ?run_skip_count by (cbn; discriminate);
         cbn [snd]; rewrite count_param_nil;
         try (destruct (blank a) eqn:Hb;
              [rewrite (blank_not_alphanumeric a Hb)|]); cbn; try reflexivity;
         destruct (blank a); reflexivity
       | rewrite ?run_skip_get by (cbn; discriminate); cbn [fst];
         rewrite ?genre_to_array_get by discriminate; exact Hget ]
     | rewrite ?run_skip_get by (cbn; discriminate);
       first [ rewrite (run_required_get _ _ _ a)
             | rewrite (run_author_name_get _ _ _ _ a) ];
       [ reflexivity
       | rewrite ?run_skip_get by (cbn; discriminate); cbn [fst];
         rewrite ?genre_to_array_get by discriminate; exact Hget ] ]).
Qed.

Lemma default_ref_of (v : string) :
  default EmptyString (ref_of (JStr v)) = v.
Proof. cbn. by case_bool_decide. Qed.

Lemma replace_all_empty (c : ascii) (by_ s : string) :
  by_ <> EmptyString -> Validator.replace_all c by_ s = EmptyString -> s = EmptyString.
Proof.
  intros Hby. destruct s as [|d s]; cbn; [done|].
  destruct (Ascii.eqb c d); [|done].
  destruct by_; [done|]. cbn. done.
Qed.

Lemma escape_empty (s : string) :
  Validator.escape s = EmptyString -> s = EmptyString.
Proof.
  unfold Validator.escape. intros Hs.
  do 8 (apply replace_all_empty in Hs; [|discriminate]). exact Hs.
Qed.

Lemma sanitized_empty (a : Atom) :
  sanitized a = EmptyString -> blank a = true.
Proof.
  unfold sanitized, blank. intros Hs. apply escape_empty in Hs.
  by apply bool_decide_eq_true.
Qed.

(** ** The branch of the validation errors, handler by handler *)

Lemma genre_create_post_rejected (new_id : ObjectId) (req : Request) (s : Store) :
  (run_all genre_chains (req_body req)).2 <> [] ->
  genre_create_post new_id req s =
  mkResult s
    [Render "genre_form"
       [("title", LStr "Create Genre");
        ("genre", LGenre (Some (mkGenre new_id
                    (str_of (get "name" (run_all genre_chains (req_body req)).1)))));
        ("errors", LErrors (run_all genre_chains (req_body req)).2)]]
    (inr tt).
Proof.
  intros Herr. unfold genre_create_post.
  destruct (run_all genre_chains (req_body req)) as [body errors]. cbn [fst snd] in *.
  by rewrite bool_decide_eq_false_2.
Qed.

(** Genre update-POST shows the stored record, not the draft. *)
Lemma genre_update_post_rejected (req : Request) (s : Store) :
  (run_all genre_chains (req_body req)).2 <> [] ->
  genre_update_post req s =
  mkResult s
    [Render "genre_form"
       [("title", LStr "Update Genre");
        ("genre", LGenre (lookup_id g_id (Some (params_id req)) (genres s)));
        ("errors", LErrors (run_all genre_chains (req_body req)).2)]]
    (inr tt).
Proof.
  intros Herr. unfold genre_update_post.
  destruct (run_all genre_chains (req_body req)) as [body errors]. cbn [fst snd] in *.
  by rewrite bool_decide_eq_false_2.
Qed.

Lemma author_post_rejected `{DateLib} (new_id : ObjectId) (req : Request) (s : Store) :
  (run_all author_chains (req_body req)).2 <> [] ->
  author_create_post new_id req s =
    mkResult s
      [Render "author_form"
         [("title", LStr "Create Author");
          ("author", LBody (run_all author_chains (req_body req)).1);
          ("errors", LErrors (run_all author_chains (req_body req)).2)]]
      (inr tt) /\
  author_update_post req s =
    mkResult s
      [Render "author_form"
         [("title", LStr "Update Author");
          ("author", LBody (run_all author_chains (req_body req)).1);
          ("errors", LErrors (run_all author_chains (req_body req)).2)]]
      (inr tt).
Proof.
  intros Herr. unfold author_create_post, author_update_post.
  destruct (run_all author_chains (req_body req)) as [body errors]. cbn [fst snd] in *.
  by rewrite bool_decide_eq_false_2.
Qed.

Lemma book_form_errors_run (title : string) (book : BookDoc)
    (errors : list ValidationError) (s : Store) :
  book_form_errors title book errors s =
  mkResult s
    [Render "book_form"
       [("title", LStr title); ("authors", LAuthors (authors s));
        ("genres", LGenreChoices (mark_checked (b_genre book) (genres s)));
        ("book", LBook book); ("errors", LErrors errors)]]
    (inr tt).
Proof. unfold book_form_errors. unfold_monad. by rewrite !filter_all. Qed.

Lemma book_post_rejected (new_id : ObjectId) (req : Request) (s : Store) :
  (run_all book_chains (genre_to_array (req_body req))).2 <> [] ->
  book_create_post new_id req s =
    book_form_errors "Create Book"
      (new_Book new_id (run_all book_chains (genre_to_array (req_body req))).1)
      (run_all book_chains (genre_to_array (req_body req))).2 s /\
  book_update_post req s =
    book_form_errors "Update Book"
      (new_Book (params_id req) (run_all book_chains (genre_to_array (req_body req))).1)
      (run_all book_chains (genre_to_array (req_body req))).2 s.
Proof.
  intros Herr. unfold book_create_post, book_update_post.
  destruct (run_all book_chains (genre_to_array (req_body req))) as [body errors].
  cbn [fst snd] in *. by rewrite bool_decide_eq_false_2.
Qed.

(** The form of a BookInstance: rendered when the [book] path of the draft
    is set, an error handed to [next] when it is not. *)
Lemma bookinstance_form_errors_run (title : string) (body : gmap string JsValue)
    (bookinstance : BookInstanceDoc) (errors : list ValidationError) (s : Store) :
  bookinstance_form_errors title body bookinstance errors s =
  match ref_of (get "book" body) with
  | Some i =>
      mkResult s
        [Render "bookinstance_form"
           [("title", LStr title); ("book_list", LBooks (map select_title (books s)));
            ("selected_book", LId i); ("errors", LErrors errors);
            ("bookinstance", LBookInstance bookinstance)]]
        (inr tt)
  | None =>
      mkResult s
        [Next (TypeError "Cannot read properties of undefined (reading '_id')")]
        (inr tt)
  end.
Proof.
  unfold bookinstance_form_errors. unfold_monad. rewrite filter_all.
  by destruct (ref_of (get "book" body)).
Qed.

Lemma bookinstance_post_rejected `{DateLib} `{StatusEnum} (new_id : ObjectId) (req : Request)
    (s : Store) :
  (run_all bookinstance_chains (req_body req)).2 <> [] ->
  bookinstance_create_post new_id req s =
    bookinstance_form_errors "Create BookInstance"
      (run_all bookinstance_chains (req_body req)).1
      (new_BookInstance new_id (run_all bookinstance_chains (req_body req)).1)
      (run_all bookinstance_chains (req_body req)).2 s /\
  bookinstance_update_post req s =
    bookinstance_form_errors "Update BookInstance"
      (run_all bookinstance_chains (req_body req)).1
      (new_BookInstance (params_id req) (run_all bookinstance_chains (req_body req)).1)
      (run_all bookinstance_chains (req_body req)).2 s.
Proof.
  intros Herr. unfold bookinstance_create_post, bookinstance_update_post.
  destruct (run_all bookinstance_chains (req_body req)) as [body errors].
  cbn [fst snd] in *. by rewrite bool_decide_eq_false_2.
Qed.

Lemma draft_field_body (b : gmap string JsValue) (f v : string) :
  get f b = JStr v -> draft_field (LBody b) f = Some v.
Proof.
  unfold get, draft_field. destruct (b !! f) as [[[]|]|]; cbn; intros [=]; by subst.
Qed.

(** A POST rejected by the validation: no handler writes to the store, and
    the form is rendered once with the errors and with a draft that shows
    the required fields trimmed and escaped, by every create handler and by
    the update handlers other than the one of Genre, the book of a
    BookInstance not being blank. *)
Lemma rejected_post_forms `{DateLib} `{StatusEnum} (k : EntityKind) (new_id : ObjectId)
    (req : Request) (s : Store) :
  single_valued k (req_body req) ->
  (validation k (req_body req)).2 <> [] ->
  res_store (create_post k new_id req s) = s /\
  res_store (update_post k req s) = s /\
  (book_given k (req_body req) ->
     exists d, rejected_form k (create_post k new_id req s)
               = Some (d, (validation k (req_body req)).2) /\
               shows_sanitized k (req_body req) d) /\
  (k <> KGenre -> book_given k (req_body req) ->
     exists d, rejected_form k (update_post k req s)
               = Some (d, (validation k (req_body req)).2) /\
               shows_sanitized k (req_body req) d).
Proof.
  intros Hsingle Herr. unfold shows_sanitized, book_given.
  assert (Hval := fun f a Hin Hget => validation_required k (req_body req) f a Hin Hget).
  destruct k; unfold validation, create_post, update_post in *.
  - (* Genre *)
    pose proof (genre_create_post_rejected new_id req s) as Hc.
    pose proof (genre_update_post_rejected req s) as Hu.
    destruct (run_all genre_chains (req_body req)) as [body errors].
    cbn [fst snd] in *. rewrite (Hc Herr), (Hu Herr). clear Hc Hu.
    repeat split; [|done].
    intros _. eexists. split; [reflexivity|].
    intros f a Hin Hget. destruct (Hval f a Hin Hget) as [_ Hf].
    cbn in Hin. destruct Hin as [<-|[]].
    cbn [draft_field String.eqb Ascii.eqb Bool.eqb g_name]. by rewrite Hf.
  - (* Author *)
    pose proof (author_post_rejected new_id req s) as Hc.
    destruct (run_all author_chains (req_body req)) as [body errors].
    cbn [fst snd] in *. destruct (Hc Herr) as [-> ->]. clear Hc.
    repeat split; intros; exists (LBody body); (split; [reflexivity|]);
      intros f a Hin Hget; destruct (Hval f a Hin Hget) as [_ Hf];
      by apply draft_field_body.
  - (* Book *)
    pose proof (book_post_rejected new_id req s) as Hc.
    destruct (run_all book_chains (genre_to_array (req_body req))) as [body errors].
    cbn [fst snd] in *. destruct (Hc Herr) as [-> ->]. clear Hc.
    rewrite !book_form_errors_run.
    repeat split; intros; eexists; (split; [reflexivity|]);
      intros f a Hin Hget; destruct (Hval f a Hin Hget) as [_ Hf];
      cbn in Hin; repeat (destruct Hin as [<-|Hin]); try destruct Hin;
      cbn [draft_field String.eqb Ascii.eqb Bool.eqb new_Book
           b_title b_author b_summary b_isbn];
      rewrite Hf; try reflexivity; by rewrite default_ref_of.
  - (* BookInstance *)
    pose proof (bookinstance_post_rejected new_id req s) as Hc.
    destruct (run_all bookinstance_chains (req_body req)) as [body errors].
    cbn [fst snd] in *. destruct (Hc Herr) as [-> ->]. clear Hc.
    rewrite !bookinstance_form_errors_run.
    assert ((forall a, get "book" (req_body req) = JAtom a -> blank a = false) ->
            exists i, ref_of (get "book" body) = Some i) as Hbook.
    { intros Hgiven. destruct (Hsingle "book") as [a Ha]; [cbn; auto|].
      destruct (Hval "book" a) as [_ Hf]; [cbn; auto|exact Ha|].
      rewrite Hf. cbn [ref_of JStr]. case_bool_decide as Hs; [|by eexists].
      apply sanitized_empty in Hs. by rewrite (Hgiven a Ha) in Hs. }
    split; [by destruct (ref_of _)|].
    split; [by destruct (ref_of _)|].
    split; [intros Hgiven|intros _ Hgiven];
      destruct (Hbook (Hgiven eq_refl)) as [i Hi]; rewrite Hi;
      eexists; (split; [reflexivity|]);
      intros f a Hin Hget; destruct (Hval f a Hin Hget) as [_ Hf];
      cbn in Hin; repeat (destruct Hin as [<-|Hin]); try destruct Hin;
      cbn [draft_field String.eqb Ascii.eqb Bool.eqb new_BookInstance
           bi_book bi_imprint bi_status];
      rewrite Hf; try reflexivity; by rewrite default_ref_of.
Qed.

(** C6, as the code has it.  For a create or update POST whose required
    fields are single values or missing, one of them blank: the validation
    reports one error for each blank required field of a Genre, a Book or a
    BookInstance and two for each blank required field of an Author (none
    for the other required fields, but for an Author name that is not
    alphanumeric), and the errors are not empty; no handler writes to the
    store; and the form is rendered once with these errors and with a draft
    that shows every required field trimmed and escaped, by the create
    handlers and by the update handlers other than the one of Genre,
    provided the book of a BookInstance is not blank. *)
Theorem blank_required_fields `{DateLib} `{StatusEnum} (k : EntityKind) (new_id : ObjectId)
    (req : Request) (s : Store) :
  single_valued k (req_body req) ->
  (exists f a, In f (required_fields k) /\ get f (req_body req) = JAtom a /\
               blank a = true) ->
  let errors := (validation k (req_body req)).2 in
  (forall f a, In f (required_fields k) -> get f (req_body req) = JAtom a ->
     count_param f errors =
       if blank a then match k with KAuthor => 2 | _ => 1 end
       else match k with
            | KAuthor => if Validator.isAlphanumeric (sanitized a) then 0 else 1
            | _ => 0
            end) /\
  errors <> [] /\
  res_store (create_post k new_id req s) = s /\
  res_store (update_post k req s) = s /\
  (book_given k (req_body req) ->
     exists d, rejected_form k (create_post k new_id req s) = Some (d, errors) /\
               shows_sanitized k (req_body req) d) /\
  (k <> KGenre -> book_given k (req_body req) ->
     exists d, rejected_form k (update_post k req s) = Some (d, errors) /\
               shows_sanitized k (req_body req) d).
Proof.
  intros Hsingle (f0 & a0 & Hin0 & Hget0 & Hblank0). cbn zeta.
  assert (Hval := fun f a Hin Hget => validation_required k (req_body req) f a Hin Hget).
  assert ((validation k (req_body req)).2 <> []) as Herr.
  { apply (count_param_pos f0). destruct (Hval f0 a0 Hin0 Hget0) as [-> _].
    rewrite Hblank0. by destruct k. }
  split; [intros f a Hin Hget; by destruct (Hval f a Hin Hget)|].
  split; [exact Herr|].
  exact (rejected_post_forms k new_id req s Hsingle Herr).
Qed.

Lemma blank_required_fields_witness :
  let req := mkRequest "b7"
               {[ "title" := JStr "  "; "author" := JStr "a1";
                  "summary" := JStr " A <b> story "; "isbn" := JStr "123" ]} in
  let s := mkStore [] [] [] [] in
  count_param "title" (validation (H := no_dates) KBook (req_body req)).2 = 1 /\
  count_param "summary" (validation (H := no_dates) KBook (req_body req)).2 = 0 /\
  exists d,
    rejected_form KBook (create_post (H := no_dates) (H0 := four_states) KBook "b9" req s)
      = Some (d, (validation (H := no_dates) KBook (req_body req)).2) /\
    draft_field d "summary" = Some "A &lt;b&gt; story".
Proof.
  cbn zeta.
  pose proof (blank_required_fields (H := no_dates) (H0 := four_states) KBook "b9"
    (mkRequest "b7"
       {[ "title" := JStr "  "; "author" := JStr "a1";
          "summary" := JStr " A <b> story "; "isbn" := JStr "123" ]})
    (mkStore [] [] [] [])) as Hthm.
  destruct Hthm as (Hcount & _ & _ & _ & Hcreate & _).
  - intros f Hin. cbn in Hin.
    repeat (destruct Hin as [<-|Hin]); try destruct Hin; eexists; vm_compute; reflexivity.
  - exists "title", (AStr "  "). split; [cbn; auto|]. split; vm_compute; reflexivity.
  - split; [exact (Hcount "title" (AStr "  ") ltac:(cbn; auto) eq_refl)|].
    split; [exact (Hcount "summary" (AStr " A <b> story ") ltac:(cbn; auto) eq_refl)|].
    destruct (Hcreate ltac:(discriminate)) as (d & Hd & Hshow).
    exists d. split; [exact Hd|].
    exact (Hshow "summary" (AStr " A <b> story ") ltac:(cbn; auto) eq_refl).
Defined.

(** C6 as stated fails for Author: a create-POST with a blank first name and
    a family name in spaces reports two errors about the first name, and the
    body shown with them holds the family name trimmed. *)
Lemma author_create_post_blank_first_name :
  let req := mkRequest EmptyString
               {[ "first_name" := JStr EmptyString; "family_name" := JStr " Smith " ]} in
  let r := create_post (H := no_dates) (H0 := four_states) KAuthor "a9" req (mkStore [] [] [] []) in
  exists body,
    res_calls r =
      [Render "author_form"
         [("title", LStr "Create Author"); ("author", LBody body);
          ("errors", LErrors
             [mkValidationError (AStr EmptyString) "First name must be specified."
                "first_name";
              mkValidationError (AStr EmptyString)
                "First name has non-alphanumeric characters." "first_name"])]] /\
    body !! "family_name" = Some (JStr "Smith") /\
    get "family_name" (req_body req) = JStr " Smith ".
Proof. eexists. split; [vm_compute; reflexivity|]. split; vm_compute; reflexivity. Qed.

(** ** Genre create and update *)

Lemma genre_validation (b : gmap string JsValue) (a : Atom) :
  get "name" b = JAtom a ->
  run_all genre_chains b =
  (<["name" := JStr (sanitized a)]> b,
   if blank a
   then [mkValidationError (AStr (Validator.trim (toString a)))
           "Genre name required" "name"]
   else []).
Proof.
  intros Hget. unfold run_all, genre_chains, run, run_item. cbn.
  rewrite Hget. cbn. rewrite !get_insert_eq. cbn.
  rewrite insert_insert_eq. unfold validate. cbn. rewrite isLength_blank.
  by destruct (blank a).
Qed.

Lemma find_name_some (name : string) (l : list GenreDoc) :
  (exists g, In g l /\ g_name g = name) ->
  exists g, List.find (fun g => String.eqb (g_name g) name) l = Some g /\
            In g l /\ g_name g = name.
Proof.
  intros (g & Hin & Hname).
  destruct (List.find (fun g => String.eqb (g_name g) name) l) as [g'|] eqn:E.
  - exists g'. apply find_some in E as [Hin' Heq]. apply String.eqb_eq in Heq. auto.
  - apply (find_none _ _ E) in Hin. apply String.eqb_neq in Hin. contradiction.
Qed.

Lemma find_name_none (name : string) (l : list GenreDoc) :
  (forall g, In g l -> g_name g <> name) ->
  List.find (fun g => String.eqb (g_name g) name) l = None.
Proof.
  intros Hall.
  destruct (List.find (fun g => String.eqb (g_name g) name) l) as [g'|] eqn:E;
    [|reflexivity].
  apply find_some in E as [Hin' Heq]. apply String.eqb_eq in Heq.
  by destruct (Hall g' Hin').
Qed.

(** C8, as the code has it.  Genre create-POST with a name that is not
    blank compares the name as the chain leaves it, trimmed and escaped:
    when a Genre of the store has that name, the response is the redirect to
    the detail location of such a Genre and the store is unchanged; when
    none has it, a Genre with that name is added to the collection and the
    response is the redirect to the detail location of the new record. *)
Theorem genre_create_post_valid (new_id : ObjectId) (req : Request) (s : Store)
    (a : Atom) :
  get "name" (req_body req) = JAtom a -> blank a = false ->
  let name := sanitized a in
  let r := genre_create_post new_id req s in
  res_value r = inr tt /\
  ((exists g, In g (genres s) /\ g_name g = name) ->
     exists g, In g (genres s) /\ g_name g = name /\
               res_store r = s /\ res_calls r = [Redirect (genre_url g)]) /\
  ((forall g, In g (genres s) -> g_name g <> name) ->
     res_store r = mkStore (genres s ++ [mkGenre new_id name]) (authors s) (books s)
                     (bookinstances s) /\
     res_calls r = [Redirect ("/catalog/genre/" ++ new_id)]).
Proof.
  intros Hget Hvalid. cbn zeta. unfold genre_create_post.
  rewrite (genre_validation _ _ Hget), Hvalid. cbn [negb bool_decide decide_rel].
  rewrite bool_decide_eq_true_2 by done. cbn [negb].
  rewrite get_insert_eq. cbn [str_of JStr]. unfold_monad.
  assert (forall s0, save Genre GenreSchema (mkGenre new_id (sanitized a)) s0
                     = mkResult (set_docs Genre (docs Genre s0 ++ [mkGenre new_id (sanitized a)]) s0)
                         [] (inr (mkGenre new_id (sanitized a)))) as Hsave.
  { intros s0. apply save_valid, required_filled. intros E.
    apply sanitized_empty in E. cbn in E. congruence. }
  split; [|split].
  - destruct (List.find _ (genres s)); [done|]. cbn beta. by rewrite Hsave.
  - intros Hex. apply find_name_some in Hex as (g & -> & Hin & Hname). by exists g.
  - intros Hall. rewrite (find_name_none _ _ Hall). cbn beta. by rewrite Hsave.
Qed.

Lemma genre_create_post_valid_witness :
  let s := mkStore [mkGenre "g1" "Fantasy"] [] [] [] in
  res_calls (genre_create_post "g2" (mkRequest EmptyString {["name" := JStr " Poetry "]}) s)
    = [Redirect "/catalog/genre/g2"] /\
  res_store (genre_create_post "g2" (mkRequest EmptyString {["name" := JStr " Poetry "]}) s)
    = mkStore [mkGenre "g1" "Fantasy"; mkGenre "g2" "Poetry"] [] [] [].
Proof.
  cbn zeta.
  assert (get "name" (req_body (mkRequest EmptyString {["name" := JStr " Poetry "]}))
          = JAtom (AStr " Poetry ")) as Hget by (vm_compute; reflexivity).
  assert (blank (AStr " Poetry ") = false) as Hvalid by (vm_compute; reflexivity).
  destruct (genre_create_post_valid "g2" _
              (mkStore [mkGenre "g1" "Fantasy"] [] [] []) _ Hget Hvalid)
    as (_ & _ & Hnew).
  destruct Hnew as [Hstore Hcalls].
  - intros g [<-|[]]. vm_compute. discriminate.
  - split; [exact Hcalls|exact Hstore].
Defined.

(** C8 as stated fails: the handler compares the name as the chain leaves
    it, not as it was submitted.  The name Fantasy submitted with spaces
    around it is the name of no Genre, yet nothing is inserted and the
    response is the redirect to the Genre g1 named Fantasy.  The name R&B
    is the name of the Genre g1 of another store, yet a second Genre is
    inserted, with the escaped name, and the response is the redirect to
    it. *)
Lemma genre_create_post_submitted_name :
  let s1 := mkStore [mkGenre "g1" "Fantasy"] [] [] [] in
  let padded := mkRequest EmptyString {["name" := JStr " Fantasy "]} in
  let s2 := mkStore [mkGenre "g1" "R&B"] [] [] [] in
  let raw := mkRequest EmptyString {["name" := JStr "R&B"]} in
  (forall g, In g (genres s1) -> g_name g <> " Fantasy ") /\
  genre_create_post "g2" padded s1
  = mkResult s1 [Redirect "/catalog/genre/g1"] (inr tt) /\
  (exists g, In g (genres s2) /\ g_name g = "R&B") /\
  genre_create_post "g2" raw s2
  = mkResult (mkStore [mkGenre "g1" "R&B"; mkGenre "g2" "R&amp;B"] [] [] [])
      [Redirect "/catalog/genre/g2"] (inr tt).
Proof.
  cbn zeta. split; [|split; [|split]].
  - intros g [<-|[]]. discriminate.
  - vm_compute. reflexivity.
  - eexists. split; [by left|reflexivity].
  - vm_compute. reflexivity.
Qed.

(** C3, as the code has it.  Genre update-POST with a name that is not blank
    and that a Genre of the store has (trimmed and escaped): the store is
    unchanged and the only call is [next] with the error
    [Genre already exists]; no form is rendered. *)
Theorem genre_update_post_duplicate (req : Request) (s : Store) (a : Atom) :
  get "name" (req_body req) = JAtom a -> blank a = false ->
  (exists g, In g (genres s) /\ g_name g = sanitized a) ->
  genre_update_post req s = mkResult s [Next (Error "Genre already exists")] (inr tt).
Proof.
  intros Hget Hvalid Hex. unfold genre_update_post.
  rewrite (genre_validation _ _ Hget), Hvalid.
  rewrite bool_decide_eq_true_2 by done. cbn [negb].
  rewrite get_insert_eq. cbn [str_of JStr]. unfold_monad.
  apply find_name_some in Hex as (g & -> & _). reflexivity.
Qed.

Lemma genre_update_post_duplicate_witness :
  genre_update_post (mkRequest "g2" {["name" := JStr "Fantasy"]})
    (mkStore [mkGenre "g1" "Fantasy"; mkGenre "g2" "Sci-Fi"] [] [] [])
  = mkResult (mkStore [mkGenre "g1" "Fantasy"; mkGenre "g2" "Sci-Fi"] [] [] [])
      [Next (Error "Genre already exists")] (inr tt).
Proof.
  assert (get "name" (req_body (mkRequest "g2" {["name" := JStr "Fantasy"]}))
          = JAtom (AStr "Fantasy")) as Hget by (vm_compute; reflexivity).
  assert (blank (AStr "Fantasy") = false) as Hvalid by (vm_compute; reflexivity).
  apply (genre_update_post_duplicate _ _ _ Hget Hvalid).
  exists (mkGenre "g1" "Fantasy"). split; [cbn; auto|vm_compute; reflexivity].
Defined.

(** C3 as stated fails: updating the Genre g2 to the name of g1 renders no
    form; the failure goes to [next]. *)
Lemma genre_update_post_duplicate_not_rendered :
  let s := mkStore [mkGenre "g1" "Fantasy"; mkGenre "g2" "Sci-Fi"] [] [] [] in
  let r := genre_update_post
             (mkRequest "g2" {["name" := JStr "Fantasy"]}) s in
  res_store r = s /\
  existsb is_render (res_calls r) = false /\
  existsb is_next (res_calls r) = true /\
  rejected_form KGenre r = None.
Proof. vm_compute. repeat split. Qed.

(** Genre update-POST with a name that is not blank and that no Genre of the
    store has: the record of the route gets the name and the response is the
    redirect to its detail location; without such a record the store is
    unchanged and an error goes to [next]. *)
Lemma genre_update_post_renamed (req : Request) (s : Store) (a : Atom) :
  get "name" (req_body req) = JAtom a -> blank a = false ->
  (forall g, In g (genres s) -> g_name g <> sanitized a) ->
  genre_update_post req s =
  match lookup_id g_id (Some (params_id req)) (genres s) with
  | Some old =>
      mkResult
        (mkStore (update_id g_id (params_id req)
                    (fun _ => mkGenre (params_id req) (sanitized a)) (genres s))
           (authors s) (books s) (bookinstances s))
        [Redirect (genre_url old)] (inr tt)
  | None =>
      mkResult
        (mkStore (update_id g_id (params_id req)
                    (fun _ => mkGenre (params_id req) (sanitized a)) (genres s))
           (authors s) (books s) (bookinstances s))
        [Next (TypeError "Cannot read properties of null (reading 'url')")] (inr tt)
  end.
Proof.
  intros Hget Hvalid Hall. unfold genre_update_post.
  rewrite (genre_validation _ _ Hget), Hvalid.
  rewrite bool_decide_eq_true_2 by done. cbn [negb].
  unfold genre_paths. rewrite get_insert_eq. cbn [str_of JStr]. unfold_monad.
  rewrite (find_name_none _ _ Hall).
  rewrite (update_id_ext g_id (params_id req) _
             (fun _ => mkGenre (params_id req) (sanitized a)))
    by (intros d <-; reflexivity).
  by destruct (lookup_id g_id (Some (params_id req)) (genres s)).
Qed.

(** C2, at the request that breaks it.  The store holds the single Genre g1
    named Fantasy; the update-POST for g1 that keeps the name finds g1
    itself as the holder of the name: the record is not written and the
    error [Genre already exists] goes to [next] instead of the redirect. *)
Theorem genre_update_post_own_name :
  let s := mkStore [mkGenre "g1" "Fantasy"] [] [] [] in
  let r := genre_update_post
             (mkRequest "g1" {["name" := JStr "Fantasy"]}) s in
  (forall g, In g (genres s) -> g_id g <> "g1" -> g_name g <> "Fantasy") /\
  r = mkResult s [Next (Error "Genre already exists")] (inr tt).
Proof.
  cbn zeta. split; [|vm_compute; reflexivity].
  intros g [<-|[]] Hne. by destruct Hne.
Qed.

(** The branch of the validation errors of Genre update-POST does not show
    the draft.  The store holds the Genres g1 named Fantasy and g2 named
    Poetry.  The update-POST for g1 with a blank name is rejected by the
    validation, and the form rendered with the error shows the stored
    record, name Fantasy, in place of the submitted value (the inner
    [const [genre]] shadows the document built from the request, against
    the comment of the branch); the update-POST for g2 with the name Fantasy
    is rejected by the guard on the name, and no form is rendered at all. *)
Lemma genre_update_post_shows_stored :
  let s := mkStore [mkGenre "g1" "Fantasy"; mkGenre "g2" "Poetry"] [] [] [] in
  let blank_name := mkRequest "g1" {["name" := JStr "   "]} in
  let taken_name := mkRequest "g2" {["name" := JStr "Fantasy"]} in
  res_calls (genre_update_post blank_name s) =
    [Render "genre_form"
       [("title", LStr "Update Genre");
        ("genre", LGenre (Some (mkGenre "g1" "Fantasy")));
        ("errors", LErrors [mkValidationError (AStr EmptyString)
                              "Genre name required" "name"])]] /\
  (exists d es,
     rejected_form KGenre (genre_update_post blank_name s)
       = Some (d, es) /\
     draft_field d "name" = Some "Fantasy") /\
  sanitized (AStr "   ") = EmptyString /\
  res_calls (genre_update_post taken_name s) =
    [Next (Error "Genre already exists")] /\
  rejected_form KGenre (genre_update_post taken_name s) = None.
Proof.
  cbn zeta. split; [vm_compute; reflexivity|].
  split; [eexists _, _; split; vm_compute; reflexivity|].
  repeat split; vm_compute; reflexivity.
Qed.

(** * Further properties of the controllers *)

(** ** What a handler leaves alone *)

(** A computation that only reads the store. *)
Lemma bind_store {A B} (m : M A) (f : A -> M B) (s : Store) :
  res_store (m s) = s -> (forall a, res_store (f a s) = s) ->
  res_store (bind m f s) = s.
Proof.
  intros Hm Hf. unfold bind. destruct (m s) as [s1 c1 [e|a]]; cbn in *; [done|].
  subst s1. specialize (Hf a). by destruct (f a s) as [s2 c2 v].
Qed.

Lemma try_catch_next_store (m : M unit) (s : Store) :
  res_store (m s) = s -> res_store (try_catch m (fun err => next err) s) = s.
Proof.
  intros Hm. unfold try_catch. by destruct (m s) as [s1 c1 [e|a]].
Qed.

Lemma try_catch_next_value (m : M unit) (s : Store) :
  res_value (try_catch m (fun err => next err) s) = inr tt.
Proof.
  unfold try_catch. by destruct (m s) as [s1 c1 [e|[]]].
Qed.

Lemma populate_all_store {A B} (f : A -> M B) (l : list A) (s : Store) :
  (forall d, res_store (f d s) = s) -> res_store (populate_all f l s) = s.
Proof.
  intros Hf. induction l as [|d t IH]; cbn; [reflexivity|].
  apply bind_store; [apply Hf|]. intros d'.
  apply bind_store; [apply IH|]. by intros t'.
Qed.

Ltac read_only :=
  repeat first
    [ apply try_catch_next_store
    | apply bind_store
    | apply populate_all_store
    | progress intros
    | reflexivity
    | match goal with
      | |- context [match ?x with _ => _ end] => destruct x
      end ].

(** X1.  No GET handler writes to the store, and none leaves its promise
    rejected: for every kind, the list view, the detail view and the create,
    update and delete forms return the store they were given, whatever the
    request. *)
Theorem get_handlers_read_only (k : EntityKind) (req : Request) (s : Store) :
  Forall (fun h : Request -> M unit =>
            res_store (h req s) = s /\ res_value (h req s) = inr tt)
    [list_get k; detail_get k; create_get k; update_get k; delete_get k].
Proof.
  repeat first [apply List.Forall_cons | apply List.Forall_nil]; split;
    destruct k; cbn [list_get detail_get create_get update_get delete_get];
    try apply try_catch_next_value; try reflexivity.
  all: unfold genre_list, author_list, book_list, bookinstance_list,
         genre_detail, author_detail, book_detail, bookinstance_detail,
         genre_create_get, author_create_get, book_create_get,
         bookinstance_create_get, genre_update_get, author_update_get,
         book_update_get, bookinstance_update_get, genre_delete_get,
         author_delete_get, book_delete_get, bookinstance_delete_get,
         mbind, M_bind, mret, M_ret, deref, populate_opt.
  all: read_only.
Qed.

Ltac destruct_matches :=
  repeat match goal with
         | |- context [match ?x with _ => _ end] => destruct x
         end.

Ltac destruct_lookup :=
  repeat match goal with
         | |- context [match List.find ?f ?l with _ => _ end] =>
             destruct (List.find f l)
         | |- context [match lookup_id ?k ?i ?l with _ => _ end] =>
             destruct (lookup_id k i l)
         end.

(** X2.  A create-POST only ever appends: in the store it returns, every
    collection starts with the records it had, in the same order, and the
    ids of a collection are the old ones, followed for the collection of the
    kind alone by at most the id of the new document. *)
Theorem create_post_appends `{DateLib} `{StatusEnum} (k : EntityKind) (new_id : ObjectId)
    (req : Request) (s : Store) :
  let s' := res_store (create_post k new_id req s) in
  genres s `prefix_of` genres s' /\
  authors s `prefix_of` authors s' /\
  books s `prefix_of` books s' /\
  bookinstances s `prefix_of` bookinstances s' /\
  forall k', collection_ids k' s' = collection_ids k' s \/
             (k' = k /\ collection_ids k' s' = collection_ids k' s ++ [new_id]).
Proof.
  cbn zeta. destruct k; cbn [create_post];
    unfold genre_create_post, author_create_post, book_create_post,
      bookinstance_create_post.
  - destruct (run_all genre_chains (req_body req)) as [body errors].
    destruct (bool_decide (errors = [])); cbn [negb]; unfold_monad.
    + destruct (List.find _ (genres s)); cbn.
      * repeat split; try reflexivity. intros k'. by left.
      * save_cases; cbn.
        -- repeat split; try reflexivity; [by apply prefix_app_r|].
           intros [] ; cbn; rewrite ?map_app; auto.
        -- repeat split; try reflexivity. intros k'. by left.
    + repeat split; try reflexivity. intros k'. by left.
  - destruct (run_all author_chains (req_body req)) as [body errors].
    destruct (bool_decide (errors = [])); cbn [negb]; unfold_monad; cbn.
    + save_cases; cbn.
      * repeat split; try reflexivity; [by apply prefix_app_r|].
        intros [] ; cbn; rewrite ?map_app; auto.
      * repeat split; try reflexivity. intros k'. by left.
    + repeat split; try reflexivity. intros k'. by left.
  - destruct (run_all book_chains (genre_to_array (req_body req))) as [body errors].
    destruct (bool_decide (errors = [])); cbn [negb].
    + unfold_monad; cbn. save_cases; cbn.
      * repeat split; try reflexivity; [by apply prefix_app_r|].
        intros [] ; cbn; rewrite ?map_app; auto.
      * repeat split; try reflexivity. intros k'. by left.
    + rewrite book_form_errors_run. cbn.
      repeat split; try reflexivity. intros k'. by left.
  - destruct (run_all bookinstance_chains (req_body req)) as [body errors].
    destruct (bool_decide (errors = [])); cbn [negb].
    + unfold_monad; cbn. save_cases; cbn.
      * repeat split; try reflexivity; [by apply prefix_app_r|].
        intros [] ; cbn; rewrite ?map_app; auto.
      * repeat split; try reflexivity. intros k'. by left.
    + rewrite bookinstance_form_errors_run.
      destruct (ref_of _); cbn; repeat split; try reflexivity; intros k'; by left.
Qed.

Lemma update_id_ids {A} (key : A -> ObjectId) (id : ObjectId) (f : A -> A)
    (l : list A) :
  (forall d, key (f d) = key d) -> map key (update_id key id f l) = map key l.
Proof.
  intros Hf. induction l as [|x t IH]; cbn; [reflexivity|].
  destruct (has_id key id x) eqn:E; cbn; [|by rewrite IH].
  by rewrite Hf.
Qed.

(** X3.  An update-POST never changes which records exist: whatever the
    request, accepted or rejected, the ids of every collection are the same
    after it, in the same order. *)
Theorem update_post_keeps_ids `{DateLib} `{StatusEnum} (k k' : EntityKind) (req : Request)
    (s : Store) :
  collection_ids k' (res_store (update_post k req s)) = collection_ids k' s.
Proof.
  destruct k; cbn [update_post];
    unfold genre_update_post, author_update_post, book_update_post,
      bookinstance_update_post.
  - destruct (run_all genre_chains (req_body req)) as [body errors].
    destruct (bool_decide (errors = [])); cbn [negb]; unfold_monad.
    + destruct (List.find _ (genres s)); cbn; [reflexivity|].
      destruct_lookup; cbn;
        destruct k'; cbn; try reflexivity; by apply update_id_ids.
    + by destruct_lookup.
  - destruct (run_all author_chains (req_body req)) as [body errors].
    destruct (bool_decide (errors = [])); cbn [negb]; unfold_monad; [|reflexivity].
    destruct_lookup; cbn;
      destruct k'; cbn; try reflexivity; by apply update_id_ids.
  - destruct (run_all book_chains (genre_to_array (req_body req))) as [body errors].
    destruct (bool_decide (errors = [])); cbn [negb].
    + unfold_monad.
      destruct_lookup; cbn;
        destruct k'; cbn; try reflexivity; by apply update_id_ids.
    + by rewrite book_form_errors_run.
  - destruct (run_all bookinstance_chains (req_body req)) as [body errors].
    destruct (bool_decide (errors = [])); cbn [negb].
    + unfold_monad.
      destruct_lookup; cbn;
        destruct k'; cbn; try reflexivity; by apply update_id_ids.
    + rewrite bookinstance_form_errors_run. by destruct (ref_of _).
Qed.

(** X4.  A delete-POST removes at most the one record its body names, from
    the collection of its kind, and touches no other collection: dependents
    are never removed with the record.  Its response is either the redirect
    to the list of the kind or one rendered view, and a delete that renders
    a view, the blocked one, leaves the store as it was. *)
Theorem delete_post_footprint (k : EntityKind) (req : Request) (s : Store) :
  let s' := res_store (delete_post k req s) in
  let named := id_of (get (id_field k) (req_body req)) in
  (res_calls (delete_post k req s) = [Redirect (list_url k)] \/
   (s' = s /\ exists view locals,
                res_calls (delete_post k req s) = [Render view locals])) /\
  (genres s' = genres s \/
   k = KGenre /\ exists id, named = Some id /\ genres s' = remove_id g_id id (genres s)) /\
  (authors s' = authors s \/
   k = KAuthor /\ exists id, named = Some id /\ authors s' = remove_id a_id id (authors s)) /\
  (books s' = books s \/
   k = KBook /\ exists id, named = Some id /\ books s' = remove_id b_id id (books s)) /\
  (bookinstances s' = bookinstances s \/
   k = KBookInstance /\
   exists id, named = Some id /\
              bookinstances s' = remove_id bi_id id (bookinstances s)).
Proof.
  cbn zeta. destruct k; cbn [delete_post id_field list_url].
  - unfold genre_delete_post. unfold_monad.
    destruct (id_of (get "genreid" (req_body req))) as [id|];
      destruct (List.filter _ (books s)); cbn;
      (split; [first [by left|right; split; [reflexivity|by eexists _, _]]|]);
      repeat split; auto.
    right. split; [reflexivity|]. by exists id.
  - unfold author_delete_post. unfold_monad.
    destruct (id_of (get "authorid" (req_body req))) as [id|];
      destruct (List.filter _ (books s)); cbn;
      (split; [first [by left|right; split; [reflexivity|by eexists _, _]]|]);
      repeat split; auto.
    right. split; [reflexivity|]. by exists id.
  - rewrite book_delete_post_run.
    destruct (copies_of_book (params_id req) s); cbn;
      [|split; [right; split; [reflexivity|by eexists _, _]|repeat split; auto]].
    destruct (id_of (get "bookid" (req_body req))) as [id|]; cbn;
      (split; [by left|]); repeat split; auto.
    right. split; [reflexivity|]. by exists id.
  - unfold bookinstance_delete_post. unfold_monad.
    destruct (id_of (get "bookinstanceid" (req_body req))) as [id|]; cbn;
      (split; [by left|]); repeat split; auto.
    right. split; [reflexivity|]. by exists id.
Qed.

(** X5.  A delete-POST whose body does not hold the id field answers with
    the redirect to the list view of its kind and leaves the store as it
    was; for a Book this is so when the book of the route has no copy (the
    guard reads the route). *)
Theorem delete_post_without_id (k : EntityKind) (req : Request) (s : Store) :
  req_body req !! id_field k = None ->
  (k = KBook -> copies_of_book (params_id req) s = []) ->
  delete_post k req s = mkResult s [Redirect (list_url k)] (inr tt).
Proof.
  intros Hmissing Hbook.
  assert (id_of (get (id_field k) (req_body req)) = None) as Hnone.
  { unfold get. by rewrite Hmissing. }
  clear Hmissing. destruct k; cbn [delete_post id_field list_url] in *.
  - unfold genre_delete_post. rewrite Hnone. unfold_monad.
    assert (List.filter (fun b : BookDoc => existsb (refers None) (b_genre b)) (books s)
            = []) as ->; [|reflexivity].
    induction (books s) as [|b t IH]; cbn; [reflexivity|].
    assert (existsb (refers None) (b_genre b) = false) as ->; [|exact IH].
    by induction (b_genre b).
  - unfold author_delete_post. rewrite Hnone. unfold_monad.
    assert (List.filter (fun b : BookDoc => refers None (b_author b)) (books s) = [])
      as ->; [|reflexivity].
    by induction (books s).
  - by rewrite book_delete_post_run, (Hbook eq_refl), Hnone.
  - unfold bookinstance_delete_post. rewrite Hnone. by unfold_monad.
Qed.

Lemma delete_post_without_id_witness :
  delete_post KAuthor (mkRequest "a1" ∅)
    (mkStore [] [mkAuthor "a1" "Jane" "Austen" None None]
       [mkBook "b1" "Emma" "a1" "s1" "i1" []] [])
  = mkResult
      (mkStore [] [mkAuthor "a1" "Jane" "Austen" None None]
         [mkBook "b1" "Emma" "a1" "s1" "i1" []] [])
      [Redirect "/catalog/authors"] (inr tt).
Proof.
  apply (delete_post_without_id KAuthor); [reflexivity|discriminate].
Defined.

(** ** The chains, exactly *)

Lemma run_required_errors (f msg : string) st (a : Atom) :
  get f st.1 = JAtom a ->
  (run (body f (Some msg) |> trim |> isLength 1 |> escape) st).2 =
    st.2 ++ required_error msg f a.
Proof.
  intros Hget. destruct st as [b es]. cbn [fst snd] in *.
  unfold run, run_item. cbn.
  rewrite Hget. cbn. rewrite !get_insert_eq. cbn.
  f_equal. unfold validate, required_error. cbn. rewrite isLength_blank.
  unfold blank. case_bool_decide as Hb; cbn; [by rewrite Hb|reflexivity].
Qed.

Lemma run_author_name_errors (f m1 m2 : string) st (a : Atom) :
  get f st.1 = JAtom a ->
  (run (body f None |> trim |> isLength 1 |> escape |> withMessage m1
          |> isAlphanumeric |> withMessage m2) st).2 =
    st.2 ++ required_error m1 f a ++ alnum_error m2 f a.
Proof.
  intros Hget. destruct st as [b es]. cbn [fst snd] in *.
  unfold run, run_item. cbn.
  rewrite Hget. cbn. rewrite !get_insert_eq. cbn.
  rewrite <- app_assoc. f_equal. f_equal.
  - unfold validate, required_error. cbn. rewrite isLength_blank.
    unfold blank. case_bool_decide as Hb; cbn; [by rewrite Hb|reflexivity].
  - unfold validate, alnum_error. cbn. fold (sanitized a).
    by destruct (Validator.isAlphanumeric (sanitized a)).
Qed.

Arguments falsy : simpl never.

(** An optional date chain on a single value. *)
Lemma run_optional_date `{DateLib} (f msg : string) st (a : Atom) :
  get f st.1 = JAtom a ->
  (run (body f (Some msg) |> optional |> isISO8601 |> toDate) st).2 =
    st.2 ++ date_error msg f a /\
  get f (run (body f (Some msg) |> optional |> isISO8601 |> toDate) st).1 =
    JAtom (date_value a).
Proof.
  intros Hget. destruct st as [b es]. cbn [fst snd] in *.
  unfold run, run_item, date_error, date_ok, date_value. cbn.
  rewrite Hget. destruct (falsy a) eqn:Hf; cbn.
  - rewrite Hget, Hf. cbn. by rewrite Hget, app_nil_r.
  - rewrite Hget, Hf. cbn. rewrite get_insert_eq. split; [|reflexivity].
    f_equal. unfold validate. cbn. by destruct (isISO8601_str (toString a)).
Qed.

Lemma run_optional_date_errors `{DateLib} (f msg : string) st (a : Atom) :
  get f st.1 = JAtom a ->
  (run (body f (Some msg) |> optional |> isISO8601 |> toDate) st).2 =
    st.2 ++ date_error msg f a.
Proof. intros Hget. by destruct (run_optional_date f msg st a Hget). Qed.

Lemma run_optional_date_get `{DateLib} (f msg : string) st (a : Atom) :
  get f st.1 = JAtom a ->
  get f (run (body f (Some msg) |> optional |> isISO8601 |> toDate) st).1 =
    JAtom (date_value a).
Proof. intros Hget. by destruct (run_optional_date f msg st a Hget). Qed.

(** A chain of sanitizers reports nothing. *)
Lemma run_escape_errors (f : string) (m : option string) st :
  (run (body f m |> escape) st).2 = st.2.
Proof. destruct st as [b es]. unfold run, run_item. by cbn. Qed.

Lemma run_each_escape_errors (f : string) st :
  (run (body_each f |> escape) st).2 = st.2.
Proof.
  destruct st as [b es]. unfold run, run_item, instance. cbn.
  by destruct (get f b).
Qed.

Lemma date_error_count `{DateLib} (msg f : string) (a : Atom) :
  count_param f (date_error msg f a) = if date_ok a then 0 else 1.
Proof.
  unfold date_error. destruct (date_ok a); [reflexivity|].
  unfold count_param. cbn [List.filter ve_param]. by rewrite String.eqb_refl.
Qed.

Lemma atom_get (f : string) (b : gmap string JsValue) (a : Atom) :
  get f b = JAtom a -> atom f b = a.
Proof. intros Hget. unfold atom. by rewrite Hget. Qed.

Ltac chain_gets :=
  rewrite ?run_skip_get by (cbn; discriminate); cbn [fst];
  rewrite ?genre_to_array_get by discriminate.

(** The errors of the chains of a kind on a body whose validated fields are
    single values or missing. *)
Lemma validation_errors `{DateLib} (k : EntityKind) (b : gmap string JsValue) :
  single_valued k b -> dates_single_valued k b ->
  (validation k b).2 = expected_errors k b.
Proof.
  intros Hs Hd. unfold single_valued, dates_single_valued in *.
  destruct k; cbn [required_fields date_fields] in *;
    unfold validation, expected_errors, run_all, genre_chains, author_chains,
      book_chains, bookinstance_chains; cbn [fold_left].
  - destruct (Hs "name") as [a Ha]; [cbn; auto|].
    rewrite (atom_get _ _ _ Ha).
    by rewrite (run_required_errors _ _ _ a) by (chain_gets; exact Ha).
  - destruct (Hs "first_name") as [a1 H1]; [cbn; auto|].
    destruct (Hs "family_name") as [a2 H2]; [cbn; auto|].
    destruct (Hd "date_of_birth") as [a3 H3]; [cbn; auto|].
    destruct (Hd "date_of_death") as [a4 H4]; [cbn; auto|].
    rewrite (atom_get _ _ _ H1), (atom_get _ _ _ H2), (atom_get _ _ _ H3),
      (atom_get _ _ _ H4).
    rewrite (run_optional_date_errors _ _ _ a4) by (chain_gets; exact H4).
    rewrite (run_optional_date_errors _ _ _ a3) by (chain_gets; exact H3).
    rewrite (run_author_name_errors _ _ _ _ a2) by (chain_gets; exact H2).
    rewrite (run_author_name_errors _ _ _ _ a1) by (chain_gets; exact H1).
    cbn [snd app]. by rewrite <- !app_assoc.
  - destruct (Hs "title") as [a1 H1]; [cbn; auto|].
    destruct (Hs "author") as [a2 H2]; [cbn; auto|].
    destruct (Hs "summary") as [a3 H3]; [cbn; auto|].
    destruct (Hs "isbn") as [a4 H4]; [cbn; auto 6|].
    rewrite (atom_get _ _ _ H1), (atom_get _ _ _ H2), (atom_get _ _ _ H3),
      (atom_get _ _ _ H4).
    rewrite run_each_escape_errors.
    rewrite (run_required_errors _ _ _ a4) by (chain_gets; exact H4).
    rewrite (run_required_errors _ _ _ a3) by (chain_gets; exact H3).
    rewrite (run_required_errors _ _ _ a2) by (chain_gets; exact H2).
    rewrite (run_required_errors _ _ _ a1) by (chain_gets; exact H1).
    cbn [snd app]. by rewrite <- !app_assoc.
  - destruct (Hs "book") as [a1 H1]; [cbn; auto|].
    destruct (Hs "imprint") as [a2 H2]; [cbn; auto|].
    destruct (Hd "due_back") as [a3 H3]; [cbn; auto|].
    rewrite (atom_get _ _ _ H1), (atom_get _ _ _ H2), (atom_get _ _ _ H3).
    rewrite (run_optional_date_errors _ _ _ a3) by (chain_gets; exact H3).
    rewrite run_escape_errors.
    rewrite (run_required_errors _ _ _ a2) by (chain_gets; exact H2).
    rewrite (run_required_errors _ _ _ a1) by (chain_gets; exact H1).
    cbn [snd app]. by rewrite <- !app_assoc.
Qed.

Lemma required_error_nil (msg f : string) (a : Atom) :
  required_error msg f a = [] <-> blank a = false.
Proof. unfold required_error. by destruct (blank a). Qed.

Lemma alnum_error_nil (msg f : string) (a : Atom) :
  alnum_error msg f a = [] <-> Validator.isAlphanumeric (sanitized a) = true.
Proof. unfold alnum_error. by destruct (Validator.isAlphanumeric (sanitized a)). Qed.

Lemma date_error_nil `{DateLib} (msg f : string) (a : Atom) :
  date_error msg f a = [] <-> date_ok a = true.
Proof. unfold date_error. by destruct (date_ok a). Qed.

(** X6.  When a POST is accepted.  On a body whose validated fields are
    single values or missing, the chains of a kind report no error exactly
    when every required field is not blank, every Author name is moreover
    alphanumeric once trimmed and escaped, and every optional date is falsy
    (empty or missing) or has the ISO 8601 form. *)
Theorem validation_accepts `{DateLib} (k : EntityKind) (b : gmap string JsValue) :
  single_valued k b -> dates_single_valued k b ->
  ((validation k b).2 = [] <->
   (forall f, In f (required_fields k) ->
      blank (atom f b) = false /\
      (k = KAuthor -> Validator.isAlphanumeric (sanitized (atom f b)) = true)) /\
   (forall f, In f (date_fields k) -> date_ok (atom f b) = true)).
Proof.
  intros Hs Hd. rewrite (validation_errors k b Hs Hd).
  destruct k; unfold expected_errors; cbn [required_fields date_fields];
    rewrite ?app_nil, ?required_error_nil, ?alnum_error_nil, ?date_error_nil.
  - split.
    + intros Hb. split; [|by intros f []].
      intros f [<-|[]]. by split.
    + intros [Hr _]. by destruct (Hr "name" ltac:(cbn; auto)).
  - split.
    + intros (H1 & H2 & H3 & H4 & H5 & H6). split.
      * intros f [<-|[<-|[]]]; by split.
      * by intros f [<-|[<-|[]]].
    + intros [Hr Hdt].
      destruct (Hr "first_name") as [? ?]; [cbn; auto|].
      destruct (Hr "family_name") as [? ?]; [cbn; auto|].
      repeat split; auto; apply Hdt; cbn; auto.
  - split.
    + intros (H1 & H2 & H3 & H4). split; [|by intros f []].
      intros f [<-|[<-|[<-|[<-|[]]]]]; by split.
    + intros [Hr _]. repeat split; apply Hr; cbn; auto 6.
  - split.
    + intros (H1 & H2 & H3). split.
      * intros f [<-|[<-|[]]]; by split.
      * by intros f [<-|[]].
    + intros [Hr Hdt]. repeat split; try (apply Hr; cbn; auto).
      apply Hdt. cbn. auto.
Qed.

Lemma validation_accepts_witness :
  (validation (H := no_dates) KBookInstance
     {[ "book" := JStr "b1"; "imprint" := JStr " Penguin, 2003 " ]}).2 = [].
Proof.
  pose proof (validation_accepts (H := no_dates) KBookInstance
    {[ "book" := JStr "b1"; "imprint" := JStr " Penguin, 2003 " ]}) as Hthm.
  destruct Hthm as [_ Hacc].
  - intros f Hin. cbn in Hin.
    repeat (destruct Hin as [<-|Hin]); try destruct Hin; eexists; vm_compute; reflexivity.
  - intros f Hin. cbn in Hin.
    repeat (destruct Hin as [<-|Hin]); try destruct Hin; eexists; vm_compute; reflexivity.
  - apply Hacc. split.
    + intros f Hin. cbn in Hin.
      repeat (destruct Hin as [<-|Hin]); try destruct Hin;
        (split; [vm_compute; reflexivity|discriminate]).
    + intros f Hin. cbn in Hin.
      repeat (destruct Hin as [<-|Hin]); try destruct Hin; vm_compute; reflexivity.
Defined.

(** X7.  An optional date field (the two dates of an Author, the due date of
    a BookInstance).  A falsy value, empty or missing, is left as it is and
    reports nothing.  Any other value is replaced by what [toDate] makes of
    it, a Date or [null], whether or not it passed the ISO 8601 test, and
    reports one error exactly when it fails that test; the text submitted is
    then no longer in the body. *)
Theorem optional_date_field `{DateLib} (k : EntityKind) (f : string)
    (b : gmap string JsValue) (a : Atom) :
  In f (date_fields k) -> get f b = JAtom a ->
  get f (validation k b).1 =
    JAtom (if falsy a then a else Validator.toDate (toString a)) /\
  count_param f (validation k b).2 =
    if falsy a || isISO8601_str (toString a) then 0 else 1.
Proof.
  intros Hin Hget. fold (date_value a). fold (date_ok a).
  destruct k; cbn in Hin; repeat (destruct Hin as [<-|Hin]); try destruct Hin;
    unfold validation, run_all, author_chains, bookinstance_chains;
    cbn [fold_left];
    (split;
     [ rewrite ?run_skip_get by (cbn; discriminate);
       rewrite (run_optional_date_get _ _ _ a); [reflexivity|];
       chain_gets; exact Hget
     | rewrite ?run_skip_count by (cbn; discriminate);
       rewrite (run_optional_date_errors _ _ _ a) by (chain_gets; exact Hget);
       rewrite count_param_app, date_error_count;
       rewrite ?run_skip_count by (cbn; discriminate);
       cbn [snd]; by rewrite count_param_nil ]).
Qed.

Lemma optional_date_field_witness :
  get "due_back"
    (validation (H := no_dates) KBookInstance
       {[ "book" := JStr "b1"; "imprint" := JStr "Penguin";
          "due_back" := JStr "not-a-date" ]}).1 = JAtom ANull /\
  count_param "due_back"
    (validation (H := no_dates) KBookInstance
       {[ "book" := JStr "b1"; "imprint" := JStr "Penguin";
          "due_back" := JStr "not-a-date" ]}).2 = 1.
Proof.
  assert (get "due_back"
            ({[ "book" := JStr "b1"; "imprint" := JStr "Penguin";
                "due_back" := JStr "not-a-date" ]} : gmap string JsValue)
          = JAtom (AStr "not-a-date")) as Hget by (vm_compute; reflexivity).
  exact (optional_date_field (H := no_dates) KBookInstance "due_back" _ _
           ltac:(cbn; auto) Hget).
Defined.

(** ** The accepted requests *)

Lemma replace_all_alnum (c c0 : ascii) (by_ s : string) :
  Validator.is_alnum c0 = false ->
  Validator.all_alnum (Validator.replace_all c (String c0 by_) s) = true ->
  Validator.replace_all c (String c0 by_) s = s.
Proof.
  intros Hc0. induction s as [|d s IH];
    cbn [Validator.replace_all]; [reflexivity|].
  destruct (Ascii.eqb c d).
  - match goal with
    | |- context [String c0 by_ +:+ ?x] =>
        change (String c0 by_ +:+ x) with (String c0 (by_ +:+ x))
    end.
    cbn [Validator.all_alnum]. rewrite Hc0. discriminate.
  - cbn [Validator.all_alnum]. intros Hall.
    apply andb_true_iff in Hall as [_ Hs]. by rewrite (IH Hs).
Qed.

(** The escape leaves an alphanumeric result as it found it. *)
Lemma alnum_escape_id (s : string) :
  Validator.all_alnum (Validator.escape s) = true -> Validator.escape s = s.
Proof.
  unfold Validator.escape. intros Hall.
  repeat match type of Hall with
         | Validator.all_alnum (Validator.replace_all ?c (String ?c0 ?by_) ?x) = true =>
             let E := fresh "E" in
             pose proof (replace_all_alnum c c0 by_ x eq_refl Hall) as E;
             rewrite E in Hall; rewrite E; clear E
         end.
  reflexivity.
Qed.

Lemma isAlphanumeric_all_alnum (s : string) :
  Validator.isAlphanumeric s = true -> Validator.all_alnum s = true.
Proof. unfold Validator.isAlphanumeric. by destruct s. Qed.

Lemma accepted_name (a : Atom) :
  Validator.isAlphanumeric (sanitized a) = true ->
  sanitized a = Validator.trim (toString a).
Proof.
  intros Hal. unfold sanitized in *.
  by apply alnum_escape_id, isAlphanumeric_all_alnum.
Qed.

Lemma date_of_date_value `{DateLib} (a : Atom) :
  date_of (JAtom (date_value a)) = stored_date a.
Proof.
  unfold date_value, stored_date, Validator.toDate.
  destruct (falsy a) eqn:Hf.
  - destruct a as [| |v|d]; try reflexivity. discriminate.
  - by destruct (dateParse (toString a)).
Qed.

(** The value of a date field after the chains of its kind. *)
Lemma validation_date `{DateLib} (k : EntityKind) (f : string)
    (b : gmap string JsValue) (a : Atom) :
  In f (date_fields k) -> get f b = JAtom a ->
  get f (validation k b).1 = JAtom (date_value a).
Proof.
  intros Hin Hget.
  destruct k; cbn in Hin; repeat (destruct Hin as [<-|Hin]); try destruct Hin;
    unfold validation, run_all, author_chains, bookinstance_chains;
    cbn [fold_left];
    rewrite ?run_skip_get by (cbn; discriminate);
    (rewrite (run_optional_date_get _ _ _ a); [reflexivity|]);
    chain_gets; exact Hget.
Qed.

Lemma genre_to_array_genre (b : gmap string JsValue) :
  get "genre" (genre_to_array b) = JArr (submitted_genres b).
Proof.
  unfold genre_to_array, submitted_genres.
  destruct (get "genre" b) as [[]|] eqn:E; rewrite ?get_insert_eq; try reflexivity.
  exact E.
Qed.

(** The genres of a Book after its chains: every value escaped. *)
Lemma validation_genre (b : gmap string JsValue) :
  ids_of (get "genre" (run_all book_chains (genre_to_array b)).1) =
  map (fun a => Validator.escape (toString a)) (submitted_genres b).
Proof.
  unfold run_all, book_chains. cbn [fold_left].
  match goal with |- context [run _ ?x] => set (st := x) end.
  assert (get "genre" st.1 = JArr (submitted_genres b)) as Hst.
  { unfold st. rewrite !run_skip_get by (cbn; discriminate). cbn [fst].
    apply genre_to_array_genre. }
  destruct st as [b' es]. cbn [fst] in Hst.
  unfold run, run_item, instance. cbn. rewrite Hst. cbn.
  rewrite get_insert_eq. cbn. by rewrite map_map.
Qed.

(** The status of a BookInstance after its chains: escaped, not trimmed. *)
Lemma validation_status `{DateLib} (b : gmap string JsValue) (a : Atom) :
  get "status" b = JAtom a ->
  get "status" (run_all bookinstance_chains b).1 =
    JStr (Validator.escape (toString a)).
Proof.
  intros Hget. unfold run_all, bookinstance_chains. cbn [fold_left].
  rewrite run_skip_get by (cbn; discriminate).
  match goal with |- context [run _ ?x] => set (st := x) end.
  assert (get "status" st.1 = JAtom a) as Hst.
  { unfold st. rewrite !run_skip_get by (cbn; discriminate). exact Hget. }
  destruct st as [b' es]. cbn [fst] in Hst.
  unfold run, run_item, instance. cbn. rewrite Hst. cbn.
  by rewrite get_insert_eq.
Qed.

(** The documents the handlers build from an accepted body. *)
Lemma accepted_drafts `{DateLib} `{StatusEnum} (k : EntityKind) (id : ObjectId)
    (b : gmap string JsValue) :
  single_valued k b -> dates_single_valued k b -> status_single_valued k b ->
  (validation k b).2 = [] ->
  match k with
  | KGenre => str_of (get "name" (validation k b).1) = sanitized (atom "name" b)
  | KAuthor => new_Author id (validation k b).1 = accepted_author id b
  | KBook => new_Book id (validation k b).1 = accepted_book id b
  | KBookInstance => new_BookInstance id (validation k b).1 = accepted_bookinstance id b
  end.
Proof.
  intros Hs Hd Hst Hacc.
  assert (Hval := fun f a Hin Hget => validation_required k b f a Hin Hget).
  assert (Hdate := fun f a Hin Hget => validation_date k f b a Hin Hget).
  rewrite (validation_errors k b Hs Hd) in Hacc.
  unfold single_valued, dates_single_valued, status_single_valued in *.
  destruct k; cbn [required_fields date_fields] in *; unfold expected_errors in Hacc.
  - destruct (Hs "name") as [a Ha]; [cbn; auto|].
    destruct (Hval "name" a) as [_ ->]; [cbn; auto|exact Ha|].
    by rewrite (atom_get _ _ _ Ha).
  - destruct (Hs "first_name") as [a1 H1]; [cbn; auto|].
    destruct (Hs "family_name") as [a2 H2]; [cbn; auto|].
    destruct (Hd "date_of_birth") as [a3 H3]; [cbn; auto|].
    destruct (Hd "date_of_death") as [a4 H4]; [cbn; auto|].
    rewrite (atom_get _ _ _ H1), (atom_get _ _ _ H2) in Hacc.
    rewrite !app_nil, !alnum_error_nil in Hacc.
    destruct Hacc as (_ & Hal1 & _ & Hal2 & _).
    unfold new_Author, accepted_author.
    destruct (Hval "first_name" a1) as [_ ->]; [cbn; auto|exact H1|].
    destruct (Hval "family_name" a2) as [_ ->]; [cbn; auto|exact H2|].
    rewrite (Hdate "date_of_birth" a3), (Hdate "date_of_death" a4);
      [|cbn; auto|exact H4|cbn; auto|exact H3].
    rewrite !date_of_date_value.
    rewrite (atom_get _ _ _ H1), (atom_get _ _ _ H2), (atom_get _ _ _ H3),
      (atom_get _ _ _ H4).
    cbn [str_of JStr]. by rewrite (accepted_name _ Hal1), (accepted_name _ Hal2).
  - destruct (Hs "title") as [a1 H1]; [cbn; auto|].
    destruct (Hs "author") as [a2 H2]; [cbn; auto|].
    destruct (Hs "summary") as [a3 H3]; [cbn; auto|].
    destruct (Hs "isbn") as [a4 H4]; [cbn; auto 6|].
    unfold new_Book, accepted_book.
    destruct (Hval "title" a1) as [_ ->]; [cbn; auto|exact H1|].
    destruct (Hval "author" a2) as [_ ->]; [cbn; auto|exact H2|].
    destruct (Hval "summary" a3) as [_ ->]; [cbn; auto|exact H3|].
    destruct (Hval "isbn" a4) as [_ ->]; [cbn; auto 6|exact H4|].
    unfold validation. rewrite validation_genre, default_ref_of.
    by rewrite (atom_get _ _ _ H1), (atom_get _ _ _ H2), (atom_get _ _ _ H3),
      (atom_get _ _ _ H4).
  - destruct (Hs "book") as [a1 H1]; [cbn; auto|].
    destruct (Hs "imprint") as [a2 H2]; [cbn; auto|].
    destruct (Hd "due_back") as [a3 H3]; [cbn; auto|].
    destruct (Hst eq_refl) as [a4 H4].
    unfold new_BookInstance, accepted_bookinstance.
    destruct (Hval "book" a1) as [_ ->]; [cbn; auto|exact H1|].
    destruct (Hval "imprint" a2) as [_ ->]; [cbn; auto|exact H2|].
    rewrite (Hdate "due_back" a3); [|cbn; auto|exact H3].
    unfold validation. rewrite (validation_status _ _ H4).
    rewrite date_of_date_value, default_ref_of.
    by rewrite (atom_get _ _ _ H1), (atom_get _ _ _ H2), (atom_get _ _ _ H3),
      (atom_get _ _ _ H4).
Qed.

Lemma lookup_id_found {A} (key : A -> ObjectId) (id : ObjectId) (l : list A) :
  existsb (has_id key id) l = true ->
  exists old, lookup_id key (Some id) l = Some old /\ key old = id.
Proof.
  induction l as [|d t IH]; cbn; [discriminate|].
  destruct (has_id key id d) eqn:E; cbn.
  - intros _. exists d. split; [reflexivity|]. by apply String.eqb_eq.
  - exact IH.
Qed.

Lemma update_id_absent {A} (key : A -> ObjectId) (id : ObjectId) (f : A -> A)
    (l : list A) :
  existsb (has_id key id) l = false -> update_id key id f l = l.
Proof.
  induction l as [|x t IH]; cbn; [reflexivity|].
  destruct (has_id key id x); cbn; [discriminate|].
  intros Ht. by rewrite (IH Ht).
Qed.

(** ** What the schemas make of an accepted body *)

Lemma blank_trim (a : Atom) :
  blank a = false -> Validator.trim (toString a) <> EmptyString.
Proof. unfold blank. intros Hb. by apply bool_decide_eq_false in Hb. Qed.

Lemma sanitized_filled (a : Atom) : blank a = false -> sanitized a <> EmptyString.
Proof. intros Hb E. apply sanitized_empty in E. congruence. Qed.

(** The validators accept the document of an accepted body, the status of a
    BookInstance apart. *)
Lemma accepted_valid `{DateLib} `{StatusEnum} (k : EntityKind) (id : ObjectId)
    (b : gmap string JsValue) :
  single_valued k b -> dates_single_valued k b ->
  (validation k b).2 = [] ->
  match k with
  | KGenre => invalid_paths GenreSchema (mkGenre id (sanitized (atom "name" b))) = []
  | KAuthor => invalid_paths AuthorSchema (accepted_author id b) = []
  | KBook => invalid_paths BookSchema (accepted_book id b) = []
  | KBookInstance =>
      invalid_paths BookInstanceSchema (accepted_bookinstance id b)
      = if status_allowed KBookInstance b then [] else ["status"]
  end.
Proof.
  intros Hs Hd Hacc. rewrite (validation_errors k b Hs Hd) in Hacc.
  destruct k; unfold expected_errors in Hacc;
    rewrite ?app_nil, ?required_error_nil in Hacc;
    cbn [invalid_paths GenreSchema AuthorSchema BookSchema BookInstanceSchema
         accepted_author accepted_book accepted_bookinstance
         g_name a_first_name a_family_name b_title b_author b_summary b_isbn
         bi_imprint bi_status status_allowed].
  - by apply required_filled, sanitized_filled.
  - destruct Hacc as (H1 & _ & H2 & _).
    by rewrite !required_filled by (by apply blank_trim).
  - destruct Hacc as (H1 & H2 & H3 & H4).
    by rewrite !required_filled by (by apply sanitized_filled).
  - destruct Hacc as (H1 & H2 & _).
    rewrite required_filled by (by apply sanitized_filled).
    unfold one_of. cbn [app]. by destruct (existsb _ status_values).
Qed.

Lemma holds_date_value `{DateLib} (a : Atom) :
  holds_date (JAtom (date_value a))
  = match a with AUndefined => false | _ => true end.
Proof.
  unfold date_value, Validator.toDate, falsy.
  destruct a as [| |v|d]; cbn; try reflexivity.
  - case_bool_decide as E; cbn; [by rewrite bool_decide_eq_true_2|].
    by destruct (dateParse v).
  - by destruct (dateParse d).
Qed.

Lemma holds_ref_filled (v : string) : v <> EmptyString -> holds_ref (JStr v) = true.
Proof. intros Hv. unfold holds_ref. cbn. by rewrite bool_decide_eq_false_2. Qed.

(** The [$set] of the document of an accepted body: every path but the
    dates the body does not hold. *)
Lemma accepted_assign `{DateLib} `{StatusEnum} (k : EntityKind) (id : ObjectId)
    (b : gmap string JsValue) :
  single_valued k b -> dates_single_valued k b -> status_single_valued k b ->
  (validation k b).2 = [] ->
  match k with
  | KGenre =>
      forall old,
        assign Genre (genre_paths (validation k b).1)
          (mkGenre id (sanitized (atom "name" b))) old
        = mkGenre (g_id old) (sanitized (atom "name" b))
  | KAuthor =>
      forall old,
        assign Author (author_paths (validation k b).1) (accepted_author id b) old
        = updated_author (a_id old) b old
  | KBook =>
      forall old,
        assign Book (book_paths (validation k b).1) (accepted_book id b) old
        = accepted_book (b_id old) b
  | KBookInstance =>
      forall old,
        assign BookInstance (bookinstance_paths (validation k b).1)
          (accepted_bookinstance id b) old
        = updated_bookinstance (bi_id old) b old
  end.
Proof.
  intros Hs Hd Hst Hacc.
  assert (Hval := fun f a Hin Hget => validation_required k b f a Hin Hget).
  assert (Hdate := fun f a Hin Hget => validation_date k f b a Hin Hget).
  rewrite (validation_errors k b Hs Hd) in Hacc.
  unfold single_valued, dates_single_valued, status_single_valued in *.
  destruct k; cbn [required_fields date_fields] in *; unfold expected_errors in Hacc;
    rewrite ?app_nil, ?required_error_nil in Hacc; intros old.
  - destruct (Hs "name") as [a Ha]; [cbn; auto|].
    destruct (Hval "name" a) as [_ Hname]; [cbn; auto|exact Ha|].
    unfold genre_paths. by rewrite Hname.
  - destruct (Hs "first_name") as [a1 H1]; [cbn; auto|].
    destruct (Hs "family_name") as [a2 H2]; [cbn; auto|].
    destruct (Hd "date_of_birth") as [a3 H3]; [cbn; auto|].
    destruct (Hd "date_of_death") as [a4 H4]; [cbn; auto|].
    destruct (Hval "first_name" a1) as [_ Hv1]; [cbn; auto|exact H1|].
    destruct (Hval "family_name" a2) as [_ Hv2]; [cbn; auto|exact H2|].
    unfold author_paths.
    rewrite Hv1, Hv2, (Hdate "date_of_birth" a3), (Hdate "date_of_death" a4);
      [|cbn; auto|exact H4|cbn; auto|exact H3].
    rewrite !holds_date_value. unfold updated_author, updated_date, accepted_author.
    rewrite (atom_get _ _ _ H3), (atom_get _ _ _ H4).
    by destruct a3, a4.
  - destruct (Hs "title") as [a1 H1]; [cbn; auto|].
    destruct (Hs "author") as [a2 H2]; [cbn; auto|].
    destruct (Hs "summary") as [a3 H3]; [cbn; auto|].
    destruct (Hs "isbn") as [a4 H4]; [cbn; auto 6|].
    destruct (Hval "title" a1) as [_ Hv1]; [cbn; auto|exact H1|].
    destruct (Hval "author" a2) as [_ Hv2]; [cbn; auto|exact H2|].
    destruct (Hval "summary" a3) as [_ Hv3]; [cbn; auto|exact H3|].
    destruct (Hval "isbn" a4) as [_ Hv4]; [cbn; auto 6|exact H4|].
    destruct Hacc as (_ & Hb2 & _). rewrite (atom_get _ _ _ H2) in Hb2.
    unfold book_paths. rewrite Hv1, Hv2, Hv3, Hv4.
    by rewrite (holds_ref_filled _ (sanitized_filled _ Hb2)).
  - destruct (Hs "book") as [a1 H1]; [cbn; auto|].
    destruct (Hs "imprint") as [a2 H2]; [cbn; auto|].
    destruct (Hd "due_back") as [a3 H3]; [cbn; auto|].
    destruct (Hst eq_refl) as [a4 H4].
    destruct (Hval "book" a1) as [_ Hv1]; [cbn; auto|exact H1|].
    destruct (Hval "imprint" a2) as [_ Hv2]; [cbn; auto|exact H2|].
    destruct Hacc as (Hb1 & _). rewrite (atom_get _ _ _ H1) in Hb1.
    unfold bookinstance_paths.
    rewrite Hv1, Hv2, (Hdate "due_back" a3); [|cbn; auto|exact H3].
    unfold validation. rewrite (validation_status _ _ H4).
    rewrite (holds_ref_filled _ (sanitized_filled _ Hb1)), holds_date_value.
    unfold updated_bookinstance, updated_date, accepted_bookinstance.
    rewrite (atom_get _ _ _ H3).
    by destruct a3.
Qed.

Lemma holds_ref_some (v : string) : v <> EmptyString -> ref_of (JStr v) = Some v.
Proof. intros Hv. cbn. by rewrite bool_decide_eq_false_2. Qed.

Ltac fields_single :=
  let f := fresh "f" in
  let Hin := fresh "Hin" in
  intros f Hin; cbn in Hin;
  repeat (destruct Hin as [<-|Hin]); try destruct Hin;
  eexists; vm_compute; reflexivity.

(** ** The rejected form *)

(** The draft a handler builds from the sanitized body, accepted or not. *)
Lemma sanitized_drafts `{DateLib} `{StatusEnum} (k : EntityKind) (id : ObjectId)
    (b : gmap string JsValue) :
  single_valued k b -> dates_single_valued k b -> status_single_valued k b ->
  match k with
  | KGenre => str_of (get "name" (validation k b).1) = sanitized (atom "name" b)
  | KAuthor => echoes KAuthor id b (LBody (validation k b).1)
  | KBook => new_Book id (validation k b).1 = accepted_book id b
  | KBookInstance => new_BookInstance id (validation k b).1 = accepted_bookinstance id b
  end.
Proof.
  intros Hs Hd Hst.
  assert (Hval := fun f a Hin Hget => validation_required k b f a Hin Hget).
  assert (Hdate := fun f a Hin Hget => validation_date k f b a Hin Hget).
  unfold single_valued, dates_single_valued, status_single_valued in *.
  destruct k; cbn [required_fields date_fields echoes] in *.
  - destruct (Hs "name") as [a Ha]; [cbn; auto|].
    destruct (Hval "name" a) as [_ ->]; [cbn; auto|exact Ha|].
    by rewrite (atom_get _ _ _ Ha).
  - destruct (Hs "first_name") as [a1 H1]; [cbn; auto|].
    destruct (Hs "family_name") as [a2 H2]; [cbn; auto|].
    destruct (Hd "date_of_birth") as [a3 H3]; [cbn; auto|].
    destruct (Hd "date_of_death") as [a4 H4]; [cbn; auto|].
    eexists. split; [reflexivity|].
    destruct (Hval "first_name" a1) as [_ ->]; [cbn; auto|exact H1|].
    destruct (Hval "family_name" a2) as [_ ->]; [cbn; auto|exact H2|].
    rewrite (Hdate "date_of_birth" a3), (Hdate "date_of_death" a4);
      [|cbn; auto|exact H4|cbn; auto|exact H3].
    by rewrite (atom_get _ _ _ H1), (atom_get _ _ _ H2), (atom_get _ _ _ H3),
      (atom_get _ _ _ H4).
  - destruct (Hs "title") as [a1 H1]; [cbn; auto|].
    destruct (Hs "author") as [a2 H2]; [cbn; auto|].
    destruct (Hs "summary") as [a3 H3]; [cbn; auto|].
    destruct (Hs "isbn") as [a4 H4]; [cbn; auto 6|].
    unfold new_Book, accepted_book.
    destruct (Hval "title" a1) as [_ ->]; [cbn; auto|exact H1|].
    destruct (Hval "author" a2) as [_ ->]; [cbn; auto|exact H2|].
    destruct (Hval "summary" a3) as [_ ->]; [cbn; auto|exact H3|].
    destruct (Hval "isbn" a4) as [_ ->]; [cbn; auto 6|exact H4|].
    unfold validation. rewrite validation_genre, default_ref_of.
    by rewrite (atom_get _ _ _ H1), (atom_get _ _ _ H2), (atom_get _ _ _ H3),
      (atom_get _ _ _ H4).
  - destruct (Hs "book") as [a1 H1]; [cbn; auto|].
    destruct (Hs "imprint") as [a2 H2]; [cbn; auto|].
    destruct (Hd "due_back") as [a3 H3]; [cbn; auto|].
    destruct (Hst eq_refl) as [a4 H4].
    unfold new_BookInstance, accepted_bookinstance.
    destruct (Hval "book" a1) as [_ ->]; [cbn; auto|exact H1|].
    destruct (Hval "imprint" a2) as [_ ->]; [cbn; auto|exact H2|].
    rewrite (Hdate "due_back" a3); [|cbn; auto|exact H3].
    unfold validation. rewrite (validation_status _ _ H4).
    rewrite date_of_date_value, default_ref_of.
    by rewrite (atom_get _ _ _ H1), (atom_get _ _ _ H2), (atom_get _ _ _ H3),
      (atom_get _ _ _ H4).
Qed.

(** C4, as the code has it.  On a body whose form fields are single values
    or missing (the genre of a Book may be an array):
    - a create or update POST that the validation rejects writes nothing;
    - the create handler of every kind and the update handlers of Author,
      Book and BookInstance then render the form once, with the errors and
      with a draft that echoes every field of the form as the chains left
      it, not as submitted: required texts trimmed and escaped, status and
      genres escaped, each optional date untouched when falsy and otherwise
      what [toDate] made of it (for a BookInstance, when the book is not
      blank);
    - a Genre POST that the validation accepts and the guard on the name
      rejects renders no form and writes nothing: the create handler
      redirects to a Genre that has the name, the update handler hands the
      error [Genre already exists] to [next]. *)
Theorem rejected_form_echo `{DateLib} `{StatusEnum} (k : EntityKind)
    (new_id : ObjectId) (req : Request) (s : Store) :
  single_valued k (req_body req) -> dates_single_valued k (req_body req) ->
  status_single_valued k (req_body req) ->
  let errors := (validation k (req_body req)).2 in
  let echoed (id : ObjectId) (r : Result unit) :=
    exists d, rejected_form k r = Some (d, errors) /\ echoes k id (req_body req) d in
  (errors <> [] ->
     res_store (create_post k new_id req s) = s /\
     res_store (update_post k req s) = s /\
     (book_given k (req_body req) ->
        echoed new_id (create_post k new_id req s) /\
        (k <> KGenre -> echoed (params_id req) (update_post k req s)))) /\
  (k = KGenre -> errors = [] ->
   (exists g, In g (genres s) /\ g_name g = sanitized (atom "name" (req_body req))) ->
     (exists g, In g (genres s) /\
                g_name g = sanitized (atom "name" (req_body req)) /\
                create_post k new_id req s
                = mkResult s [Redirect (genre_url g)] (inr tt)) /\
     update_post k req s
     = mkResult s [Next (Error "Genre already exists")] (inr tt)).
Proof.
  intros Hs Hd Hst. cbn zeta. split.
  - intros Herr.
    destruct (rejected_post_forms k new_id req s Hs Herr) as (Hcs & Hus & _).
    split; [exact Hcs|]. split; [exact Hus|]. intros Hgiven.
    pose proof (sanitized_drafts k new_id (req_body req) Hs Hd Hst) as Hc.
    pose proof (sanitized_drafts k (params_id req) (req_body req) Hs Hd Hst) as Hu.
    unfold book_given in Hgiven.
    assert (Hval := fun f a Hin Hget =>
              validation_required k (req_body req) f a Hin Hget).
    destruct k; unfold validation, create_post, update_post in *;
      cbn [echoes] in *.
    + pose proof (genre_create_post_rejected new_id req s) as Hr.
      destruct (run_all genre_chains (req_body req)) as [body errors].
      cbn [fst snd] in *. rewrite (Hr Herr), Hc.
      split; [|done]. eexists. split; reflexivity.
    + pose proof (author_post_rejected new_id req s) as Hr.
      destruct (run_all author_chains (req_body req)) as [body errors].
      cbn [fst snd] in *. destruct (Hr Herr) as [-> ->].
      split; [|intros _]; (eexists; split; [reflexivity|assumption]).
    + pose proof (book_post_rejected new_id req s) as Hr.
      destruct (run_all book_chains (genre_to_array (req_body req)))
        as [body errors].
      cbn [fst snd] in *. destruct (Hr Herr) as [-> ->].
      rewrite !book_form_errors_run, Hc, Hu.
      split; [|intros _]; (eexists; split; reflexivity).
    + pose proof (bookinstance_post_rejected new_id req s) as Hr.
      destruct (Hs "book") as [a Ha]; [cbn; auto|].
      destruct (Hval "book" a) as [_ Hf]; [cbn; auto|exact Ha|].
      destruct (run_all bookinstance_chains (req_body req)) as [body errors].
      cbn [fst snd] in *. destruct (Hr Herr) as [-> ->].
      rewrite !bookinstance_form_errors_run, Hc, Hu, Hf.
      rewrite (holds_ref_some _ (sanitized_filled _ (Hgiven eq_refl a Ha))).
      split; [|intros _]; (eexists; split; reflexivity).
  - intros -> Hacc Hex. cbn [create_post update_post validation] in *.
    destruct (Hs "name") as [a Ha]; [cbn; auto|].
    rewrite (atom_get _ _ _ Ha) in *.
    rewrite (genre_validation _ _ Ha) in Hacc. cbn [snd] in Hacc.
    destruct (blank a) eqn:Hblank; [discriminate|].
    apply find_name_some in Hex as (g & Hfind & Hin & Hname).
    split.
    + exists g. split; [exact Hin|]. split; [exact Hname|].
      unfold genre_create_post.
      rewrite (genre_validation _ _ Ha), Hblank.
      rewrite bool_decide_eq_true_2 by done. cbn [negb].
      rewrite get_insert_eq. cbn [str_of JStr]. unfold_monad. by rewrite Hfind.
    + unfold genre_update_post.
      rewrite (genre_validation _ _ Ha), Hblank.
      rewrite bool_decide_eq_true_2 by done. cbn [negb].
      rewrite get_insert_eq. cbn [str_of JStr]. unfold_monad. by rewrite Hfind.
Qed.

Lemma rejected_form_echo_witness :
  let req := mkRequest "a1"
               {[ "first_name" := JStr " Ann "; "family_name" := JStr "O'Neil";
                  "date_of_birth" := JStr EmptyString ]} in
  let s := mkStore [mkGenre "g1" "Fantasy"]
             [mkAuthor "a1" "Ann" "Neil" None None] [] [] in
  let taken := mkRequest "g2" {[ "name" := JStr " Fantasy " ]} in
  (res_store (update_post (H := no_dates) (H0 := four_states) KAuthor req s) = s /\
   exists d,
     rejected_form KAuthor
       (update_post (H := no_dates) (H0 := four_states) KAuthor req s)
     = Some (d, [mkValidationError (AStr "O&#x27;Neil")
                   "Family name has non-alphanumeric characters." "family_name"]) /\
     echoes (H := no_dates) KAuthor "a1" (req_body req) d) /\
  update_post (H := no_dates) (H0 := four_states) KGenre taken s
  = mkResult s [Next (Error "Genre already exists")] (inr tt).
Proof.
  cbn zeta. split.
  - destruct (rejected_form_echo (H := no_dates) (H0 := four_states) KAuthor "a9"
                (mkRequest "a1"
                   {[ "first_name" := JStr " Ann "; "family_name" := JStr "O'Neil";
                      "date_of_birth" := JStr EmptyString ]})
                (mkStore [mkGenre "g1" "Fantasy"]
                   [mkAuthor "a1" "Ann" "Neil" None None] [] []))
      as [Hrejected _].
    + fields_single.
    + fields_single.
    + intros Hk. discriminate Hk.
    + destruct Hrejected as (_ & Hstore & Hform); [vm_compute; discriminate|].
      split; [exact Hstore|].
      destruct Hform as [_ Hupdate]; [intros Hk; discriminate Hk|].
      destruct (Hupdate ltac:(discriminate)) as (d & Hd & Hecho).
      exists d. split; [exact Hd|exact Hecho].
  - destruct (rejected_form_echo (H := no_dates) (H0 := four_states) KGenre "g9"
                (mkRequest "g2" {[ "name" := JStr " Fantasy " ]})
                (mkStore [mkGenre "g1" "Fantasy"]
                   [mkAuthor "a1" "Ann" "Neil" None None] [] []))
      as [_ Hguard].
    + fields_single.
    + intros f [].
    + intros Hk. discriminate Hk.
    + destruct Hguard as [_ Hupdate]; [reflexivity|vm_compute; reflexivity| |].
      * exists (mkGenre "g1" "Fantasy"). split; [by left|]. vm_compute. reflexivity.
      * exact Hupdate.
Defined.

(** C4 as stated fails, by what the handlers are written to do.  An Author
    create-POST with a family name that is not alphanumeric and a date of
    birth that is no date is rejected by the validation: the form rendered
    shows the first name trimmed and the family name escaped, not as they
    were submitted, and [null] for the date of birth.  A Genre create-POST
    with the name of the Genre g1 is rejected by the guard on the name: no
    form is rendered, the response is the redirect to g1. *)
Lemma rejected_form_not_verbatim :
  let s := mkStore [mkGenre "g1" "Fantasy"] [] [] [] in
  let author := mkRequest EmptyString
                  {[ "first_name" := JStr " Ann "; "family_name" := JStr "O'Neil";
                     "date_of_birth" := JStr "not-a-date" ]} in
  let genre := mkRequest EmptyString {[ "name" := JStr "Fantasy" ]} in
  (exists b' es,
     rejected_form KAuthor
       (create_post (H := no_dates) (H0 := four_states) KAuthor "a9" author s)
     = Some (LBody b', es) /\
     get "first_name" b' = JStr "Ann" /\
     get "first_name" (req_body author) = JStr " Ann " /\
     get "family_name" b' = JStr "O&#x27;Neil" /\
     get "family_name" (req_body author) = JStr "O'Neil" /\
     get "date_of_birth" b' = JAtom ANull /\
     get "date_of_birth" (req_body author) = JStr "not-a-date") /\
  (validation (H := no_dates) KGenre (req_body genre)).2 = [] /\
  create_post (H := no_dates) (H0 := four_states) KGenre "g9" genre s
  = mkResult s [Redirect "/catalog/genre/g1"] (inr tt) /\
  rejected_form KGenre
    (create_post (H := no_dates) (H0 := four_states) KGenre "g9" genre s) = None.
Proof.
  cbn zeta. split.
  - eexists _, _. split; [vm_compute; reflexivity|].
    repeat split; vm_compute; reflexivity.
  - repeat split; vm_compute; reflexivity.
Qed.

(** X8.  What an accepted create-POST stores.  On a body whose fields are
    single values or missing and that the chains accept (for a Genre, with a
    name no Genre has), [save] runs the validators of the schema.  They
    accept the document of every Genre, Author and Book and that of a
    BookInstance whose escaped status is one of the fixed set: then the
    collection of the kind gets one more document, with the id of the new
    document, the required fields trimmed and escaped (the names of an
    Author just trimmed: an accepted name has nothing to escape), the status
    escaped, the genres escaped one by one (none when the field is missing),
    and each optional date parsed, or absent when the field is falsy, and
    the response is the redirect to the detail location of the new document.
    A BookInstance whose status is not in the set, the missing status
    included (the chain makes it the empty string, so the default never
    applies), is not stored: the ValidationError of the status goes to
    [next]. *)
Theorem create_post_accepted `{DateLib} `{StatusEnum} (k : EntityKind)
    (new_id : ObjectId) (req : Request) (s : Store) :
  single_valued k (req_body req) -> dates_single_valued k (req_body req) ->
  status_single_valued k (req_body req) -> name_free k (req_body req) s ->
  (validation k (req_body req)).2 = [] ->
  create_post k new_id req s =
  if status_allowed k (req_body req)
  then mkResult (with_created k new_id (req_body req) s)
         [Redirect (detail_url k new_id)] (inr tt)
  else mkResult s [Next (ValidationFailed "BookInstance" ["status"])] (inr tt).
Proof.
  intros Hs Hd Hst Hfree Hacc.
  pose proof (accepted_drafts k new_id (req_body req) Hs Hd Hst Hacc) as Hdraft.
  pose proof (accepted_valid k new_id (req_body req) Hs Hd Hacc) as Hvalid.
  destruct k; unfold validation in *; cbn [create_post with_created detail_url].
  - unfold genre_create_post.
    destruct (run_all genre_chains (req_body req)) as [body errors].
    cbn [fst snd] in *. subst errors. cbn [negb bool_decide decide_rel].
    rewrite bool_decide_eq_true_2 by done. cbn [negb]. rewrite Hdraft.
    unfold_monad. rewrite (find_name_none _ _ (Hfree eq_refl)). cbn beta.
    by rewrite (save_valid _ _ _ _ Hvalid).
  - unfold author_create_post.
    destruct (run_all author_chains (req_body req)) as [body errors].
    cbn [fst snd] in *. subst errors.
    rewrite bool_decide_eq_true_2 by done. cbn [negb]. rewrite Hdraft.
    unfold_monad. by rewrite (save_valid _ _ _ _ Hvalid).
  - unfold book_create_post.
    destruct (run_all book_chains (genre_to_array (req_body req))) as [body errors].
    cbn [fst snd] in *. subst errors.
    rewrite bool_decide_eq_true_2 by done. cbn [negb]. rewrite Hdraft.
    unfold_monad. by rewrite (save_valid _ _ _ _ Hvalid).
  - unfold bookinstance_create_post.
    destruct (run_all bookinstance_chains (req_body req)) as [body errors].
    cbn [fst snd] in *. subst errors.
    rewrite bool_decide_eq_true_2 by done. cbn [negb]. rewrite Hdraft.
    unfold_monad. destruct (status_allowed KBookInstance (req_body req)).
    + by rewrite (save_valid _ _ _ _ Hvalid).
    + rewrite save_invalid by (by rewrite Hvalid). by rewrite Hvalid.
Qed.

(** X9.  What an accepted update-POST does to an existing record.  Under
    the conditions of an accepted create (for a Genre, a name no Genre has)
    and when the id of the route has a record: that record takes, in its
    place in the collection, the fields of the document built from the body
    with the id of the route, except that an optional date the body does not
    hold keeps its stored value (the update is a [$set] of the paths the
    document holds); no validator runs, so any status is written; nothing
    else changes, and the response is the redirect to the detail location
    of the id. *)
Theorem update_post_accepted `{DateLib} `{StatusEnum} (k : EntityKind)
    (req : Request) (s : Store) :
  single_valued k (req_body req) -> dates_single_valued k (req_body req) ->
  status_single_valued k (req_body req) -> name_free k (req_body req) s ->
  (validation k (req_body req)).2 = [] ->
  has_record k (params_id req) s = true ->
  update_post k req s =
  mkResult (with_updated k (params_id req) (req_body req) s)
    [Redirect (detail_url k (params_id req))] (inr tt).
Proof.
  intros Hs Hd Hst Hfree Hacc Hrec.
  pose proof (accepted_drafts k (params_id req) (req_body req) Hs Hd Hst Hacc)
    as Hdraft.
  pose proof (accepted_assign k (params_id req) (req_body req) Hs Hd Hst Hacc)
    as Hassign.
  destruct k; unfold validation in *;
    cbn [update_post with_updated detail_url has_record] in *;
    apply lookup_id_found in Hrec as (old & Hold & Hid).
  - unfold genre_update_post.
    destruct (run_all genre_chains (req_body req)) as [body errors].
    cbn [fst snd] in *. subst errors.
    rewrite bool_decide_eq_true_2 by done. cbn [negb]. rewrite Hdraft.
    unfold_monad. rewrite (find_name_none _ _ (Hfree eq_refl)), Hold. cbn.
    rewrite (update_id_ext g_id (params_id req) _
               (fun _ => mkGenre (params_id req)
                           (sanitized (atom "name" (req_body req)))))
      by (intros d Hd'; etransitivity; [exact (Hassign d)|by rewrite Hd']).
    unfold genre_url. by rewrite Hid.
  - unfold author_update_post.
    destruct (run_all author_chains (req_body req)) as [body errors].
    cbn [fst snd] in *. subst errors.
    rewrite bool_decide_eq_true_2 by done. cbn [negb]. rewrite Hdraft.
    unfold_monad. rewrite Hold. cbn.
    rewrite (update_id_ext a_id (params_id req) _
               (updated_author (params_id req) (req_body req)))
      by (intros d Hd'; etransitivity; [exact (Hassign d)|by rewrite Hd']).
    unfold author_url. by rewrite Hid.
  - unfold book_update_post.
    destruct (run_all book_chains (genre_to_array (req_body req))) as [body errors].
    cbn [fst snd] in *. subst errors.
    rewrite bool_decide_eq_true_2 by done. cbn [negb]. rewrite Hdraft.
    unfold_monad. rewrite Hold. cbn.
    rewrite (update_id_ext b_id (params_id req) _
               (fun _ => accepted_book (params_id req) (req_body req)))
      by (intros d Hd'; etransitivity; [exact (Hassign d)|by rewrite Hd']).
    unfold book_url. by rewrite Hid.
  - unfold bookinstance_update_post.
    destruct (run_all bookinstance_chains (req_body req)) as [body errors].
    cbn [fst snd] in *. subst errors.
    rewrite bool_decide_eq_true_2 by done. cbn [negb]. rewrite Hdraft.
    unfold_monad. rewrite Hold. cbn.
    rewrite (update_id_ext bi_id (params_id req) _
               (updated_bookinstance (params_id req) (req_body req)))
      by (intros d Hd'; etransitivity; [exact (Hassign d)|by rewrite Hd']).
    unfold bookinstance_url. by rewrite Hid.
Qed.

(** X10.  An accepted update-POST for an id that has no record writes
    nothing and inserts nothing.  The Genre and BookInstance handlers hand
    the error of reading [url] of [null] to [next].  The Author and Book
    handlers run the update outside any [try]: they call neither [res] nor
    [next], and their promise is rejected with that error. *)
Theorem update_post_missing_record `{DateLib} `{StatusEnum} (k : EntityKind)
    (req : Request) (s : Store) :
  name_free k (req_body req) s ->
  single_valued k (req_body req) ->
  (validation k (req_body req)).2 = [] ->
  has_record k (params_id req) s = false ->
  let e := TypeError "Cannot read properties of null (reading 'url')" in
  update_post k req s =
  match k with
  | KGenre | KBookInstance => mkResult s [Next e] (inr tt)
  | KAuthor | KBook => mkResult s [] (inl e)
  end.
Proof.
  intros Hfree Hs Hacc Hrec. cbn zeta.
  assert (Hval := fun f a Hin Hget =>
            validation_required k (req_body req) f a Hin Hget).
  destruct k; unfold validation in *; cbn [update_post has_record] in *;
    pose proof (lookup_id_absent _ _ _ Hrec) as Hnone.
  - destruct (Hs "name") as [a Ha]; [cbn; auto|].
    destruct (Hval "name" a) as [_ Hname]; [cbn; auto|exact Ha|].
    pose proof (Hfree eq_refl) as Hfree'. rewrite (atom_get _ _ _ Ha) in Hfree'.
    unfold genre_update_post.
    destruct (run_all genre_chains (req_body req)) as [body errors].
    cbn [fst snd] in *. subst errors.
    rewrite bool_decide_eq_true_2 by done. cbn [negb]. rewrite Hname.
    cbn [str_of JStr]. unfold_monad.
    rewrite (find_name_none _ _ Hfree'), Hnone, (update_id_absent _ _ _ _ Hrec).
    cbn. by rewrite store_eta.
  - unfold author_update_post.
    destruct (run_all author_chains (req_body req)) as [body errors].
    cbn [fst snd] in *. subst errors.
    rewrite bool_decide_eq_true_2 by done. cbn [negb]. unfold_monad.
    rewrite Hnone, (update_id_absent _ _ _ _ Hrec). cbn. by rewrite store_eta.
  - unfold book_update_post.
    destruct (run_all book_chains (genre_to_array (req_body req))) as [body errors].
    cbn [fst snd] in *. subst errors.
    rewrite bool_decide_eq_true_2 by done. cbn [negb]. unfold_monad.
    rewrite Hnone, (update_id_absent _ _ _ _ Hrec). cbn. by rewrite store_eta.
  - unfold bookinstance_update_post.
    destruct (run_all bookinstance_chains (req_body req)) as [body errors].
    cbn [fst snd] in *. subst errors.
    rewrite bool_decide_eq_true_2 by done. cbn [negb]. unfold_monad.
    rewrite Hnone, (update_id_absent _ _ _ _ Hrec). cbn. by rewrite store_eta.
Qed.

Lemma create_post_accepted_witness :
  let req := mkRequest EmptyString
               {[ "book" := JStr " b1 "; "imprint" := JStr "Penguin <1990>";
                  "status" := JStr "Loaned"; "due_back" := JStr EmptyString ]} in
  create_post (H := no_dates) (H0 := four_states) KBookInstance "c9" req
    (mkStore [] [] [] [])
  = mkResult
      (mkStore [] [] []
         [mkBookInstance "c9" "b1" "Penguin &lt;1990&gt;" "Loaned" None])
      [Redirect "/catalog/bookinstance/c9"] (inr tt) /\
  create_post (H := no_dates) (H0 := four_states) KBookInstance "c9"
    (mkRequest EmptyString
       {[ "book" := JStr "b1"; "imprint" := JStr "Penguin";
          "due_back" := JStr EmptyString ]})
    (mkStore [] [] [] [])
  = mkResult (mkStore [] [] [] [])
      [Next (ValidationFailed "BookInstance" ["status"])] (inr tt).
Proof.
  cbn zeta. split.
  - etransitivity.
    + apply (create_post_accepted (H := no_dates) (H0 := four_states) KBookInstance).
      * fields_single.
      * fields_single.
      * intros _. eexists. vm_compute. reflexivity.
      * discriminate.
      * vm_compute. reflexivity.
    + vm_compute. reflexivity.
  - etransitivity.
    + apply (create_post_accepted (H := no_dates) (H0 := four_states) KBookInstance).
      * fields_single.
      * fields_single.
      * intros _. eexists. vm_compute. reflexivity.
      * discriminate.
      * vm_compute. reflexivity.
    + vm_compute. reflexivity.
Defined.

Lemma update_post_accepted_witness :
  update_post (H := no_dates) (H0 := four_states) KAuthor
    (mkRequest "a1"
       {[ "first_name" := JStr " Jane "; "family_name" := JStr "Austen";
          "date_of_death" := JStr EmptyString ]})
    (mkStore [] [mkAuthor "a0" "Ann" "Radcliffe" None None;
                 mkAuthor "a1" "J" "Austin" (Some "1775-12-16") (Some "1817-07-18")]
       [] [])
  = mkResult
      (mkStore [] [mkAuthor "a0" "Ann" "Radcliffe" None None;
                   mkAuthor "a1" "Jane" "Austen" (Some "1775-12-16") None] [] [])
      [Redirect "/catalog/author/a1"] (inr tt).
Proof.
  etransitivity.
  - apply (update_post_accepted (H := no_dates) (H0 := four_states) KAuthor).
    + fields_single.
    + fields_single.
    + discriminate.
    + discriminate.
    + vm_compute. reflexivity.
    + vm_compute. reflexivity.
  - vm_compute. reflexivity.
Defined.

Lemma update_post_missing_record_witness :
  update_post (H := no_dates) (H0 := four_states) KBook
    (mkRequest "b7"
       {[ "title" := JStr "Emma"; "author" := JStr "a1";
          "summary" := JStr "A story"; "isbn" := JStr "123" ]})
    (mkStore [] [] [mkBook "b1" "Ulysses" "a2" "s" "i" []] [])
  = mkResult (mkStore [] [] [mkBook "b1" "Ulysses" "a2" "s" "i" []] []) []
      (inl (TypeError "Cannot read properties of null (reading 'url')")).
Proof.
  apply (update_post_missing_record (H := no_dates) (H0 := four_states) KBook).
  - discriminate.
  - fields_single.
  - vm_compute. reflexivity.
  - vm_compute. reflexivity.
Defined.

(** ** The strings the store holds *)

Lemma html_safe_app (s t : string) :
  html_safe s = true -> html_safe t = true -> html_safe (s +:+ t) = true.
Proof.
  intros Hs Ht. induction s as [|c s IH]; [exact Ht|].
  change (String c s +:+ t) with (String c (s +:+ t)).
  cbn [html_safe] in *. apply andb_true_iff in Hs as [Hc Hs].
  by rewrite Hc, (IH Hs).
Qed.

Lemma safe_but_none (s : string) :
  safe_but (fun _ => false) s = true -> html_safe s = true.
Proof.
  induction s as [|c s IH]; cbn; [done|].
  rewrite orb_false_r. intros Hs. apply andb_true_iff in Hs as [-> Hs].
  by rewrite (IH Hs).
Qed.

Lemma safe_but_all (s : string) : safe_but (fun _ => true) s = true.
Proof. induction s as [|c s IH]; cbn; [done|]. by rewrite orb_true_r. Qed.

Lemma safe_but_replace (allowed : ascii -> bool) (c : ascii) (by_ s : string) :
  html_safe by_ = true ->
  safe_but allowed s = true ->
  safe_but (fun d => allowed d && negb (Ascii.eqb c d))
    (Validator.replace_all c by_ s) = true.
Proof.
  intros Hby. induction s as [|d s IH]; cbn [Validator.replace_all safe_but]; [done|].
  intros Hs. apply andb_true_iff in Hs as [Hd Hs]. specialize (IH Hs).
  destruct (Ascii.eqb c d) eqn:E.
  - clear Hd. revert IH. generalize (Validator.replace_all c by_ s) as r.
    intros r Hr. induction by_ as [|e by_ IHby]; [exact Hr|].
    change (String e by_ +:+ r) with (String e (by_ +:+ r)).
    cbn [html_safe safe_but] in *. apply andb_true_iff in Hby as [He Hby].
    by rewrite He, (IHby Hby).
  - cbn [safe_but]. rewrite IH, E. cbn. by rewrite andb_true_r, andb_true_r.
Qed.

Lemma safe_but_weaken (p q : ascii -> bool) (s : string) :
  (forall c, special c = true -> p c = true -> q c = true) ->
  safe_but p s = true -> safe_but q s = true.
Proof.
  intros Hpq. induction s as [|c s IH]; cbn; [done|].
  intros Hs. apply andb_true_iff in Hs as [Hc Hs]. rewrite (IH Hs), andb_true_r.
  destruct (special c) eqn:Esp; cbn in *; [|done]. by apply Hpq.
Qed.

(** The escape leaves none of the characters it replaces, the ampersand
    apart. *)
Lemma escape_safe (s : string) : html_safe (Validator.escape s) = true.
Proof.
  apply safe_but_none. unfold Validator.escape.
  eapply safe_but_weaken;
    [|repeat (apply safe_but_replace; [reflexivity|]); apply safe_but_all].
  intros c Hsp. unfold special in Hsp. cbn beta.
  repeat match goal with
         | |- context [Ascii.eqb ?x c] =>
             rewrite (Ascii.eqb_sym x c); destruct (Ascii.eqb c x) eqn:?
         end; cbn; done.
Qed.


Lemma sanitized_clean (a : Atom) : blank a = false -> clean (sanitized a) = true.
Proof.
  intros Hb. unfold clean. apply andb_true_iff. split; [|apply escape_safe].
  destruct (String.eqb_spec (sanitized a) EmptyString) as [E|]; [|done].
  apply sanitized_empty in E. congruence.
Qed.

Lemma escaped_genres_safe (xs : list Atom) :
  forallb html_safe (map (fun a => Validator.escape (toString a)) xs) = true.
Proof. induction xs as [|x xs IH]; cbn; [done|]. by rewrite escape_safe. Qed.

(** The document an accepted body gives is clean. *)
Lemma accepted_docs_clean `{DateLib} (k : EntityKind) (id : ObjectId)
    (b : gmap string JsValue) :
  single_valued k b -> dates_single_valued k b ->
  (validation k b).2 = [] ->
  match k with
  | KGenre => genre_ok (mkGenre id (sanitized (atom "name" b))) = true
  | KAuthor => author_ok (accepted_author id b) = true
  | KBook => book_ok (accepted_book id b) = true
  | KBookInstance => bookinstance_ok (accepted_bookinstance id b) = true
  end.
Proof.
  intros Hs Hd Hacc. rewrite (validation_errors k b Hs Hd) in Hacc.
  destruct k; unfold expected_errors in Hacc;
    rewrite ?app_nil, ?required_error_nil, ?alnum_error_nil in Hacc.
  - unfold genre_ok. cbn [g_name]. by apply sanitized_clean.
  - destruct Hacc as (_ & Hal1 & _ & Hal2 & _).
    unfold author_ok, accepted_author. cbn [a_first_name a_family_name].
    by rewrite <- !accepted_name, Hal1, Hal2.
  - destruct Hacc as (H1 & H2 & H3 & H4).
    unfold book_ok, accepted_book. cbn [b_title b_author b_summary b_isbn b_genre].
    by rewrite !sanitized_clean, escaped_genres_safe.
  - destruct Hacc as (H1 & H2 & _).
    unfold bookinstance_ok, accepted_bookinstance. cbn [bi_book bi_imprint bi_status].
    by rewrite !sanitized_clean, escape_safe.
Qed.

(** What a create-POST and an update-POST leave in the store: what was
    there, or, for an accepted body, the document of the body added or put
    in the place of the record. *)
Lemma create_post_store `{DateLib} `{StatusEnum} (k : EntityKind) (new_id : ObjectId)
    (req : Request) (s : Store) :
  single_valued k (req_body req) -> dates_single_valued k (req_body req) ->
  status_single_valued k (req_body req) ->
  (res_store (create_post k new_id req s) = s /\
   ((validation k (req_body req)).2 <> [] \/ ~ name_free k (req_body req) s \/
    status_allowed k (req_body req) = false)) \/
  ((validation k (req_body req)).2 = [] /\
   res_store (create_post k new_id req s) = with_created k new_id (req_body req) s).
Proof.
  intros Hs Hd Hst.
  destruct (decide ((validation k (req_body req)).2 = [])) as [Hacc|Hrej];
    [|left; split; [by apply (rejected_post_forms k new_id req s Hs Hrej)|by left]].
  pose proof (accepted_drafts k new_id (req_body req) Hs Hd Hst Hacc) as Hdraft.
  pose proof (accepted_valid k new_id (req_body req) Hs Hd Hacc) as Hvalid.
  destruct k; unfold validation in *; cbn [create_post with_created].
  - unfold genre_create_post.
    destruct (run_all genre_chains (req_body req)) as [body errors].
    cbn [fst snd] in *. subst errors.
    rewrite bool_decide_eq_true_2 by done. cbn [negb]. rewrite Hdraft.
    unfold_monad.
    destruct (List.find _ (genres s)) as [g|] eqn:E; cbn beta.
    + left. split; [done|]. right. left. intros Hfree.
      apply find_some in E as [Hin Heq].
      apply String.eqb_eq in Heq. exact (Hfree eq_refl g Hin Heq).
    + right. split; [done|]. by rewrite (save_valid _ _ _ _ Hvalid).
  - right. split; [done|]. unfold author_create_post.
    destruct (run_all author_chains (req_body req)) as [body errors].
    cbn [fst snd] in *. subst errors.
    rewrite bool_decide_eq_true_2 by done. cbn [negb]. rewrite Hdraft.
    unfold_monad. by rewrite (save_valid _ _ _ _ Hvalid).
  - right. split; [done|]. unfold book_create_post.
    destruct (run_all book_chains (genre_to_array (req_body req))) as [body errors].
    cbn [fst snd] in *. subst errors.
    rewrite bool_decide_eq_true_2 by done. cbn [negb]. rewrite Hdraft.
    unfold_monad. by rewrite (save_valid _ _ _ _ Hvalid).
  - unfold bookinstance_create_post.
    destruct (run_all bookinstance_chains (req_body req)) as [body errors].
    cbn [fst snd] in *. subst errors.
    rewrite bool_decide_eq_true_2 by done. cbn [negb]. rewrite Hdraft.
    unfold_monad. destruct (status_allowed KBookInstance (req_body req)).
    + right. split; [done|]. by rewrite (save_valid _ _ _ _ Hvalid).
    + left. rewrite save_invalid by (by rewrite Hvalid). cbn. auto.
Qed.

Lemma update_post_store `{DateLib} `{StatusEnum} (k : EntityKind) (req : Request)
    (s : Store) :
  single_valued k (req_body req) -> dates_single_valued k (req_body req) ->
  status_single_valued k (req_body req) ->
  (res_store (update_post k req s) = s /\
   ((validation k (req_body req)).2 <> [] \/ ~ name_free k (req_body req) s)) \/
  ((validation k (req_body req)).2 = [] /\
   res_store (update_post k req s)
   = with_updated k (params_id req) (req_body req) s).
Proof.
  intros Hs Hd Hst.
  destruct (decide ((validation k (req_body req)).2 = [])) as [Hacc|Hrej];
    [|left; split;
      [by apply (rejected_post_forms k EmptyString req s Hs Hrej)|by left]].
  pose proof (accepted_drafts k (params_id req) (req_body req) Hs Hd Hst Hacc)
    as Hdraft.
  pose proof (accepted_assign k (params_id req) (req_body req) Hs Hd Hst Hacc)
    as Hassign.
  destruct k; unfold validation in *; cbn [update_post with_updated].
  - unfold genre_update_post.
    destruct (run_all genre_chains (req_body req)) as [body errors].
    cbn [fst snd] in *. subst errors.
    rewrite bool_decide_eq_true_2 by done. cbn [negb]. rewrite Hdraft.
    unfold_monad.
    destruct (List.find _ (genres s)) as [g|] eqn:E; cbn.
    + left. rewrite ?store_eta. split; [done|]. right. intros Hfree.
      apply find_some in E as [Hin Heq].
      apply String.eqb_eq in Heq. exact (Hfree eq_refl g Hin Heq).
    + right. split; [done|].
      rewrite (update_id_ext g_id (params_id req) _
                 (fun _ => mkGenre (params_id req)
                             (sanitized (atom "name" (req_body req)))))
        by (intros d Hd'; etransitivity; [exact (Hassign d)|by rewrite Hd']).
      by destruct_lookup.
  - right. split; [done|]. unfold author_update_post.
    destruct (run_all author_chains (req_body req)) as [body errors].
    cbn [fst snd] in *. subst errors.
    rewrite bool_decide_eq_true_2 by done. cbn [negb]. rewrite Hdraft.
    unfold_monad.
    rewrite (update_id_ext a_id (params_id req) _
               (updated_author (params_id req) (req_body req)))
      by (intros d Hd'; etransitivity; [exact (Hassign d)|by rewrite Hd']).
    by destruct_lookup.
  - right. split; [done|]. unfold book_update_post.
    destruct (run_all book_chains (genre_to_array (req_body req))) as [body errors].
    cbn [fst snd] in *. subst errors.
    rewrite bool_decide_eq_true_2 by done. cbn [negb]. rewrite Hdraft.
    unfold_monad.
    rewrite (update_id_ext b_id (params_id req) _
               (fun _ => accepted_book (params_id req) (req_body req)))
      by (intros d Hd'; etransitivity; [exact (Hassign d)|by rewrite Hd']).
    by destruct_lookup.
  - right. split; [done|]. unfold bookinstance_update_post.
    destruct (run_all bookinstance_chains (req_body req)) as [body errors].
    cbn [fst snd] in *. subst errors.
    rewrite bool_decide_eq_true_2 by done. cbn [negb]. rewrite Hdraft.
    unfold_monad.
    rewrite (update_id_ext bi_id (params_id req) _
               (updated_bookinstance (params_id req) (req_body req)))
      by (intros d Hd'; etransitivity; [exact (Hassign d)|by rewrite Hd']).
    by destruct_lookup.
Qed.

Lemma Forall_update_id {A} (P : A -> Prop) (key : A -> ObjectId) (id : ObjectId)
    (f : A -> A) (l : list A) :
  (forall d, P (f d)) -> Forall P l -> Forall P (update_id key id f l).
Proof.
  intros Hf Hl. induction Hl as [|x t Hx Ht IH]; cbn; [constructor|].
  destruct (has_id key id x); constructor; auto.
Qed.

(** X11.  What the create and update handlers keep true of the store.  Say
    the store is clean when every Genre name, every Book title, author,
    summary and ISBN and every BookInstance book and imprint is a non-empty
    text free of the characters the escape replaces (quotes, angle brackets,
    slash, backslash, backtick), every Book genre and BookInstance status is
    free of them, and every Author name is alphanumeric.  On a body whose
    fields are single values or missing, a create-POST and an update-POST
    of any kind take a clean store to a clean store, whatever the body
    holds. *)
Theorem posts_keep_stored_clean `{DateLib} `{StatusEnum} (k : EntityKind) (new_id : ObjectId)
    (req : Request) (s : Store) :
  single_valued k (req_body req) -> dates_single_valued k (req_body req) ->
  status_single_valued k (req_body req) ->
  stored_clean s ->
  stored_clean (res_store (create_post k new_id req s)) /\
  stored_clean (res_store (update_post k req s)).
Proof.
  intros Hs Hd Hst Hclean. split.
  - destruct (create_post_store k new_id req s Hs Hd Hst) as [[-> _]|[Hacc ->]];
      [done|].
    pose proof (accepted_docs_clean k new_id (req_body req) Hs Hd Hacc) as Hdoc.
    destruct Hclean as (Hg & Ha & Hb & Hc).
    destruct k; cbn [with_created]; repeat split; cbn [genres authors books bookinstances];
      try done; apply Forall_app; split; try done; by constructor.
  - destruct (update_post_store k req s Hs Hd Hst) as [[-> _]|[Hacc ->]]; [done|].
    pose proof (accepted_docs_clean k (params_id req) (req_body req) Hs Hd Hacc)
      as Hdoc.
    destruct Hclean as (Hg & Ha & Hb & Hc).
    destruct k; cbn [with_updated]; repeat split; cbn [genres authors books bookinstances];
      try done; (apply Forall_update_id; [intros d; exact Hdoc|done]).
Qed.

Lemma posts_keep_stored_clean_witness :
  let req := mkRequest "g1" {[ "name" := JStr " <Sci/Fi> " ]} in
  let s := mkStore [mkGenre "g1" "Poetry"] [mkAuthor "a1" "Jane" "Austen" None None]
             [mkBook "b1" "Emma" "a1" "A story" "123" ["g1"]]
             [mkBookInstance "c1" "b1" "Penguin" "Available" None] in
  stored_clean (res_store (create_post (H := no_dates) (H0 := four_states) KGenre "g2" req s)) /\
  stored_clean (res_store (update_post (H := no_dates) (H0 := four_states) KGenre req s)).
Proof.
  cbn zeta. apply (posts_keep_stored_clean (H := no_dates) (H0 := four_states) KGenre).
  - fields_single.
  - fields_single.
  - intros Hk. discriminate Hk.
  - repeat split; repeat constructor.
Defined.


(** ** The forms that are not shown, the pages that are *)

Lemma blank_sanitized (a : Atom) : blank a = true -> sanitized a = EmptyString.
Proof.
  unfold blank, sanitized. intros Hb. apply bool_decide_eq_true in Hb.
  by rewrite Hb.
Qed.

(** X12.  A BookInstance form without a book is never shown again.  When
    the [book] field of the body is blank (empty once trimmed, or missing),
    the chains report it, and the create and update handlers, on their way
    to render the form with the errors, read [_id] of the book of the new
    document, which is not set: the error of that read goes to [next], no
    view is rendered, and the store is as it was. *)
Theorem bookinstance_post_blank_book `{DateLib} `{StatusEnum} (new_id : ObjectId) (req : Request)
    (s : Store) (a : Atom) :
  get "book" (req_body req) = JAtom a ->
  blank a = true ->
  let e := TypeError "Cannot read properties of undefined (reading '_id')" in
  create_post KBookInstance new_id req s = mkResult s [Next e] (inr tt) /\
  update_post KBookInstance req s = mkResult s [Next e] (inr tt).
Proof.
  intros Hget Hblank. cbn zeta.
  destruct (validation_required KBookInstance (req_body req) "book" a)
    as [Hcount Hbook]; [cbn; auto|exact Hget|].
  rewrite Hblank in Hcount. unfold validation in *.
  assert ((run_all bookinstance_chains (req_body req)).2 <> []) as Herr.
  { apply (count_param_pos "book"). by rewrite Hcount. }
  destruct (bookinstance_post_rejected new_id req s Herr) as [Hc Hu].
  cbn [create_post update_post]. rewrite Hc, Hu, !bookinstance_form_errors_run, Hbook.
  by rewrite (blank_sanitized a Hblank).
Qed.

Lemma bookinstance_post_blank_book_witness :
  let req := mkRequest "c1" {[ "book" := JStr "  "; "imprint" := JStr "Penguin" ]} in
  let s := mkStore [] [] [] [mkBookInstance "c1" "b1" "Penguin" "Available" None] in
  let e := TypeError "Cannot read properties of undefined (reading '_id')" in
  create_post (H := no_dates) (H0 := four_states) KBookInstance "c2" req s = mkResult s [Next e] (inr tt) /\
  update_post (H := no_dates) (H0 := four_states) KBookInstance req s = mkResult s [Next e] (inr tt).
Proof.
  cbn zeta.
  apply (bookinstance_post_blank_book (H := no_dates) (H0 := four_states) "c2" _ _ (AStr "  "));
    vm_compute; reflexivity.
Defined.

(** X13.  A blocked delete-POST shows the page of the delete-GET.  When the
    delete-POST of a Genre, an Author or a Book names the record of the
    route, that record exists and still has dependents (Books of the Genre
    or the Author, copies of the Book), the POST leaves the store as it was
    and renders the view of the GET with the locals of the GET, as the
    comment in the code says; for an Author and a Book the two responses are
    equal, for a Genre they differ, and only in the [title] local. *)
Theorem blocked_delete_post_as_get (k : EntityKind) (req : Request) (s : Store) :
  (k <> KBook -> id_of (get (id_field k) (req_body req)) = Some (params_id req)) ->
  has_record k (params_id req) s = true ->
  has_dependents k (params_id req) s = true ->
  res_store (delete_post k req s) = s /\
  map untitled (res_calls (delete_post k req s))
  = map untitled (res_calls (delete_get k req s)) /\
  (delete_post k req s = delete_get k req s <-> k <> KGenre).
Proof.
  intros Hid Hrec Hdep.
  destruct k; cbn [has_record has_dependents delete_post delete_get id_field] in *;
    try discriminate;
    apply lookup_id_found in Hrec as (old & Hold & _);
    apply negb_true_iff, bool_decide_eq_false in Hdep.
  - rewrite (genre_delete_post_run req s _ (Hid ltac:(discriminate))).
    unfold genre_delete_get, books_of_genre in *. unfold_monad. rewrite Hold.
    destruct (List.filter _ (books s)) as [|b l]; [done|]. cbn.
    repeat split; done.
  - rewrite (author_delete_post_run req s _ (Hid ltac:(discriminate))).
    unfold author_delete_get, books_of_author in *. unfold_monad. rewrite Hold.
    destruct (List.filter _ (books s)) as [|b l]; [done|]. cbn.
    repeat split; done.
  - rewrite book_delete_post_run.
    unfold book_delete_get, copies_of_book in *. unfold_monad. rewrite Hold. cbn.
    rewrite populate_all_book.
    destruct (List.filter _ (bookinstances s)) as [|c l]; [done|]. cbn.
    repeat split; done.
Qed.

Lemma blocked_delete_post_as_get_witness :
  let req := mkRequest "g1" {[ "genreid" := JStr "g1" ]} in
  let s := mkStore [mkGenre "g1" "Poetry"] []
             [mkBook "b1" "Emma" "a1" "A story" "123" ["g1"]] [] in
  res_store (delete_post KGenre req s) = s /\
  map untitled (res_calls (delete_post KGenre req s))
  = map untitled (res_calls (delete_get KGenre req s)) /\
  (delete_post KGenre req s = delete_get KGenre req s <-> KGenre <> KGenre).
Proof.
  cbn zeta. apply (blocked_delete_post_as_get KGenre); [|reflexivity|reflexivity].
  intros _. vm_compute. reflexivity.
Defined.


(** ** From a POST to the detail page *)

Lemma lookup_id_app_new {A} (key : A -> ObjectId) (id : ObjectId) (d : A)
    (l : list A) :
  existsb (has_id key id) l = false -> key d = id ->
  lookup_id key (Some id) (l ++ [d]) = Some d.
Proof.
  intros Hl Hd. induction l as [|x t IH]; cbn in *.
  - unfold has_id. by rewrite Hd, String.eqb_refl.
  - destruct (has_id key id x); [discriminate|]. by apply IH.
Qed.

(** X14.  A record just created is what its detail page shows.  After an
    accepted create-POST (for a Genre, with a name no Genre has; for a
    BookInstance, with a status of the fixed set, so that [save] stores it)
    that was given an id no record of the kind has, the detail-GET of that
    id renders the detail view of the kind, and the record on it is the
    document built from the sanitized body.  For a BookInstance this needs
    the submitted book to be a Book of the store. *)
Theorem created_record_detail `{DateLib} `{StatusEnum} (k : EntityKind)
    (new_id : ObjectId) (req req' : Request) (s : Store) :
  single_valued k (req_body req) -> dates_single_valued k (req_body req) ->
  status_single_valued k (req_body req) -> name_free k (req_body req) s ->
  (validation k (req_body req)).2 = [] ->
  status_allowed k (req_body req) = true ->
  has_record k new_id s = false ->
  (k = KBookInstance ->
   has_record KBook (sanitized (atom "book" (req_body req))) s = true) ->
  params_id req' = new_id ->
  let s' := res_store (create_post k new_id req s) in
  res_store (detail_get k req' s') = s' /\
  shown_record k (detail_get k req' s') = Some (accepted_doc k new_id (req_body req)).
Proof.
  intros Hs Hd Hst Hfree Hacc Hstatus Hnew Hbook Hid. cbn zeta.
  destruct (create_post_store k new_id req s Hs Hd Hst)
    as [[_ [Hrej|[Hn|Hbad]]]|[_ ->]]; [done|done|congruence|].
  destruct k; cbn [with_created detail_get has_record accepted_doc] in *.
  - unfold genre_detail, shown_record. unfold_monad. rewrite Hid.
    cbn [genres authors books bookinstances].
    rewrite (lookup_id_app_new g_id new_id (mkGenre new_id _) _ Hnew eq_refl). cbn.
    by rewrite ?store_eta.
  - unfold author_detail, shown_record. unfold_monad. rewrite Hid.
    cbn [genres authors books bookinstances].
    rewrite (lookup_id_app_new a_id new_id (accepted_author new_id _) _ Hnew eq_refl). cbn.
    by rewrite ?store_eta.
  - unfold book_detail, shown_record. unfold_monad. rewrite Hid.
    cbn [genres authors books bookinstances].
    rewrite (lookup_id_app_new b_id new_id (accepted_book new_id _) _ Hnew eq_refl). cbn.
    by rewrite ?store_eta.
  - unfold bookinstance_detail, shown_record. unfold_monad. rewrite Hid.
    cbn [genres authors books bookinstances].
    rewrite (lookup_id_app_new bi_id new_id (accepted_bookinstance new_id _) _ Hnew
             eq_refl). cbn.
    apply lookup_id_found in Hbook as (bk & Hbk & _); [|reflexivity].
    cbn in Hbk. rewrite Hbk. cbn. by rewrite ?store_eta.
Qed.

Lemma created_record_detail_witness :
  let req := mkRequest EmptyString {[ "name" := JStr " <Sci/Fi> " ]} in
  let s := mkStore [mkGenre "g1" "Poetry"] [] [] [] in
  let s' := res_store (create_post (H := no_dates) (H0 := four_states) KGenre "g2" req s) in
  res_store (detail_get KGenre (mkRequest "g2" ∅) s') = s' /\
  shown_record KGenre (detail_get KGenre (mkRequest "g2" ∅) s')
  = Some (DGenre (mkGenre "g2" "&lt;Sci&#x2F;Fi&gt;")).
Proof.
  cbn zeta.
  destruct (created_record_detail (H := no_dates) (H0 := four_states) KGenre "g2"
              (mkRequest EmptyString {[ "name" := JStr " <Sci/Fi> " ]})
              (mkRequest "g2" ∅) (mkStore [mkGenre "g1" "Poetry"] [] [] []))
    as [W1 W2].
  - fields_single.
  - fields_single.
  - intros Hk. discriminate Hk.
  - intros _ g [<-|[]]. vm_compute. discriminate.
  - vm_compute. reflexivity.
  - reflexivity.
  - reflexivity.
  - intros Hk. discriminate Hk.
  - reflexivity.
  - split; [exact W1|]. rewrite W2. vm_compute. reflexivity.
Defined.

(** X15.  A record just deleted is gone from its detail page.  When the
    ids of the collection of the kind are distinct, a delete-POST names a
    record, and the record the handler looks at (for a Book the one of the
    route) has no dependents, the handler redirects to the list of the kind
    and, in the store it leaves, the named id has no record: its detail-GET
    hands the 404 error of the kind to [next] and renders nothing. *)
Theorem deleted_record_detail (k : EntityKind) (req req' : Request) (s : Store)
    (id : ObjectId) :
  NoDup (collection_ids k s) ->
  id_of (get (id_field k) (req_body req)) = Some id ->
  has_dependents k (guarded_id k req id) s = false ->
  params_id req' = id ->
  let s' := res_store (delete_post k req s) in
  res_calls (delete_post k req s) = [Redirect (list_url k)] /\
  has_record k id s' = false /\
  detail_get k req' s' = mkResult s' [Next (not_found k)] (inr tt).
Proof.
  intros Hnd Hid Hdep Hreq. cbn zeta.
  destruct k;
    cbn [collection_ids id_field has_dependents guarded_id delete_post list_url
         has_record detail_get not_found] in *;
    try (apply negb_false_iff, bool_decide_eq_true in Hdep);
    pose proof (remove_id_lookup _ id _ Hnd) as Hgone.
  - rewrite (genre_delete_post_run req s id Hid), Hdep. cbn.
    split; [done|]. split.
    + destruct (existsb _ _) eqn:E; [|done].
      apply lookup_id_found in E as (old & Hold & _). congruence.
    + unfold genre_detail. unfold_monad. rewrite Hreq. cbn [genres].
      by rewrite Hgone.
  - rewrite (author_delete_post_run req s id Hid), Hdep. cbn.
    split; [done|]. split.
    + destruct (existsb _ _) eqn:E; [|done].
      apply lookup_id_found in E as (old & Hold & _). congruence.
    + unfold author_detail. unfold_monad. rewrite Hreq. cbn [authors].
      by rewrite Hgone.
  - rewrite book_delete_post_run, Hdep, Hid. cbn.
    split; [done|]. split.
    + destruct (existsb _ _) eqn:E; [|done].
      apply lookup_id_found in E as (old & Hold & _). congruence.
    + unfold book_detail. unfold_monad. rewrite Hreq. cbn [books].
      by rewrite Hgone.
  - unfold bookinstance_delete_post. rewrite Hid. unfold_monad. cbn.
    split; [done|]. split.
    + destruct (existsb _ _) eqn:E; [|done].
      apply lookup_id_found in E as (old & Hold & _). congruence.
    + unfold bookinstance_detail. unfold_monad. rewrite Hreq. cbn [bookinstances].
      by rewrite Hgone.
Qed.

Lemma deleted_record_detail_witness :
  let req := mkRequest "a1" {[ "authorid" := JStr "a1" ]} in
  let s := mkStore [] [mkAuthor "a1" "Jane" "Austen" None None;
                       mkAuthor "a2" "Emily" "Bronte" None None]
             [mkBook "b1" "Wuthering Heights" "a2" "A story" "123" []] [] in
  let s' := res_store (delete_post KAuthor req s) in
  res_calls (delete_post KAuthor req s) = [Redirect "/catalog/authors"] /\
  has_record KAuthor "a1" s' = false /\
  detail_get KAuthor (mkRequest "a1" ∅) s'
  = mkResult s' [Next (HttpError "Author not found" 404)] (inr tt).
Proof.
  cbn zeta.
  apply (deleted_record_detail KAuthor
           (mkRequest "a1" {[ "authorid" := JStr "a1" ]}) (mkRequest "a1" ∅)
           (mkStore [] [mkAuthor "a1" "Jane" "Austen" None None;
                        mkAuthor "a2" "Emily" "Bronte" None None]
              [mkBook "b1" "Wuthering Heights" "a2" "A story" "123" []] []) "a1").
  - cbn. apply (bool_decide_unpack _). vm_compute. exact I.
  - vm_compute. reflexivity.
  - vm_compute. reflexivity.
  - reflexivity.
Defined.

(** X16.  A copy of a book that is not in the store.  The create-POST of a
    BookInstance does not look the submitted book up: on an accepted body
    with a status of the fixed set, whose book is no Book of the store, it
    stores the copy all the same.  From then on the detail-GET and the
    update-GET of the copy, which read a field of its populated book, hand
    the error of reading a field of [null] to [next] and render nothing. *)
Theorem copy_of_missing_book `{DateLib} `{StatusEnum} (new_id : ObjectId)
    (req req' : Request) (s : Store) :
  single_valued KBookInstance (req_body req) ->
  dates_single_valued KBookInstance (req_body req) ->
  status_single_valued KBookInstance (req_body req) ->
  (validation KBookInstance (req_body req)).2 = [] ->
  status_allowed KBookInstance (req_body req) = true ->
  has_record KBookInstance new_id s = false ->
  has_record KBook (sanitized (atom "book" (req_body req))) s = false ->
  params_id req' = new_id ->
  let s' := res_store (create_post KBookInstance new_id req s) in
  let null_read f :=
    TypeError ("Cannot read properties of null (reading '" ++ f ++ "')") in
  bookinstances s'
  = bookinstances s ++ [accepted_bookinstance new_id (req_body req)] /\
  detail_get KBookInstance req' s' = mkResult s' [Next (null_read "title")] (inr tt) /\
  update_get KBookInstance req' s' = mkResult s' [Next (null_read "_id")] (inr tt).
Proof.
  intros Hs Hd Hst Hacc Hstatus Hnew Hbook Hid. cbn zeta.
  destruct (create_post_store KBookInstance new_id req s Hs Hd Hst)
    as [[_ [Hrej|[Hn|Hbad]]]|[_ ->]]; [done|by destruct Hn|congruence|].
  cbn [with_created detail_get update_get has_record bookinstances] in *.
  split; [done|].
  apply lookup_id_absent in Hbook.
  unfold bookinstance_detail, bookinstance_update_get. unfold_monad. rewrite Hid.
  cbn [genres authors books bookinstances].
  rewrite (lookup_id_app_new bi_id new_id (accepted_bookinstance new_id _) _ Hnew
             eq_refl). cbn.
  cbn in Hbook. rewrite Hbook. cbn. by rewrite ?store_eta.
Qed.

Lemma copy_of_missing_book_witness :
  let req := mkRequest EmptyString
               {[ "book" := JStr "b7"; "imprint" := JStr "Penguin";
                  "status" := JStr "Available"; "due_back" := JStr EmptyString ]} in
  let s := mkStore [] [] [mkBook "b1" "Emma" "a1" "A story" "123" []] [] in
  let s' := res_store (create_post (H := no_dates) (H0 := four_states) KBookInstance "c1" req s) in
  bookinstances s' = [mkBookInstance "c1" "b7" "Penguin" "Available" None] /\
  detail_get KBookInstance (mkRequest "c1" ∅) s'
  = mkResult s'
      [Next (TypeError "Cannot read properties of null (reading 'title')")] (inr tt) /\
  update_get KBookInstance (mkRequest "c1" ∅) s'
  = mkResult s'
      [Next (TypeError "Cannot read properties of null (reading '_id')")] (inr tt).
Proof.
  cbn zeta.
  destruct (copy_of_missing_book (H := no_dates) (H0 := four_states) "c1"
              (mkRequest EmptyString
                 {[ "book" := JStr "b7"; "imprint" := JStr "Penguin";
                    "status" := JStr "Available";
                    "due_back" := JStr EmptyString ]})
              (mkRequest "c1" ∅)
              (mkStore [] [] [mkBook "b1" "Emma" "a1" "A story" "123" []] []))
    as (W1 & W2 & W3).
  - fields_single.
  - fields_single.
  - intros _. eexists. vm_compute. reflexivity.
  - vm_compute. reflexivity.
  - reflexivity.
  - reflexivity.
  - vm_compute. reflexivity.
  - reflexivity.
  - split; [rewrite W1; vm_compute; reflexivity|]. split; [exact W2|exact W3].
Defined.


(** ** The genres ticked on the Book form *)

Lemma mark_checked_spec (selected : list ObjectId) (gs : list GenreDoc) :
  map fst (mark_checked selected gs) = gs /\
  forall g c, In (g, c) (mark_checked selected gs) ->
              In g gs /\ (c = true <-> In (g_id g) selected).
Proof.
  unfold mark_checked. split.
  - rewrite map_map. cbn. apply map_id.
  - intros g c Hin. apply in_map_iff in Hin as (g' & Heq & Hin).
    injection Heq as <- <-. split; [exact Hin|]. rewrite existsb_exists. split.
    + intros (i & Hi & Heq). apply String.eqb_eq in Heq. by rewrite Heq.
    + intros Hi. exists (g_id g'). split; [exact Hi|apply String.eqb_refl].
Qed.

(** X17.  The genres ticked on a rejected Book form.  When the chains
    reject the body of a Book create-POST or update-POST, the form that is
    rendered lists every Genre of the store, in the order of the store, and
    ticks exactly those whose id is the escaped text of one of the submitted
    genres (the single value, or the elements of the array). *)
Theorem rejected_book_form_genres `{DateLib} `{StatusEnum} (new_id : ObjectId) (req : Request)
    (s : Store) :
  (validation KBook (req_body req)).2 <> [] ->
  Forall (fun r =>
    exists choices,
      genre_choices r = Some choices /\
      map fst choices = genres s /\
      forall g c, In (g, c) choices ->
        (c = true <->
         exists a, In a (submitted_genres (req_body req)) /\
                   Validator.escape (toString a) = g_id g))
    [create_post KBook new_id req s; update_post KBook req s].
Proof.
  intros Herr. unfold validation in Herr. cbn [create_post update_post].
  destruct (book_post_rejected new_id req s Herr) as [-> ->].
  rewrite !book_form_errors_run. unfold new_Book. cbn [b_genre].
  rewrite validation_genre.
  set (sel := map _ (submitted_genres (req_body req))).
  destruct (mark_checked_spec sel (genres s)) as [Hfst Hin].
  assert (forall g c, In (g, c) (mark_checked sel (genres s)) ->
            (c = true <->
             exists a, In a (submitted_genres (req_body req)) /\
                       Validator.escape (toString a) = g_id g)) as Hticks.
  { intros g c Hgc. destruct (Hin g c Hgc) as [_ ->]. unfold sel.
    rewrite in_map_iff. split; intros (a & H1 & H2); exists a; auto. }
  repeat apply List.Forall_cons; [| |apply List.Forall_nil];
    exists (mark_checked sel (genres s)); auto.
Qed.

Lemma rejected_book_form_genres_witness :
  let req := mkRequest "b1" {[ "genre" := JStr "g2" ]} in
  let s := mkStore [mkGenre "g1" "Poetry"; mkGenre "g2" "Drama"] [] [] [] in
  Forall (fun r =>
    exists choices,
      genre_choices r = Some choices /\
      map fst choices = genres s /\
      forall g c, In (g, c) choices ->
        (c = true <->
         exists a, In a (submitted_genres (req_body req)) /\
                   Validator.escape (toString a) = g_id g))
    [create_post (H := no_dates) (H0 := four_states) KBook "b9" req s;
     update_post (H := no_dates) (H0 := four_states) KBook req s].
Proof.
  cbn zeta.
  apply (rejected_book_form_genres (H := no_dates) (H0 := four_states) "b9"
           (mkRequest "b1" {[ "genre" := JStr "g2" ]})
           (mkStore [mkGenre "g1" "Poetry"; mkGenre "g2" "Drama"] [] [] [])).
  vm_compute. discriminate.
Defined.

(** X18.  The genres ticked on the Book update form.  For a Book of the
    store, the update-GET lists every Genre of the store, in the order of
    the store, and ticks exactly those whose id is among the genres of the
    Book: a genre of the Book that is no Genre of the store is dropped by
    the population and ticks nothing. *)
Theorem book_update_get_genres (req : Request) (s : Store) (bk : BookDoc) :
  lookup_id b_id (Some (params_id req)) (books s) = Some bk ->
  exists choices,
    genre_choices (update_get KBook req s) = Some choices /\
    map fst choices = genres s /\
    forall g c, In (g, c) choices -> (c = true <-> In (g_id g) (b_genre bk)).
Proof.
  intros Hbk. cbn [update_get]. unfold book_update_get, genre_choices. unfold_monad.
  rewrite Hbk. cbn. rewrite !filter_all.
  set (sel := map g_id _).
  destruct (mark_checked_spec sel (genres s)) as [Hfst Hin].
  exists (mark_checked sel (genres s)). split; [reflexivity|]. split; [exact Hfst|].
  intros g c Hgc. destruct (Hin g c Hgc) as [Hg ->]. unfold sel.
  rewrite in_map_iff. split.
  - intros (g' & Hid & Hg').
    apply list_elem_of_In, list_elem_of_omap in Hg' as (i & Hi & Hlook).
    apply list_elem_of_In in Hi.
    cbn in Hlook. apply find_some in Hlook as [_ Heq].
    apply String.eqb_eq in Heq. congruence.
  - intros Hi.
    assert (existsb (has_id g_id (g_id g)) (genres s) = true) as Hex.
    { apply existsb_exists. exists g. split; [exact Hg|apply String.eqb_refl]. }
    apply lookup_id_found in Hex as (old & Hold & Hid).
    exists old. split; [exact Hid|].
    apply list_elem_of_In, list_elem_of_omap. exists (g_id g).
    split; [by apply list_elem_of_In|exact Hold].
Qed.

Lemma book_update_get_genres_witness :
  exists choices,
    genre_choices
      (update_get KBook (mkRequest "b1" ∅)
         (mkStore [mkGenre "g1" "Poetry"; mkGenre "g2" "Drama"] []
            [mkBook "b1" "Emma" "a1" "A story" "123" ["g2"; "g7"]] []))
    = Some choices /\
    map fst choices = [mkGenre "g1" "Poetry"; mkGenre "g2" "Drama"] /\
    forall g c, In (g, c) choices -> (c = true <-> In (g_id g) ["g2"; "g7"]).
Proof.
  apply (book_update_get_genres (mkRequest "b1" ∅)
           (mkStore [mkGenre "g1" "Poetry"; mkGenre "g2" "Drama"] []
              [mkBook "b1" "Emma" "a1" "A story" "123" ["g2"; "g7"]] [])
           (mkBook "b1" "Emma" "a1" "A story" "123" ["g2"; "g7"])).
  reflexivity.
Defined.


Lemma lookup_id_update {A} (key : A -> ObjectId) (id : ObjectId) (f : A -> A)
    (old : A) (l : list A) :
  lookup_id key (Some id) l = Some old -> key (f old) = id ->
  lookup_id key (Some id) (update_id key id f l) = Some (f old).
Proof.
  intros Hl Hf. induction l as [|x t IH]; cbn in *; [discriminate|].
  destruct (has_id key id x) eqn:E; cbn.
  - injection Hl as ->. unfold has_id. by rewrite Hf, String.eqb_refl.
  - rewrite E. by apply IH.
Qed.

(** X19.  A record just updated is what its detail page shows.  After an
    accepted update-POST (for a Genre, with a name no Genre has) for an id
    that has a record, the detail-GET of that id renders the detail view of
    the kind, and the record on it holds the fields of the document built
    from the sanitized body, with the id of the route; an optional date the
    body does not hold is the one the record had before.  For a
    BookInstance this needs the submitted book to be a Book of the store. *)
Theorem updated_record_detail `{DateLib} `{StatusEnum} (k : EntityKind)
    (req req' : Request) (s : Store) (old : Doc) :
  single_valued k (req_body req) -> dates_single_valued k (req_body req) ->
  status_single_valued k (req_body req) -> name_free k (req_body req) s ->
  (validation k (req_body req)).2 = [] ->
  stored_record k (params_id req) s = Some old ->
  (k = KBookInstance ->
   has_record KBook (sanitized (atom "book" (req_body req))) s = true) ->
  params_id req' = params_id req ->
  let s' := res_store (update_post k req s) in
  res_store (detail_get k req' s') = s' /\
  shown_record k (detail_get k req' s')
  = Some (updated_doc k (params_id req) (req_body req) old).
Proof.
  intros Hs Hd Hst Hfree Hacc Hrec Hbook Hid. cbn zeta.
  destruct (update_post_store k req s Hs Hd Hst) as [[_ [Hrej|Hn]]|[_ ->]];
    [done|done|].
  destruct k; cbn [with_updated detail_get has_record stored_record updated_doc] in *.
  - destruct (lookup_id g_id _ (genres s)) as [o|] eqn:Ho; [|discriminate].
    injection Hrec as <-.
    unfold genre_detail, shown_record. unfold_monad. rewrite Hid.
    cbn [genres authors books bookinstances].
    erewrite (lookup_id_update g_id _ _ o); [|exact Ho|reflexivity].
    cbn. by rewrite ?store_eta.
  - destruct (lookup_id a_id _ (authors s)) as [o|] eqn:Ho; [|discriminate].
    injection Hrec as <-.
    unfold author_detail, shown_record. unfold_monad. rewrite Hid.
    cbn [genres authors books bookinstances].
    erewrite (lookup_id_update a_id _ _ o); [|exact Ho|reflexivity].
    cbn. by rewrite ?store_eta.
  - destruct (lookup_id b_id _ (books s)) as [o|] eqn:Ho; [|discriminate].
    injection Hrec as <-.
    unfold book_detail, shown_record. unfold_monad. rewrite Hid.
    cbn [genres authors books bookinstances].
    erewrite (lookup_id_update b_id _ _ o); [|exact Ho|reflexivity].
    cbn. by rewrite ?store_eta.
  - destruct (lookup_id bi_id _ (bookinstances s)) as [o|] eqn:Ho; [|discriminate].
    injection Hrec as <-.
    unfold bookinstance_detail, shown_record. unfold_monad. rewrite Hid.
    cbn [genres authors books bookinstances].
    erewrite (lookup_id_update bi_id _ _ o); [|exact Ho|reflexivity].
    cbn. apply lookup_id_found in Hbook as (bk & Hbk & _); [|reflexivity].
    cbn in Hbk. rewrite Hbk. cbn. by rewrite ?store_eta.
Qed.

Lemma updated_record_detail_witness :
  let req := mkRequest "a1"
               {[ "first_name" := JStr " Jane "; "family_name" := JStr "Austen";
                  "date_of_death" := JStr EmptyString ]} in
  let s := mkStore []
             [mkAuthor "a1" "J" "A" (Some "1775-12-16") (Some "1817-07-18")] [] [] in
  let s' := res_store (update_post (H := no_dates) (H0 := four_states) KAuthor req s) in
  res_store (detail_get KAuthor (mkRequest "a1" ∅) s') = s' /\
  shown_record KAuthor (detail_get KAuthor (mkRequest "a1" ∅) s')
  = Some (DAuthor (mkAuthor "a1" "Jane" "Austen" (Some "1775-12-16") None)).
Proof.
  cbn zeta.
  destruct (updated_record_detail (H := no_dates) (H0 := four_states) KAuthor
              (mkRequest "a1"
                 {[ "first_name" := JStr " Jane "; "family_name" := JStr "Austen";
                    "date_of_death" := JStr EmptyString ]})
              (mkRequest "a1" ∅)
              (mkStore []
                 [mkAuthor "a1" "J" "A" (Some "1775-12-16") (Some "1817-07-18")] [] [])
              (DAuthor (mkAuthor "a1" "J" "A" (Some "1775-12-16") (Some "1817-07-18"))))
    as [W1 W2].
  - fields_single.
  - fields_single.
  - intros Hk. discriminate Hk.
  - intros Hk. discriminate Hk.
  - vm_compute. reflexivity.
  - reflexivity.
  - intros Hk. discriminate Hk.
  - reflexivity.
  - split; [exact W1|]. rewrite W2. vm_compute. reflexivity.
Defined.
